(** * AQVA: order lifecycle, claim protocol and payment reconciliation

    A shallow embedding of the order-handling code of the AQVA delivery
    app: the rider screen ([RiderApp]), the customer screen ([ClientApp]),
    role resolution ([App]) and the two edge functions ([stripe-webhook],
    [create-checkout]), followed by the properties of the order lifecycle
    that the specification states.

    Conventions.
    - The backing store is modelled by its two tables: [orders], keyed by the
      primary key [id], and [payments], a bag of rows (the source notes that
      it carries no unique constraint).  The columns [status] and
      [payment_status] hold the literals of the specification.
    - A call to the store either goes through, or reports an [error] and
      leaves the tables as they were; which of the two happens is an input
      ([fault]) of every function that issues the call.
    - Clock reads ([new Date().toISOString()], [Date.now()]), dialog answers
      ([window.confirm]) and the replies of remote services are inputs.
    - What the platform computes ([crypto.subtle], [Number], [JSON.parse],
      [fetch]) is a parameter ([Runtime]); numbers are exact rationals.
    - A JavaScript string is a [string], read as its UTF-8 bytes, so that
      [TextEncoder.encode] is the list of its bytes; [trim] removes the
      white space characters of ECMAScript, in that encoding, and
      [toUpperCase] acts on the letters below 128. *)

From Stdlib Require Import ZArith QArith Qabs String Ascii Bool Lia.
From stdpp Require Import gmap strings list fin_maps pretty.

Local Open Scope string_scope.
Local Open Scope list_scope.

(** ** Data model *)

Inductive OrderStatus :=
  Pending | Assigned | EnRoute | Delivered | Failed | Cancelled.

Inductive PaymentStatus := Unpaid | Paid | Refunded.

(** [status] column of the [payments] table. *)
Inductive PaymentRowStatus := PayPending | PayPaid | PayFailed.

#[global] Instance OrderStatus_eq_dec : EqDecision OrderStatus.
Proof. solve_decision. Defined.
#[global] Instance PaymentStatus_eq_dec : EqDecision PaymentStatus.
Proof. solve_decision. Defined.
#[global] Instance PaymentRowStatus_eq_dec : EqDecision PaymentRowStatus.
Proof. solve_decision. Defined.

(** One row of [orders]; the primary key [id] is the key of the table. *)
Record Order := mkOrder {
  o_user_id : option string;
  o_status : OrderStatus;
  o_payment_status : option PaymentStatus;
  o_payment_method : option string;
  o_rider_id : option string;
  o_total_cents : option Z;
  o_eta_minutes : option Z;
  o_created_at : string;
  o_updated_at : option string;
  o_delivered_at : option string;
  o_cancelled_at : option string
}.

(** One row of [payments]. *)
Record Payment := mkPayment {
  p_order_id : string;
  p_provider : string;
  p_provider_payment_id : string;
  p_amount_cents : Z;
  p_currency : string;
  p_status : PaymentRowStatus;
  p_created_at : string;
  p_updated_at : string
}.

Record Db := mkDb {
  orders : gmap string Order;
  payments : list Payment
}.

(** The [error.message] of a store call that did not go through. *)
Definition fault := option string.

(** [!s] is false exactly for a non-empty string. *)
Definition truthy (s : option string) : bool :=
  match s with
  | Some x => negb (String.eqb x "")
  | None => false
  end.

(** The three statuses from which no transition is permitted. *)
Definition terminal (s : OrderStatus) : bool :=
  match s with
  | Delivered | Failed | Cancelled => true
  | _ => false
  end.

(** ** The store: conditional updates *)

Module Store.

(** [.from('orders').update(patch).eq('id', oid).<filters>.select('id')]:
    the row with key [oid] is patched when it passes every filter; the
    ids of the patched rows come back. *)
Definition update_orders (patch : Order → Order) (oid : string)
    (filters : Order → bool) (db : Db) : Db * list string :=
  match orders db !! oid with
  | Some o =>
      if filters o
      then (mkDb (<[oid := patch o]> (orders db)) (payments db), [oid])
      else (db, [])
  | None => (db, [])
  end.

(** [.from('payments').update(patch).<filters>.select('id')]: every row
    passing the filters is patched; the patched rows come back. *)
Definition update_payments (patch : Payment → Payment)
    (filters : Payment → bool) (db : Db) : Db * list Payment :=
  (mkDb (orders db)
        (map (λ p, if filters p then patch p else p) (payments db)),
   map patch (filter (λ p, filters p = true) (payments db))).

(** [.from('payments').insert(row)] *)
Definition insert_payment (row : Payment) (db : Db) : Db :=
  mkDb (orders db) (payments db ++ [row]).

(** [.eq(column, value)] on a nullable text column. *)
Definition eq_col (c : option string) (v : string) : bool :=
  bool_decide (c = Some v).

(** [.is(column, null)] *)
Definition is_null {A} (c : option A) : bool :=
  match c with None => true | Some _ => false end.

End Store.

(** ** The rider screen ([RiderApp]) *)

Module RiderApp.

(** The component state: the [useState] cells the handlers write, and the
    messages shown through [alert], oldest first.  The rows of [orders_view]
    are kept as stored, with their id; the joined address and user, which
    no handler reads, are left out. *)
Record State := mkState {
  orders_view : list (string * Order);
  loading : bool;
  error : option string;
  updatingId : option string;
  riderId : option string;
  isOnline : bool;
  alerts : list string
}.

Definition setOrders v (s : State) :=
  mkState v (loading s) (error s) (updatingId s) (riderId s) (isOnline s) (alerts s).
Definition setLoading b (s : State) :=
  mkState (orders_view s) b (error s) (updatingId s) (riderId s) (isOnline s) (alerts s).
Definition setError e (s : State) :=
  mkState (orders_view s) (loading s) e (updatingId s) (riderId s) (isOnline s) (alerts s).
Definition setUpdatingId u (s : State) :=
  mkState (orders_view s) (loading s) (error s) u (riderId s) (isOnline s) (alerts s).
Definition alert (msg : string) (s : State) :=
  mkState (orders_view s) (loading s) (error s) (updatingId s) (riderId s) (isOnline s)
          (alerts s ++ [msg]).

(** [.in('status', ['assigned', 'en_route'])] *)
Definition in_delivery (s : OrderStatus) : bool :=
  match s with Assigned | EnRoute => true | _ => false end.

(** [.in('status', ['pending', 'assigned', 'en_route'])] *)
Definition in_progress (s : OrderStatus) : bool :=
  match s with Pending | Assigned | EnRoute => true | _ => false end.

(** [.order('created_at', { ascending: true })] *)
Fixpoint insert_by_created_at (r : string * Order) (l : list (string * Order)) :=
  match l with
  | [] => [r]
  | r' :: l' =>
      if String.leb (o_created_at r.2) (o_created_at r'.2)
      then r :: l
      else r' :: insert_by_created_at r l'
  end.

Definition order_by_created_at (l : list (string * Order)) :=
  foldr insert_by_created_at [] l.

(** The rows [loadOrders] selects. *)
Definition select_orders (db : Db) : list (string * Order) :=
  order_by_created_at
    (filter (λ r, in_progress (o_status r.2)
                  && bool_decide (o_payment_status r.2 = Some Paid) = true)
            (map_to_list (orders db))).

Definition loadOrders (f : fault) (db : Db) (s : State) : State :=
  let s := setError None (setLoading true s) in
  let s := setLoading false s in
  match f with
  | Some msg => setError (Some msg) s
  | None => setOrders (select_orders db) s
  end.

(** What [if (!riderId) return;] lets through: a non-empty rider id. *)
Definition rider_of (s : State) : option string :=
  if truthy (riderId s) then riderId s else None.

Definition hasActiveOrderForRider (f : fault) (rid : option string) (db : Db) : bool :=
  match (if truthy rid then rid else None) with
  | None => false
  | Some rid =>
      match f with
      | Some _ => false
      | None =>
          bool_decide
            (Exists (λ r, Store.eq_col (o_rider_id r.2) rid
                          && in_delivery (o_status r.2) = true)
                    (map_to_list (orders db)))
      end
  end.

(** The claim: the [update] of [acceptOrder] with its four filters. *)
Definition claim_patch (rid now : string) (o : Order) : Order :=
  mkOrder (o_user_id o) Assigned (o_payment_status o) (o_payment_method o)
          (Some rid) (o_total_cents o) (o_eta_minutes o) (o_created_at o)
          (Some now) (o_delivered_at o) (o_cancelled_at o).

Definition claim_filters (o : Order) : bool :=
  bool_decide (o_status o = Pending)
  && bool_decide (o_payment_status o = Some Paid)
  && Store.is_null (o_rider_id o).

Definition claim_update (rid now orderId : string) (db : Db) : Db * list string :=
  Store.update_orders (claim_patch rid now) orderId claim_filters db.

Definition msg_already_active :=
  "You already have an active delivery. Finish it before taking another one.".
Definition msg_no_longer_available :=
  "This order is no longer available (taken or not paid).".

(** [f_active], [f_update] and [f_load] are the faults of the three store
    calls, in the order the handler issues them. *)
Definition acceptOrder (orderId now : string) (f_active f_update f_load : fault)
    (db : Db) (s : State) : Db * State :=
  match rider_of s with
  | None => (db, s)
  | Some rid =>
      let s := setUpdatingId (Some orderId) (setError None s) in
      if hasActiveOrderForRider f_active (Some rid) db
      then (db, alert msg_already_active (setUpdatingId None s))
      else
        match f_update with
        | Some msg => (db, setError (Some msg) (setUpdatingId None s))
        | None =>
            let '(db', rows) := claim_update rid now orderId db in
            let s := setUpdatingId None s in
            match rows with
            | [] => (db', loadOrders f_load db' (alert msg_no_longer_available s))
            | _ :: _ => (db', loadOrders f_load db' s)
            end
        end
  end.

(** *** Delivery progression *)

Definition start_patch (now : string) (o : Order) : Order :=
  mkOrder (o_user_id o) EnRoute (o_payment_status o) (o_payment_method o)
          (o_rider_id o) (o_total_cents o) (Some 10%Z) (o_created_at o)
          (Some now) (o_delivered_at o) (o_cancelled_at o).

Definition delivered_patch (now : string) (o : Order) : Order :=
  mkOrder (o_user_id o) Delivered (o_payment_status o) (o_payment_method o)
          (o_rider_id o) (o_total_cents o) (o_eta_minutes o) (o_created_at o)
          (Some now) (Some now) (o_cancelled_at o).

Definition undeliverable_patch (now : string) (o : Order) : Order :=
  mkOrder (o_user_id o) Failed (o_payment_status o) (o_payment_method o)
          (o_rider_id o) (o_total_cents o) (o_eta_minutes o) (o_created_at o)
          (Some now) (o_delivered_at o) (Some now).

(** What the three handlers share once their [update] has been issued. *)
Definition after_update (f_update f_load : fault) (db' db : Db) (s : State)
    : Db * State :=
  let s := setUpdatingId None s in
  match f_update with
  | Some msg => (db, setError (Some msg) s)
  | None => (db', loadOrders f_load db' s)
  end.

Definition startDelivery (orderId now : string) (f_update f_load : fault)
    (db : Db) (s : State) : Db * State :=
  match rider_of s with
  | None => (db, s)
  | Some rid =>
      let s := setUpdatingId (Some orderId) (setError None s) in
      let db' :=
        (Store.update_orders (start_patch now) orderId
           (λ o, Store.eq_col (o_rider_id o) rid
                 && bool_decide (o_status o = Assigned)) db).1 in
      after_update f_update f_load db' db s
  end.

Definition markDelivered (orderId now : string) (f_update f_load : fault)
    (db : Db) (s : State) : Db * State :=
  match rider_of s with
  | None => (db, s)
  | Some rid =>
      let s := setUpdatingId (Some orderId) (setError None s) in
      let db' :=
        (Store.update_orders (delivered_patch now) orderId
           (λ o, Store.eq_col (o_rider_id o) rid
                 && bool_decide (o_status o = EnRoute)) db).1 in
      after_update f_update f_load db' db s
  end.

(** [confirmFail] is the answer to the [window.confirm] dialog. *)
Definition markUndeliverable (orderId now : string) (confirmFail : bool)
    (f_update f_load : fault) (db : Db) (s : State) : Db * State :=
  match rider_of s with
  | None => (db, s)
  | Some rid =>
      if negb confirmFail then (db, s)
      else
        let s := setUpdatingId (Some orderId) (setError None s) in
        let db' :=
          (Store.update_orders (undeliverable_patch now) orderId
             (λ o, Store.eq_col (o_rider_id o) rid
                   && in_delivery (o_status o)) db).1 in
        after_update f_update f_load db' db s
  end.

(** *** The lists on screen and the online switch *)

(** [availableOrders]: pending, no rider, paid. *)
Definition availableOrders (s : State) : list (string * Order) :=
  List.filter
    (λ r, bool_decide (o_status r.2 = Pending)
          && negb (truthy (o_rider_id r.2))
          && bool_decide (o_payment_status r.2 = Some Paid))
    (orders_view s).

(** [myOrders]: the rows of this rider that are assigned or en route. *)
Definition myOrders (s : State) : list (string * Order) :=
  List.filter
    (λ r, bool_decide (o_rider_id r.2 = riderId s) && in_delivery (o_status r.2))
    (orders_view s).

(** The "Accept order" button: [onClick={() => isOnline && acceptOrder(o.id)}]. *)
Definition clickAccept (orderId now : string) (f_active f_update f_load : fault)
    (db : Db) (s : State) : Db * State :=
  if isOnline s then acceptOrder orderId now f_active f_update f_load db s
  else (db, s).

Definition setIsOnline b (s : State) :=
  mkState (orders_view s) (loading s) (error s) (updatingId s) (riderId s) b (alerts s).

Definition msg_finish_before_offline :=
  "You have an active delivery. Finish it before going offline.".

(** [riders] is the column [is_online] of the table [riders], by rider id. *)
Definition toggleOnline (f : fault) (riders : gmap string bool) (s : State)
    : gmap string bool * State :=
  match rider_of s with
  | None => (riders, s)
  | Some rid =>
      let hasActive :=
        existsb (λ r, bool_decide (o_rider_id r.2 = Some rid)
                      && in_delivery (o_status r.2))
                (orders_view s) in
      if hasActive && isOnline s
      then (riders, alert msg_finish_before_offline s)
      else
        let newStatus := negb (isOnline s) in
        let s := setIsOnline newStatus s in
        match f with
        | Some _ => (riders, setError (Some "Unable to change online status.") s)
        | None =>
            (match riders !! rid with
             | Some _ => <[rid := newStatus]> riders
             | None => riders
             end, s)
        end
  end.

End RiderApp.

(** ** The customer screen ([ClientApp]) *)

Module ClientApp.

(** The cells of the component that the order card reads and writes;
    [orderStatus] is the row as last fetched, refreshed every five seconds. *)
Record State := mkState {
  lastOrderId : option string;
  orderStatus : option Order;
  loadingStatus : bool;
  error : option string
}.

Definition setOrderStatus v (s : State) :=
  mkState (lastOrderId s) v (loadingStatus s) (error s).
Definition setLoadingStatus b (s : State) :=
  mkState (lastOrderId s) (orderStatus s) b (error s).
Definition setError e (s : State) :=
  mkState (lastOrderId s) (orderStatus s) (loadingStatus s) e.

(** The message of [.single()] when the row is not there. *)
Definition msg_no_rows := "JSON object requested, multiple (or no) rows returned".

Definition fetchOrderStatus (f : fault) (orderId : string) (db : Db) (s : State)
    : State :=
  let s := setLoadingStatus false (setLoadingStatus true s) in
  match f with
  | Some msg => setError (Some msg) s
  | None =>
      match orders db !! orderId with
      | None => setError (Some msg_no_rows) s
      | Some o => setOrderStatus (Some o) s
      end
  end.

(** [['pending', 'assigned', 'en_route'].includes(orderStatus.status)] *)
Definition includes_active (st : OrderStatus) : bool :=
  match st with Pending | Assigned | EnRoute => true | _ => false end.

(** The "Cancel order" button is rendered inside
    [{lastOrderId && ...}], [{orderStatus && ...}] and the status test. *)
Definition cancel_button_rendered (s : State) : bool :=
  match lastOrderId s, orderStatus s with
  | Some oid, Some v => negb (String.eqb oid "") && includes_active (o_status v)
  | _, _ => false
  end.

Definition cancel_patch (t_cancelled t_updated : string) (o : Order) : Order :=
  mkOrder (o_user_id o) Cancelled (o_payment_status o) (o_payment_method o)
          (o_rider_id o) (o_total_cents o) (o_eta_minutes o) (o_created_at o)
          (Some t_updated) (o_delivered_at o) (Some t_cancelled).

(** [ok] is the answer to [window.confirm]; [t_cancelled] and [t_updated]
    are the two clock reads of the patch. *)
Definition handleCancelOrder (ok : bool) (t_cancelled t_updated : string)
    (f_update f_fetch : fault) (db : Db) (s : State) : Db * State :=
  match lastOrderId s, orderStatus s with
  | Some oid, Some _ =>
      if String.eqb oid "" then (db, s)
      else if negb ok then (db, s)
      else
        match f_update with
        | Some msg => (db, setError (Some msg) s)
        | None =>
            let db' :=
              (Store.update_orders (cancel_patch t_cancelled t_updated) oid
                 (λ _, true) db).1 in
            (db', fetchOrderStatus f_fetch oid db' s)
        end
  | _, _ => (db, s)
  end.

(** A click on the button, which exists only while it is rendered. *)
Definition clickCancel (ok : bool) (t_cancelled t_updated : string)
    (f_update f_fetch : fault) (db : Db) (s : State) : Db * State :=
  if cancel_button_rendered s
  then handleCancelOrder ok t_cancelled t_updated f_update f_fetch db s
  else (db, s).

End ClientApp.

(** ** Role resolution ([App]) *)

Module App.

Inductive Role := client | rider | admin.

(** How a promise settles. [Rejected m] carries [e?.message]. *)
Inductive Settled (A : Type) :=
| Resolved (a : A)
| Rejected (message : option string).
Arguments Resolved {A} a.
Arguments Rejected {A} message.

(** The [data] of the [is_admin] reply, as far as [=== true] tells. *)
Inductive RpcData := DataNull | DataTrue | DataOther.

Record RpcReply := mkRpcReply {
  rpc_data : RpcData;
  rpc_error : option string
}.

(** The [is_admin] request: it settles [delay] milliseconds after it was
    sent, or never. *)
Inductive InFlight (A : Type) :=
| SettlesAfter (delay : Z) (outcome : Settled A)
| NeverSettles.
Arguments SettlesAfter {A} delay outcome.
Arguments NeverSettles {A}.

(** [Promise.race([rpcPromise, timeoutPromise])]: the request wins when it
    settles before the timer fires. *)
Definition safeIsAdminRpc (timeoutMs : Z) (rpc : InFlight RpcReply)
    : Settled RpcReply :=
  match rpc with
  | SettlesAfter delay outcome =>
      if (delay <? timeoutMs)%Z then outcome
      else Resolved (mkRpcReply DataNull None)
  | NeverSettles => Resolved (mkRpcReply DataNull None)
  end.

Definition default_timeoutMs : Z := 1500.

(** The reply of the [riders] lookup: the row's id, and the error with its
    [code] and [message]. *)
Record RiderReply := mkRiderReply {
  riderRow : option string;
  riderError : option (string * string)
}.

Record State := mkState {
  role : option Role;
  resolvingRole : bool;
  error : option string;
  console : list string
}.

Definition setRole r (s : State) :=
  mkState r (resolvingRole s) (error s) (console s).
Definition setResolvingRole b (s : State) :=
  mkState (role s) b (error s) (console s).
Definition setError e (s : State) :=
  mkState (role s) (resolvingRole s) e (console s).
Definition console_error (msg : string) (s : State) :=
  mkState (role s) (resolvingRole s) (error s) (console s ++ [msg]).

Definition msg_unable := "Unable to detect user role.".

(** The [catch] block. *)
Definition on_exception (message : option string) (s : State) : State :=
  let s := console_error "exception" s in
  let s := setError (Some (default msg_unable message)) s in
  setRole (Some client) s.

(** Steps 2 and 3: the rider lookup, then the default. *)
Definition resolve_rider (riders : Settled RiderReply) (s : State) : State :=
  match riders with
  | Rejected m => on_exception m s
  | Resolved r =>
      match riderError r with
      | Some (code, _) =>
          if negb (String.eqb code "PGRST116")
          then setRole (Some client) (console_error "rider check error" s)
          else match riderRow r with
               | Some _ => setRole (Some rider) s
               | None => setRole (Some client) s
               end
      | None =>
          match riderRow r with
          | Some _ => setRole (Some rider) s
          | None => setRole (Some client) s
          end
      end
  end.

Definition resolveRole (rpc : InFlight RpcReply) (riders : Settled RiderReply)
    (s : State) : State :=
  let s := setError None (setResolvingRole true s) in
  let s :=
    match safeIsAdminRpc default_timeoutMs rpc with
    | Rejected m => on_exception m s
    | Resolved reply =>
        match rpc_error reply with
        | Some _ => resolve_rider riders (console_error "is_admin error" s)
        | None =>
            match rpc_data reply with
            | DataTrue => setRole (Some admin) s
            | _ => resolve_rider riders s
            end
        end
    end in
  setResolvingRole false s.

End App.

(** ** Strings and responses shared by the edge functions *)

(** [s.split(sep)] for a one-character separator. *)
Fixpoint split (sep : ascii) (s : string) : list string :=
  match s with
  | EmptyString => [EmptyString]
  | String c s' =>
      if Ascii.eqb c sep then EmptyString :: split sep s'
      else match split sep s' with
           | [] => [String c EmptyString]
           | w :: ws => String c w :: ws
           end
  end.

(** A JavaScript string is held as the bytes of its UTF-8 encoding, which is
    what [new TextEncoder().encode] returns and what [req.text()] decodes.
    A character outside ASCII is therefore two bytes or more. *)

(** The UTF-8 encoding of a code point below [0x10000]. *)
Definition utf8 (cp : N) : string :=
  if (cp <? 0x80)%N then String (ascii_of_N cp) EmptyString
  else if (cp <? 0x800)%N then
    String (ascii_of_N (0xC0 + cp / 64))
      (String (ascii_of_N (0x80 + cp mod 64)) EmptyString)
  else
    String (ascii_of_N (0xE0 + cp / 4096))
      (String (ascii_of_N (0x80 + (cp / 64) mod 64))
         (String (ascii_of_N (0x80 + cp mod 64)) EmptyString)).

(** The code points [trim] removes: the WhiteSpace of ECMAScript (TAB, VT,
    FF, SP, NBSP, the other space separators, ZWNBSP) and its
    LineTerminator (LF, CR, LS, PS). *)
Definition white_space_code_points : list N :=
  [0x9; 0xA; 0xB; 0xC; 0xD; 0x20; 0xA0; 0x1680;
   0x2000; 0x2001; 0x2002; 0x2003; 0x2004; 0x2005; 0x2006; 0x2007; 0x2008;
   0x2009; 0x200A; 0x2028; 0x2029; 0x202F; 0x205F; 0x3000; 0xFEFF]%N.

(** [w] is one white space character. *)
Definition is_white_space (w : string) : bool :=
  existsb (λ cp, String.eqb w (utf8 cp)) white_space_code_points.

(** [s.trimStart()]: a white space character is one, two or three bytes. *)
Fixpoint trimStart (s : string) : string :=
  match s with
  | EmptyString => s
  | String a s1 =>
      if is_white_space (String a EmptyString) then trimStart s1
      else
        match s1 with
        | EmptyString => s
        | String b s2 =>
            if is_white_space (String a (String b EmptyString)) then trimStart s2
            else
              match s2 with
              | EmptyString => s
              | String c s3 =>
                  if is_white_space (String a (String b (String c EmptyString)))
                  then trimStart s3
                  else s
              end
        end
  end.

(** [s.trimEnd()]: what is kept of [s] is its first byte followed by what is
    kept of the rest, unless that is one white space character. *)
Fixpoint trimEnd (s : string) : string :=
  match s with
  | EmptyString => EmptyString
  | String c s' =>
      let r := String c (trimEnd s') in
      if is_white_space r then EmptyString else r
  end.

(** [s.trim()] *)
Definition trim (s : string) : string := trimEnd (trimStart s).

(** [s.slice(n)] *)
Fixpoint slice (n : nat) (s : string) : string :=
  match n, s with
  | O, _ => s
  | S n', String _ s' => slice n' s'
  | S _, EmptyString => EmptyString
  end.

(** [p.startsWith(pre)] *)
Definition startsWith (pre p : string) : bool := String.prefix pre p.

(** [s.toUpperCase()], on the letters below 128. *)
Definition upper_char (c : ascii) : ascii :=
  let n := N_of_ascii c in
  if ((97 <=? n) && (n <=? 122))%N then ascii_of_N (n - 32) else c.

Fixpoint toUpperCase (s : string) : string :=
  match s with
  | EmptyString => EmptyString
  | String c s' => String (upper_char c) (toUpperCase s')
  end.

(** [new TextEncoder().encode(s)]: the bytes of the string. *)
Definition encode (s : string) : list Byte.byte := list_byte_of_string s.

(** The JSON bodies the two functions answer with. *)
#[warnings="-register-all"]
Inductive Json :=
| JNull
| JBool (b : bool)
| JNum (n : Z)
| JStr (s : string)
| JObj (fields : list (string * Json)).

Inductive Body :=
| Text (s : string)
| JsonBody (j : Json).

Record Response := mkResponse {
  status : Z;
  body : Body
}.

Definition json (status : Z) (fields : list (string * Json)) : Response :=
  mkResponse status (JsonBody (JObj fields)).

(** ** The payment webhook ([stripe-webhook]) *)

Module StripeWebhook.

(** [event.data.object] of a checkout event, with the fields the handler
    reads and the types its casts give them. *)
Record Session := mkSession {
  s_id : option string;
  s_metadata_order_id : option string;
  s_client_reference_id : option string;
  s_amount_total : option Z;
  s_currency : option string
}.

Record Event := mkEvent {
  e_type : option string;
  e_data_object : option Session
}.

(** What the platform provides. *)
Class Runtime := {
  (** [crypto.subtle.sign("HMAC", key, message)] under a SHA-256 key
      imported from the raw bytes [key] *)
  hmac_sha256 : list Byte.byte → list Byte.byte → list Byte.byte;
  (** [Number(t)], [None] when the result is not finite *)
  Number : string → option Q;
  (** [JSON.parse(rawBody)], or the message of the [SyntaxError] *)
  JSON_parse : string → Event + string
}.

Record Env := mkEnv {
  SUPABASE_URL : option string;
  SUPABASE_SERVICE_ROLE_KEY : option string;
  STRIPE_WEBHOOK_SECRET : option string
}.

Record Request := mkRequest {
  stripe_signature : option string;
  rawBody : string
}.

(** The faults of the store calls of one run: on [orders], on the update of
    [payments], on the insert into [payments]. *)
Record Faults := mkFaults {
  f_orders : fault;
  f_payments : fault;
  f_insert : fault
}.

Definition no_faults := mkFaults None None None.

Fixpoint xor_accumulate (out : N) (a b : list Byte.byte) : N :=
  match a, b with
  | x :: a', y :: b' =>
      xor_accumulate (N.lor out (N.lxor (Byte.to_N x) (Byte.to_N y))) a' b'
  | _, _ => out
  end.

Definition timingSafeEqualBytes (a b : list Byte.byte) : bool :=
  if negb (Nat.eqb (length a) (length b)) then false
  else N.eqb (xor_accumulate 0 a b) 0.

Definition hex_digit (n : N) : ascii :=
  if (n <? 10)%N then ascii_of_N (48 + n) else ascii_of_N (87 + n).

(** [b.toString(16).padStart(2, "0")] *)
Definition hex_byte (b : Byte.byte) : string :=
  let n := Byte.to_N b in
  String (hex_digit (n / 16)) (String (hex_digit (n mod 16)) EmptyString).

Definition hmacSha256Hex `{Runtime} (secret message : string) : string :=
  let sig := hmac_sha256 (encode secret) (encode message) in
  String.concat "" (map hex_byte sig).

Definition parseStripeSignature (header : string) : option string * list string :=
  let parts := map trim (split "," header) in
  let t := slice 2 <$> List.find (startsWith "t=") parts in
  let v1s := map (slice 3) (List.filter (startsWith "v1=") parts) in
  (t, v1s).

Definition toleranceSec : Q := 300.

(** [Math.abs(nowSec - ts) > toleranceSec] *)
Definition outside_tolerance (nowSec : Z) (ts : Q) : bool :=
  negb (Qle_bool (Qabs (inject_Z nowSec - ts)) toleranceSec).

(** [v1s.some((v1) => timingSafeEqualBytes(expectedBytes, encode(v1)))] *)
Definition signature_ok (expectedHex : string) (v1s : list string) : bool :=
  existsb (λ v1, timingSafeEqualBytes (encode expectedHex) (encode v1)) v1s.

Definition paid_order_patch (nowIso : string) (o : Order) : Order :=
  mkOrder (o_user_id o) (o_status o) (Some Paid) (Some "card")
          (o_rider_id o) (o_total_cents o) (o_eta_minutes o) (o_created_at o)
          (Some nowIso) (o_delivered_at o) (o_cancelled_at o).

Definition unpaid_order_patch (nowIso : string) (o : Order) : Order :=
  mkOrder (o_user_id o) (o_status o) (Some Unpaid) (o_payment_method o)
          (o_rider_id o) (o_total_cents o) (o_eta_minutes o) (o_created_at o)
          (Some nowIso) (o_delivered_at o) (o_cancelled_at o).

Definition payment_status_patch (st : PaymentRowStatus) (nowIso : string)
    (p : Payment) : Payment :=
  mkPayment (p_order_id p) (p_provider p) (p_provider_payment_id p)
            (p_amount_cents p) (p_currency p) st (p_created_at p) nowIso.

(** [.eq("order_id", orderId).eq("provider", "stripe")
     .eq("provider_payment_id", sessionId)] *)
Definition session_filters (orderId sessionId : string) (p : Payment) : bool :=
  String.eqb (p_order_id p) orderId
  && String.eqb (p_provider p) "stripe"
  && String.eqb (p_provider_payment_id p) sessionId.

(** A store call whose result is not looked at: it applies unless it fails. *)
Definition attempt (f : fault) (db' db : Db) : Db :=
  match f with Some _ => db | None => db' end.

(** The row inserted when the update of [payments] reported no row. *)
Definition fallback_row (orderId sessionId nowIso : string)
    (session : option Session) : Payment :=
  mkPayment orderId "stripe" sessionId
            (default 0%Z (session ≫= s_amount_total))
            (toUpperCase (default "ZAR" (session ≫= s_currency)))
            PayPaid nowIso nowIso.

Definition checkout_completed (fs : Faults) (orderId sessionId nowIso : string)
    (session : option Session) (db : Db) : Response * Db :=
  let db :=
    attempt (f_orders fs)
      (Store.update_orders (paid_order_patch nowIso) orderId (λ _, true) db).1 db in
  let upd :=
    Store.update_payments (payment_status_patch PayPaid nowIso)
      (session_filters orderId sessionId) db in
  let db := attempt (f_payments fs) upd.1 db in
  let updatedRows :=
    match f_payments fs with Some _ => None | None => Some upd.2 end in
  let db :=
    match updatedRows with
    | Some (_ :: _) => db
    | _ =>
        attempt (f_insert fs)
          (Store.insert_payment (fallback_row orderId sessionId nowIso session) db)
          db
    end in
  (json 200 [("ok", JBool true)], db).

Definition checkout_expired (fs : Faults) (orderId sessionId nowIso : string)
    (db : Db) : Response * Db :=
  let db :=
    attempt (f_payments fs)
      (Store.update_payments (payment_status_patch PayFailed nowIso)
         (session_filters orderId sessionId) db).1 db in
  let db :=
    attempt (f_orders fs)
      (Store.update_orders (unpaid_order_patch nowIso) orderId (λ _, true) db).1 db in
  (json 200 [("ok", JBool true)], db).

(** [a ?? b] *)
Definition nullish {A} (a b : option A) : option A :=
  match a with Some x => Some x | None => b end.

(** The part of the handler after the signature has been accepted. *)
Definition process_event `{Runtime} (fs : Faults) (rawBody nowIso : string)
    (db : Db) : Response * Db :=
  match JSON_parse rawBody with
  | inr message => (json 500 [("error", JStr message)], db)
  | inl event =>
      let session := e_data_object event in
      let sessionId := session ≫= s_id in
      let orderId :=
        nullish (session ≫= s_metadata_order_id)
                (session ≫= s_client_reference_id) in
      if negb (truthy orderId) || negb (truthy sessionId)
      then (json 200 [("ok", JBool true);
                      ("note", JStr "no orderId/sessionId (ignored)")], db)
      else
        let orderId := default "" orderId in
        let sessionId := default "" sessionId in
        if bool_decide (e_type event = Some "checkout.session.completed")
        then checkout_completed fs orderId sessionId nowIso session db
        else if bool_decide (e_type event = Some "checkout.session.expired")
        then checkout_expired fs orderId sessionId nowIso db
        else (json 200 (("ok", JBool true) ::
                        match e_type event with
                        | Some ty => [("ignored", JStr ty)]
                        | None => []
                        end), db)
  end.

(** [now_ms] is [Date.now()], [nowIso] is [new Date().toISOString()]. *)
Definition handler `{Runtime} (env : Env) (req : Request) (now_ms : Z)
    (nowIso : string) (fs : Faults) (db : Db) : Response * Db :=
  if negb (truthy (SUPABASE_URL env))
     || negb (truthy (SUPABASE_SERVICE_ROLE_KEY env))
     || negb (truthy (STRIPE_WEBHOOK_SECRET env))
  then (json 500 [("error",
          JStr "Missing SUPABASE_URL / SERVICE_ROLE_KEY / STRIPE_WEBHOOK_SECRET")], db)
  else
    let webhookSecret := default "" (STRIPE_WEBHOOK_SECRET env) in
    let sigHeader := default "" (stripe_signature req) in
    let '(t, v1s) := parseStripeSignature sigHeader in
    if negb (truthy t) || Nat.eqb (length v1s) 0
    then (json 400 [("error", JStr "missing signature")], db)
    else
      let t := default "" t in
      match Number t with
      | None => (json 400 [("error", JStr "invalid timestamp")], db)
      | Some ts =>
          let nowSec := (now_ms / 1000)%Z in
          if outside_tolerance nowSec ts
          then (json 401 [("error", JStr "timestamp outside tolerance")], db)
          else
            let signedPayload := t +:+ "." +:+ rawBody req in
            let expectedHex := hmacSha256Hex webhookSecret signedPayload in
            if negb (signature_ok expectedHex v1s)
            then (json 401 [("error", JStr "invalid signature")], db)
            else process_event fs (rawBody req) nowIso db
      end.

End StripeWebhook.

(** ** Checkout-session creation ([create-checkout]) *)

Module CreateCheckout.

Record Env := mkEnv {
  STRIPE_SECRET_KEY : option string;
  CHECKOUT_SUCCESS_URL : option string;
  CHECKOUT_CANCEL_URL : option string;
  SUPABASE_URL : option string;
  SUPABASE_SERVICE_ROLE_KEY : option string;
  SUPABASE_ANON_KEY : option string
}.

(** [order_id] is [payload?.order_id], [None] also when the body is not
    JSON. *)
Record Request := mkRequest {
  method : string;
  order_id : option string;
  authorization : option string
}.

(** The reply of [auth.getUser()]: [authErr] and [authData?.user?.id]. *)
Record AuthReply := mkAuthReply {
  authErr : option string;
  user_id : option string
}.

(** The outcome of the call to the payment provider: [fetch] (or
    [resp.json()]) throws, or the provider answers with [resp.ok] false and
    some body, or it answers with the session created. *)
Inductive StripeReply :=
| FetchRejected (message : string)
| StripeRefused (details : Json)
| StripeSession (id : string) (url : option string).

Class Runtime := {
  (** [auth.getUser()] of a client built with this [Authorization] header *)
  getUser : string → AuthReply;
  (** the POST to [/v1/checkout/sessions] with this key and this form *)
  fetch_stripe : string → list (string * string) → StripeReply
}.

(** The faults of the store calls of one run: the select on [orders], the
    update of [orders], the insert into [payments]. *)
Record Faults := mkFaults {
  f_select : fault;
  f_update : fault;
  f_insert : fault
}.

Definition no_faults := mkFaults None None None.

Definition status_text (st : OrderStatus) : string :=
  match st with
  | Pending => "pending"
  | Assigned => "assigned"
  | EnRoute => "en_route"
  | Delivered => "delivered"
  | Failed => "failed"
  | Cancelled => "cancelled"
  end.

(** [["cancelled", "delivered", "failed"].includes(order.status)] *)
Definition includes_closed (st : OrderStatus) : bool :=
  match st with Cancelled | Delivered | Failed => true | _ => false end.

(** The "card intent" tag: [update(...).eq("id", order.id)], no other
    filter. *)
Definition card_intent_patch (now : string) (o : Order) : Order :=
  mkOrder (o_user_id o) (o_status o) (o_payment_status o) (Some "card")
          (o_rider_id o) (o_total_cents o) (o_eta_minutes o) (o_created_at o)
          (Some now) (o_delivered_at o) (o_cancelled_at o).

Definition tag_card_intent (now orderId : string) (db : Db) : Db :=
  (Store.update_orders (card_intent_patch now) orderId (λ _, true) db).1.

(** The entries handed to [formEncode]. *)
Definition session_form (successUrl cancelUrl orderId : string) (o : Order)
    (amount : Z) : list (string * string) :=
  [ ("mode", "payment");
    ("success_url", successUrl);
    ("cancel_url", cancelUrl);
    ("client_reference_id", orderId);
    ("payment_method_types[0]", "card");
    ("line_items[0][quantity]", "1");
    ("line_items[0][price_data][currency]", "zar");
    ("line_items[0][price_data][unit_amount]", pretty amount);
    ("line_items[0][price_data][product_data][name]", "AQVA Water Delivery");
    ("metadata[order_id]", orderId);
    ("metadata[user_id]", default "" (o_user_id o)) ].

Definition pending_row (orderId sessionId : string) (amount : Z) (nowIso : string)
    : Payment :=
  mkPayment orderId "stripe" sessionId amount "ZAR" PayPending nowIso nowIso.

Definition option_json (s : option string) : Json :=
  match s with Some x => JStr x | None => JNull end.

(** Steps after the checks: tag the order, create the session, record the
    payment.  [t_tag] and [nowIso] are the two clock reads. *)
Definition create_session `{Runtime} (stripeKey successUrl cancelUrl : string)
    (orderId : string) (o : Order) (amount : Z) (t_tag nowIso : string)
    (fs : Faults) (db : Db) : Response * Db :=
  let db :=
    match f_update fs with
    | Some _ => db
    | None => tag_card_intent t_tag orderId db
    end in
  match fetch_stripe stripeKey (session_form successUrl cancelUrl orderId o amount) with
  | FetchRejected message => (json 500 [("error", JStr message)], db)
  | StripeRefused details =>
      (json 502 [("error", JStr "stripe session create failed");
                 ("stripe", details)], db)
  | StripeSession sid url =>
      let db :=
        match f_insert fs with
        | Some _ => db
        | None => Store.insert_payment (pending_row orderId sid amount nowIso) db
        end in
      (json 200 [("url", option_json url); ("session_id", JStr sid)], db)
  end.

Definition handler `{Runtime} (env : Env) (req : Request) (t_tag nowIso : string)
    (fs : Faults) (db : Db) : Response * Db :=
  if String.eqb (method req) "OPTIONS" then (mkResponse 200 (Text "ok"), db)
  else if negb (String.eqb (method req) "POST")
  then (json 405 [("error", JStr "Method not allowed")], db)
  else if negb (truthy (STRIPE_SECRET_KEY env))
  then (json 500 [("error", JStr "Missing STRIPE_SECRET_KEY")], db)
  else if negb (truthy (CHECKOUT_SUCCESS_URL env))
  then (json 500 [("error", JStr "Missing CHECKOUT_SUCCESS_URL")], db)
  else if negb (truthy (CHECKOUT_CANCEL_URL env))
  then (json 500 [("error", JStr "Missing CHECKOUT_CANCEL_URL")], db)
  else if negb (truthy (SUPABASE_URL env))
          || negb (truthy (SUPABASE_SERVICE_ROLE_KEY env))
          || negb (truthy (SUPABASE_ANON_KEY env))
  then (json 500 [("error",
          JStr "Missing SUPABASE_URL / SERVICE_ROLE_KEY / ANON_KEY")], db)
  else if negb (truthy (order_id req))
  then (json 400 [("error", JStr "order_id missing")], db)
  else
    let order_id := default "" (order_id req) in
    let auth := getUser (default "" (authorization req)) in
    if Store.is_null (authErr auth) && truthy (user_id auth) then
      let uid := default "" (user_id auth) in
      match f_select fs with
      | Some message =>
          (json 500 [("error", JStr "order select failed");
                     ("details", JStr message)], db)
      | None =>
          match orders db !! order_id with
          | None =>
              (json 404 [("error", JStr "order not found");
                         ("order_id", JStr order_id)], db)
          | Some o =>
              if negb (bool_decide (o_user_id o = Some uid))
              then (json 403 [("error", JStr "Forbidden (not your order)")], db)
              else if bool_decide (o_payment_status o = Some Paid)
              then (json 409 [("error", JStr "order already paid")], db)
              else if includes_closed (o_status o)
              then (json 409 [("error",
                      JStr ("order not payable in status=" +:+ status_text (o_status o)))],
                    db)
              else
                let amount := default 0%Z (o_total_cents o) in
                if (amount <? 100)%Z
                then (json 400 [("error", JStr "amount too low (>= 100 cents)")], db)
                else
                  create_session (default "" (STRIPE_SECRET_KEY env))
                    (default "" (CHECKOUT_SUCCESS_URL env))
                    (default "" (CHECKOUT_CANCEL_URL env))
                    order_id o amount t_tag nowIso fs db
          end
      end
    else (json 401 [("error", JStr "Unauthorized")], db).

End CreateCheckout.

(** ** The customer screen, continued: payment and profile *)

Module ClientPayment.

(** [data?.url], for the JSON the function answers with. *)
Definition json_field (k : string) (j : Json) : option Json :=
  match j with
  | JObj fields => snd <$> List.find (λ kv, String.eqb (fst kv) k) fields
  | _ => None
  end.

(** The string a truthy [data.url] is. *)
Definition truthy_string (j : option Json) : option string :=
  match j with
  | Some (JStr u) => if String.eqb u "" then None else Some u
  | _ => None
  end.

(** [supabase.functions.invoke('create-checkout', ...)]: a POST carrying the
    order id and the bearer token; [error] is set when the call fails
    ([f_invoke]) or the answer is not a 2xx, [data] is the JSON of a 2xx
    answer. *)
Definition invoke_create_checkout `{CreateCheckout.Runtime}
    (env : CreateCheckout.Env) (orderId accessToken : string) (f_invoke : fault)
    (t_tag nowIso : string) (fs : CreateCheckout.Faults) (db : Db)
    : option Json * bool * Db :=
  match f_invoke with
  | Some _ => (None, true, db)
  | None =>
      let req := CreateCheckout.mkRequest "POST" (Some orderId)
                   (Some ("Bearer " +:+ accessToken)) in
      let '(resp, db') := CreateCheckout.handler env req t_tag nowIso fs db in
      if ((200 <=? status resp) && (status resp <? 300))%Z
      then (match body resp with JsonBody j => Some j | Text _ => None end, false, db')
      else (None, true, db')
  end.

(** [sessionErr] and [accessToken] are what [auth.getSession()] returned.
    The third component of the result is the URL handed to
    [window.location.assign], if any. *)
Definition startStripeCheckout `{CreateCheckout.Runtime}
    (env : CreateCheckout.Env) (orderId : string)
    (sessionErr : option string) (accessToken : option string) (f_invoke : fault)
    (t_tag nowIso : string) (fs : CreateCheckout.Faults)
    (db : Db) (s : ClientApp.State) : Db * ClientApp.State * option string :=
  let s := ClientApp.setError None s in
  match sessionErr with
  | Some _ => (db, ClientApp.setError (Some "Auth failed. Please retry.") s, None)
  | None =>
      if negb (truthy accessToken)
      then (db, ClientApp.setError
                  (Some "You are not signed in anymore. Please log in again.") s, None)
      else
        let '(data, error, db') :=
          invoke_create_checkout env orderId (default "" accessToken) f_invoke
            t_tag nowIso fs db in
        if error
        then (db', ClientApp.setError (Some "Payment failed, try again.") s, None)
        else
          match truthy_string (data ≫= json_field "url") with
          | None => (db', ClientApp.setError (Some "Payment failed, try again.") s, None)
          | Some url => (db', s, Some url)
          end
  end.

(** A row of [users], and the signed-in user as [auth.getUser()] gives it. *)
Record UserProfile := mkUserProfile {
  up_id : string;
  up_auth_user_id : string;
  up_email : option string;
  up_full_name : option string;
  up_phone : option string
}.

Record AuthUser := mkAuthUser {
  au_id : string;
  au_email : option string;
  au_full_name : option string;
  au_phone : option string
}.

(** [.eq('auth_user_id', id).maybeSingle()]: the row when there is one, no
    row and no error when there is none, the error [PGRST116] when there are
    several; [f] is a failure of the call, with its code and message. *)
Definition select_profile (f : option (string * string)) (auth_id : string)
    (users : list UserProfile) : option UserProfile * option (string * string) :=
  match f with
  | Some e => (None, Some e)
  | None =>
      match List.filter (λ p, String.eqb (up_auth_user_id p) auth_id) users with
      | [] => (None, None)
      | [r] => (Some r, None)
      | _ => (None, Some ("PGRST116", ClientApp.msg_no_rows))
      end
  end.

(** The result is the profile, or the message of what was thrown; [new_id]
    is the id the store gives to an inserted row. *)
Definition ensureUserProfile (authError : option string) (user : option AuthUser)
    (f_select : option (string * string)) (f_insert : fault) (new_id : string)
    (users : list UserProfile) : (UserProfile + string) * list UserProfile :=
  match authError, user with
  | None, Some authUser =>
      let '(existing, selectError) := select_profile f_select (au_id authUser) users in
      let thrown :=
        match selectError with
        | Some (code, message) =>
            if negb (String.eqb code "PGRST116") then Some message else None
        | None => None
        end in
      match thrown with
      | Some message => (inr message, users)
      | None =>
          match existing with
          | Some p => (inl p, users)
          | None =>
              match f_insert with
              | Some message => (inr message, users)
              | None =>
                  let inserted :=
                    mkUserProfile new_id (au_id authUser) (au_email authUser)
                                  (au_full_name authUser) (au_phone authUser) in
                  (inl inserted, users ++ [inserted])
              end
          end
      end
  | _, _ => (inr "Not authenticated.", users)
  end.

End ClientPayment.

(** ** The screen shown ([App], continued) *)

Module AppShell.

(** What [App] returns: one of the two payment pages, one of the two
    waiting cards, the sign-in screen, or the dashboard of a role for the
    signed-in user, with the error banner if any. *)
Inductive Screen :=
| PaymentSuccess
| PaymentCancel
| SessionLoading
| AuthScreen
| RoleLoading
| AdminApp (userId : string) (banner : option string)
| RiderApp (userId : string) (banner : option string)
| ClientApp (userId : string) (banner : option string).

(** [session] is [session.user.id]. *)
Record Shell := mkShell {
  path : string;
  session : option string;
  loadingSession : bool;
  app : App.State
}.

Definition render (sh : Shell) : Screen :=
  if String.eqb (path sh) "/payment/success" then PaymentSuccess
  else if String.eqb (path sh) "/payment/cancel" then PaymentCancel
  else if loadingSession sh then SessionLoading
  else
    match session sh with
    | None => AuthScreen
    | Some userId =>
        if App.resolvingRole (app sh) then RoleLoading
        else
          match App.role (app sh) with
          | None => RoleLoading
          | Some App.admin => AdminApp userId (App.error (app sh))
          | Some App.rider => RiderApp userId (App.error (app sh))
          | Some App.client => ClientApp userId (App.error (app sh))
          end
    end.

(** The listener of [onAuthStateChange]; [rpc] and [riders] are the replies
    the role resolution gets. *)
Definition onAuthStateChange (newSession : option string)
    (rpc : App.InFlight App.RpcReply) (riders : App.Settled App.RiderReply)
    (sh : Shell) : Shell :=
  match newSession with
  | None => mkShell (path sh) None (loadingSession sh) (App.setRole None (app sh))
  | Some userId =>
      mkShell (path sh) (Some userId) (loadingSession sh)
              (App.resolveRole rpc riders (app sh))
  end.

(** [handleLogout], the [signOut] call returning. *)
Definition handleLogout (sh : Shell) : Shell :=
  mkShell (path sh) None (loadingSession sh) (App.setRole None (app sh)).

End AppShell.

(** ** The admin dashboard ([AdminApp]) *)

Module AdminApp.

Record State := mkState {
  orders_view : list (string * Order);
  loading : bool;
  error : option string;
  statusFilter : string
}.

Definition STATUS_OPTIONS : list string :=
  ["all"; "pending"; "assigned"; "en_route"; "delivered"; "cancelled"; "failed"].

Definition setOrders v (s : State) := mkState v (loading s) (error s) (statusFilter s).
Definition setLoading b (s : State) := mkState (orders_view s) b (error s) (statusFilter s).
Definition setError e (s : State) := mkState (orders_view s) (loading s) e (statusFilter s).
Definition setStatusFilter f (s : State) := mkState (orders_view s) (loading s) (error s) f.

(** [if (statusFilter !== 'all') query = query.eq('status', statusFilter)] *)
Definition keeps (statusFilter : string) (r : string * Order) : bool :=
  String.eqb statusFilter "all"
  || String.eqb (CreateCheckout.status_text (o_status r.2)) statusFilter.

(** [.order('created_at', { ascending: false })] *)
Fixpoint insert_by_created_at_desc (r : string * Order) (l : list (string * Order)) :=
  match l with
  | [] => [r]
  | r' :: l' =>
      if String.leb (o_created_at r'.2) (o_created_at r.2)
      then r :: l
      else r' :: insert_by_created_at_desc r l'
  end.

(** The query of [loadOrders]; the source sets no [limit] or [range], and
    none is modelled. *)
Definition select_orders (statusFilter : string) (db : Db) : list (string * Order) :=
  foldr insert_by_created_at_desc []
        (List.filter (keeps statusFilter) (map_to_list (orders db))).

Definition loadOrders (f : fault) (db : Db) (s : State) : State :=
  let s := setError None (setLoading true s) in
  let s := setLoading false s in
  match f with
  | Some msg => setError (Some msg) s
  | None => setOrders (select_orders (statusFilter s) db) s
  end.

(** [orders.reduce((sum, o) => sum + (o.total_cents ?? 0), 0)] *)
Definition totalAmountCents (s : State) : Z :=
  fold_left (λ sum r, (sum + default 0 (o_total_cents r.2))%Z) (orders_view s) 0%Z.

End AdminApp.

(** ** Predicates used in the statements *)

(** The state an order must be in for a claim to go through. *)
Definition claimable (db : Db) (oid : string) : Prop :=
  ∃ o, orders db !! oid = Some o
       ∧ o_status o = Pending
       ∧ o_payment_status o = Some Paid
       ∧ o_rider_id o = None.


(** ** Sample data *)

Definition sample_order (st : OrderStatus) (pay : option PaymentStatus)
    (rider : option string) : Order :=
  mkOrder (Some "u1") st pay (Some "card") rider (Some 23997%Z) None
          "2025-01-01T10:00:00.000Z" None None None.

Definition sample_db (st : OrderStatus) (pay : option PaymentStatus)
    (rider : option string) : Db :=
  mkDb {[ "o1" := sample_order st pay rider ]} [].

Definition sample_rider : RiderApp.State :=
  RiderApp.mkState [] false None None (Some "r1") true [].

(** The customer looking at ["o1"] with a view fetched while the order was
    in status [st]. *)
Definition sample_client (st : OrderStatus) : ClientApp.State :=
  ClientApp.mkState (Some "o1") (Some (sample_order st (Some Paid) (Some "r1")))
                    false None.

(** The admin check said "not admin": it resolved (in time, or by the
    timer) with an error or with data other than [true]. *)
Definition not_admin (r : App.Settled App.RpcReply) : Prop :=
  ∃ reply, r = App.Resolved reply
           ∧ (App.rpc_error reply ≠ None ∨ App.rpc_data reply ≠ App.DataTrue).

(** The rider lookup returned a row, with no error but possibly [PGRST116]. *)
Definition rider_found (r : App.RiderReply) : Prop :=
  (∃ id, App.riderRow r = Some id)
  ∧ (App.riderError r = None ∨ ∃ m, App.riderError r = Some ("PGRST116", m)).

Definition fresh_app : App.State := App.mkState None false None [].

(** The webhook's environment is complete and holds [secret]. *)
Definition configured (env : StripeWebhook.Env) (secret : string) : Prop :=
  truthy (StripeWebhook.SUPABASE_URL env) = true
  ∧ truthy (StripeWebhook.SUPABASE_SERVICE_ROLE_KEY env) = true
  ∧ StripeWebhook.STRIPE_WEBHOOK_SECRET env = Some secret
  ∧ secret ≠ "".

(** The signature header carries the timestamp [t], read as the number
    [ts], and the signatures [v1s], of which there is at least one. *)
Definition signed_with `{StripeWebhook.Runtime} (req : StripeWebhook.Request)
    (t : string) (ts : Q) (v1s : list string) : Prop :=
  StripeWebhook.parseStripeSignature (default "" (StripeWebhook.stripe_signature req))
  = (Some t, v1s)
  ∧ t ≠ "" ∧ v1s ≠ []
  ∧ StripeWebhook.Number t = Some ts.

Definition invalid_signature : Response :=
  json 401 [("error", JStr "invalid signature")].

Definition timestamp_outside_tolerance : Response :=
  json 401 [("error", JStr "timestamp outside tolerance")].

(** A stand-in platform for the examples: decimal timestamps, one known
    event body, and a keyed function in place of the MAC. *)
Fixpoint digits_value (acc : Z) (s : string) : option Z :=
  match s with
  | EmptyString => Some acc
  | String c s' =>
      let n := Z.of_N (N_of_ascii c) in
      if ((48 <=? n) && (n <=? 57))%Z
      then digits_value (10 * acc + (n - 48)) s'
      else None
  end.

Definition sample_session : StripeWebhook.Session :=
  StripeWebhook.mkSession (Some "cs_test_1") (Some "o1") None (Some 100%Z) (Some "zar").

Definition sample_event : StripeWebhook.Event :=
  StripeWebhook.mkEvent (Some "checkout.session.completed") (Some sample_session).

Definition sample_body : string := "{checkout.session.completed cs_test_1 o1}".

Definition sample_runtime : StripeWebhook.Runtime :=
  {| StripeWebhook.hmac_sha256 := λ key message, take 4 (rev message ++ key);
     StripeWebhook.Number := λ t, inject_Z <$> digits_value 0 t;
     StripeWebhook.JSON_parse := λ b,
       if String.eqb b sample_body then inl sample_event
       else inr "Unexpected token" |}.

Definition sample_env : StripeWebhook.Env :=
  StripeWebhook.mkEnv (Some "https://aqva.supabase.co") (Some "service-key")
                      (Some "whsec_test").

Definition sample_request : StripeWebhook.Request :=
  StripeWebhook.mkRequest
    (Some ("t=1700000000,v1=" +:+
           @StripeWebhook.hmacSha256Hex sample_runtime "whsec_test"
              ("1700000000." +:+ sample_body)))
    sample_body.

(** The delivery of [req] at time [now_ms] passes every check of the
    handler up to and including the signature. *)
Definition accepted_at `{StripeWebhook.Runtime} (env : StripeWebhook.Env)
    (req : StripeWebhook.Request) (now_ms : Z) : Prop :=
  ∃ secret t ts v1s,
    configured env secret
    ∧ signed_with req t ts v1s
    ∧ StripeWebhook.outside_tolerance (now_ms / 1000) ts = false
    ∧ StripeWebhook.hmacSha256Hex secret (t +:+ "." +:+ StripeWebhook.rawBody req) ∈ v1s.

(** The body of [req] is a checkout-completed event about the order
    [orderId] and the provider session [sessionId]. *)
Definition completed_event `{StripeWebhook.Runtime} (req : StripeWebhook.Request)
    (orderId sessionId : string) (session : StripeWebhook.Session) : Prop :=
  StripeWebhook.JSON_parse (StripeWebhook.rawBody req)
  = inl (StripeWebhook.mkEvent (Some "checkout.session.completed") (Some session))
  ∧ StripeWebhook.nullish (StripeWebhook.s_metadata_order_id session)
                          (StripeWebhook.s_client_reference_id session)
    = Some orderId
  ∧ StripeWebhook.s_id session = Some sessionId
  ∧ orderId ≠ "" ∧ sessionId ≠ "".

(** The rows of [payments] that the updates of the webhook select for one
    order and provider session. *)
Definition session_rows (orderId sessionId : string) (db : Db) : list Payment :=
  filter (λ p, StripeWebhook.session_filters orderId sessionId p = true) (payments db).

(** [db] with the [updated_at] of the order and of the session's rows set
    to [nowIso], and nothing else changed. *)
Definition restamp_order (nowIso : string) (o : Order) : Order :=
  mkOrder (o_user_id o) (o_status o) (o_payment_status o) (o_payment_method o)
          (o_rider_id o) (o_total_cents o) (o_eta_minutes o) (o_created_at o)
          (Some nowIso) (o_delivered_at o) (o_cancelled_at o).

Definition restamp_payment (nowIso : string) (p : Payment) : Payment :=
  mkPayment (p_order_id p) (p_provider p) (p_provider_payment_id p)
            (p_amount_cents p) (p_currency p) (p_status p) (p_created_at p) nowIso.

Definition restamp (orderId sessionId nowIso : string) (db : Db) : Db :=
  mkDb (alter (restamp_order nowIso) orderId (orders db))
       (map (λ p, if StripeWebhook.session_filters orderId sessionId p
                  then restamp_payment nowIso p else p)
            (payments db)).

(** The environment of [create-checkout] is complete. *)
Definition ready (env : CreateCheckout.Env) : Prop :=
  truthy (CreateCheckout.STRIPE_SECRET_KEY env) = true
  ∧ truthy (CreateCheckout.CHECKOUT_SUCCESS_URL env) = true
  ∧ truthy (CreateCheckout.CHECKOUT_CANCEL_URL env) = true
  ∧ truthy (CreateCheckout.SUPABASE_URL env) = true
  ∧ truthy (CreateCheckout.SUPABASE_SERVICE_ROLE_KEY env) = true
  ∧ truthy (CreateCheckout.SUPABASE_ANON_KEY env) = true.

Definition unauthenticated (a : CreateCheckout.AuthReply) : Prop :=
  CreateCheckout.authErr a ≠ None ∨ truthy (CreateCheckout.user_id a) = false.

Definition authenticated_as (a : CreateCheckout.AuthReply) (uid : string) : Prop :=
  CreateCheckout.authErr a = None ∧ CreateCheckout.user_id a = Some uid ∧ uid ≠ "".

(** The request to the provider that [create-checkout] makes for order [o]. *)
Definition provider_reply `{CreateCheckout.Runtime} (env : CreateCheckout.Env)
    (orderId : string) (o : Order) : CreateCheckout.StripeReply :=
  CreateCheckout.fetch_stripe
    (default "" (CreateCheckout.STRIPE_SECRET_KEY env))
    (CreateCheckout.session_form
       (default "" (CreateCheckout.CHECKOUT_SUCCESS_URL env))
       (default "" (CreateCheckout.CHECKOUT_CANCEL_URL env))
       orderId o (default 0%Z (o_total_cents o))).

(** Stand-in platforms for the examples: the token ["Bearer good"] belongs
    to user ["u1"]; the provider creates a session, or cannot be reached. *)
Definition sample_getUser (authorization : string) : CreateCheckout.AuthReply :=
  if String.eqb authorization "Bearer good"
  then CreateCheckout.mkAuthReply None (Some "u1")
  else CreateCheckout.mkAuthReply (Some "invalid JWT") None.

Definition sample_checkout_runtime : CreateCheckout.Runtime :=
  {| CreateCheckout.getUser := sample_getUser;
     CreateCheckout.fetch_stripe := λ _ _,
       CreateCheckout.StripeSession "cs_test_1"
         (Some "https://checkout.stripe.com/c/pay/cs_test_1") |}.

Definition offline_checkout_runtime : CreateCheckout.Runtime :=
  {| CreateCheckout.getUser := sample_getUser;
     CreateCheckout.fetch_stripe := λ _ _,
       CreateCheckout.FetchRejected "error sending request" |}.

Definition sample_checkout_env : CreateCheckout.Env :=
  CreateCheckout.mkEnv (Some "sk_test") (Some "https://aqva.app/payment/success")
    (Some "https://aqva.app/payment/cancel") (Some "https://aqva.supabase.co")
    (Some "service-key") (Some "anon-key").

Definition sample_checkout_request : CreateCheckout.Request :=
  CreateCheckout.mkRequest "POST" (Some "o1") (Some "Bearer good").

(** The tag of [create-checkout] has rewritten the row [o] stored under
    [orderId]: "card" and the clock read, the rest as it was. *)
Definition tag_orders (now orderId : string) (db : Db) (o : Order) : Prop :=
  orders (CreateCheckout.tag_card_intent now orderId db)
  = <[orderId := mkOrder (o_user_id o) (o_status o) (o_payment_status o)
                   (Some "card") (o_rider_id o) (o_total_cents o)
                   (o_eta_minutes o) (o_created_at o) (Some now)
                   (o_delivered_at o) (o_cancelled_at o)]> (orders db).

(** ** Further predicates and sample data *)

(** The characters [toString(16)] produces. *)
Definition is_lower_hex (c : ascii) : bool :=
  let n := N_of_ascii c in
  ((48 <=? n) && (n <=? 57) || (97 <=? n) && (n <=? 102))%N.

Fixpoint string_forall (P : ascii → bool) (s : string) : bool :=
  match s with
  | EmptyString => true
  | String c s' => P c && string_forall P s'
  end.

(** Reading two hex digits back, used to show that the encoding loses
    nothing. *)
Definition hex_value (c : ascii) : option N :=
  let n := N_of_ascii c in
  if ((48 <=? n) && (n <=? 57))%N then Some (n - 48)%N
  else if ((97 <=? n) && (n <=? 102))%N then Some (n - 87)%N
  else None.

Definition unhex_byte (s : string) : option Byte.byte :=
  match s with
  | String hi (String lo EmptyString) =>
      match hex_value hi, hex_value lo with
      | Some h, Some l => Byte.of_N (16 * h + l)
      | _, _ => None
      end
  | _ => None
  end.

(** The signature header the provider sends: the timestamp, then one or
    more signatures. *)
Definition signature_header (t : string) (v1s : list string) : string :=
  String.concat "," (("t=" +:+ t) :: map (λ v, "v1=" +:+ v) v1s).

(** White space as ECMAScript defines it, by code point: TAB to CR, SP,
    NBSP, the space separators of Unicode, LS, PS and ZWNBSP. *)
Definition WhiteSpace (cp : N) : Prop :=
  (0x9 ≤ cp ≤ 0xD ∨ cp = 0x20 ∨ cp = 0xA0 ∨ cp = 0x1680
   ∨ 0x2000 ≤ cp ≤ 0x200A ∨ cp = 0x2028 ∨ cp = 0x2029 ∨ cp = 0x202F
   ∨ cp = 0x205F ∨ cp = 0x3000 ∨ cp = 0xFEFF)%N.

(** [w] is one white space character; [s] is made of white space only. *)
Definition white_char (w : string) : Prop := ∃ cp, WhiteSpace cp ∧ w = utf8 cp.

Inductive white_run : string → Prop :=
| white_run_nil : white_run ""
| white_run_cons w s : white_char w → white_run s → white_run (w +:+ s).

(** [core] is [s] without the white space around it: [s] is [core] between
    two runs of white space, and [core] neither starts nor ends with a white
    space character. *)
Definition stripped (s core : string) : Prop :=
  ∃ lead trail,
    s = lead +:+ core +:+ trail
    ∧ white_run lead ∧ white_run trail
    ∧ (∀ w r, white_char w → core ≠ w +:+ r)
    ∧ (∀ w r, white_char w → core ≠ r +:+ w).

(** The bytes that continue a character in UTF-8. *)
Definition is_continuation (c : ascii) : bool :=
  let n := N_of_ascii c in ((0x80 <=? n) && (n <? 0xC0))%N.

Definition comma_free (x : string) : Prop :=
  string_forall (λ c, negb (Ascii.eqb c ",")) x = true.

(** No part of a header, the white space around it put aside, reads
    [<pre><value>]. *)
Definition no_field (pre : string) (parts : list string) : Prop :=
  ∀ p v, p ∈ parts → ¬ stripped p (pre +:+ v).

Definition missing_signature : Response :=
  json 400 [("error", JStr "missing signature")].

Definition invalid_timestamp : Response :=
  json 400 [("error", JStr "invalid timestamp")].

(** Lower-case hexadecimal, two digits per byte: the "hex" of the
    statement, written without the code's [toString] and [padStart]. *)
Definition hex_digits : list ascii :=
  ["0"; "1"; "2"; "3"; "4"; "5"; "6"; "7"; "8"; "9"; "a"; "b"; "c"; "d"; "e"; "f"]%char.

Definition lower_hex (bytes : list Byte.byte) : string :=
  string_of_list_ascii
    (bytes ≫= λ b,
       [nth (N.to_nat (Byte.to_N b / 16)) hex_digits "0"%char;
        nth (N.to_nat (Byte.to_N b mod 16)) hex_digits "0"%char]).

(** The payment row [p] is the row of provider session [sessionId] of the
    order [orderId], by its columns. *)
Definition row_of_session (orderId sessionId : string) (p : Payment) : Prop :=
  p_order_id p = orderId
  ∧ p_provider p = "stripe"
  ∧ p_provider_payment_id p = sessionId.

#[global] Instance row_of_session_dec orderId sessionId p :
  Decision (row_of_session orderId sessionId p).
Proof. unfold row_of_session. apply _. Defined.

(** The row [p] with [status] paid and [updated_at] set, its other columns
    kept. *)
Definition marked_paid (nowIso : string) (p : Payment) : Payment :=
  mkPayment (p_order_id p) (p_provider p) (p_provider_payment_id p)
            (p_amount_cents p) (p_currency p) PayPaid (p_created_at p) nowIso.

(** The order [o] with [payment_status] paid, [payment_method] card and
    [updated_at] set, its other columns kept. *)
Definition marked_paid_order (nowIso : string) (o : Order) : Order :=
  mkOrder (o_user_id o) (o_status o) (Some Paid) (Some "card")
          (o_rider_id o) (o_total_cents o) (o_eta_minutes o) (o_created_at o)
          (Some nowIso) (o_delivered_at o) (o_cancelled_at o).

(** A store in which the order has two checkout sessions, both pending,
    beside the session of another order. *)
Definition two_sessions_db : Db :=
  mkDb {[ "o1" := sample_order Pending (Some Unpaid) None ]}
       [mkPayment "o1" "stripe" "cs_test_0" 23997 "ZAR" PayPending
          "2023-11-14T22:00:00.000Z" "2023-11-14T22:00:00.000Z";
        mkPayment "o1" "stripe" "cs_test_1" 23997 "ZAR" PayPending
          "2023-11-14T22:10:00.000Z" "2023-11-14T22:10:00.000Z";
        mkPayment "o2" "stripe" "cs_test_2" 5000 "ZAR" PayPending
          "2023-11-14T22:11:00.000Z" "2023-11-14T22:11:00.000Z"].

(** The body of [req] is a checkout-expired event about the order
    [orderId] and the provider session [sessionId]. *)
Definition expired_event `{StripeWebhook.Runtime} (req : StripeWebhook.Request)
    (orderId sessionId : string) (session : StripeWebhook.Session) : Prop :=
  StripeWebhook.JSON_parse (StripeWebhook.rawBody req)
  = inl (StripeWebhook.mkEvent (Some "checkout.session.expired") (Some session))
  ∧ StripeWebhook.nullish (StripeWebhook.s_metadata_order_id session)
                          (StripeWebhook.s_client_reference_id session)
    = Some orderId
  ∧ StripeWebhook.s_id session = Some sessionId
  ∧ orderId ≠ "" ∧ sessionId ≠ "".

(** The two tables hold the same order ids, and every order of [db'] is
    related by [R] to the order of [db] with the same id. *)
Definition orders_related (R : Order → Order → Prop) (db db' : Db) : Prop :=
  ∀ k, match orders db !! k, orders db' !! k with
       | Some o, Some o' => R o o'
       | None, None => True
       | _, _ => False
       end.

(** [o'] is [o] up to the payment columns and the [updated_at] stamp: the
    delivery side of the order is the same. *)
Definition same_delivery (o o' : Order) : Prop :=
  o_user_id o' = o_user_id o
  ∧ o_status o' = o_status o
  ∧ o_rider_id o' = o_rider_id o
  ∧ o_total_cents o' = o_total_cents o
  ∧ o_eta_minutes o' = o_eta_minutes o
  ∧ o_created_at o' = o_created_at o
  ∧ o_delivered_at o' = o_delivered_at o
  ∧ o_cancelled_at o' = o_cancelled_at o.

(** [o'] is [o] up to the delivery columns and the [updated_at] stamp: the
    payment side of the order, its owner and its amount are the same. *)
Definition same_payment (o o' : Order) : Prop :=
  o_user_id o' = o_user_id o
  ∧ o_payment_status o' = o_payment_status o
  ∧ o_payment_method o' = o_payment_method o
  ∧ o_total_cents o' = o_total_cents o
  ∧ o_created_at o' = o_created_at o.

(** What identifies a payment row and what it is worth. *)
Definition payment_core (p : Payment) : string * string * string * Z * string * string :=
  (p_order_id p, p_provider p, p_provider_payment_id p, p_amount_cents p,
   p_currency p, p_created_at p).

Definition expired_sample_event : StripeWebhook.Event :=
  StripeWebhook.mkEvent (Some "checkout.session.expired") (Some sample_session).

Definition expired_body : string := "{checkout.session.expired cs_test_1 o1}".

Definition unknown_body : string := "{payment_intent.created}".

(** A second stand-in platform, which also knows an expired event and an
    event the handler does not model. *)
Definition sample_runtime2 : StripeWebhook.Runtime :=
  {| StripeWebhook.hmac_sha256 := λ key message, take 4 (rev message ++ key);
     StripeWebhook.Number := λ t, inject_Z <$> digits_value 0 t;
     StripeWebhook.JSON_parse := λ b,
       if String.eqb b sample_body then inl sample_event
       else if String.eqb b expired_body then inl expired_sample_event
       else if String.eqb b unknown_body
       then inl (StripeWebhook.mkEvent (Some "payment_intent.created") None)
       else inr "Unexpected token" |}.

Definition signed_request (body : string) : StripeWebhook.Request :=
  StripeWebhook.mkRequest
    (Some (signature_header "1700000000"
             [@StripeWebhook.hmacSha256Hex sample_runtime2 "whsec_test"
                ("1700000000." +:+ body)]))
    body.

(** The store of the example after checkout and payment: the order is paid
    and its payment row is paid. *)
Definition paid_db : Db :=
  mkDb {[ "o1" := sample_order Assigned (Some Paid) (Some "r1") ]}
       [mkPayment "o1" "stripe" "cs_test_1" 23997 "ZAR" PayPaid
          "2025-01-01T10:01:01.000Z" "2025-01-01T10:02:00.000Z";
        mkPayment "o1" "stripe" "cs_test_0" 23997 "ZAR" PayPending
          "2025-01-01T10:00:30.000Z" "2025-01-01T10:00:30.000Z"].

(** [o'] is [o] up to [payment_method] and the [updated_at] stamp. *)
Definition same_but_method (o o' : Order) : Prop :=
  same_delivery o o' ∧ o_payment_status o' = o_payment_status o.

(** The transitions of the delivery lifecycle that a rider drives. *)
Inductive rider_edge : OrderStatus → OrderStatus → Prop :=
| edge_claim : rider_edge Pending Assigned
| edge_start : rider_edge Assigned EnRoute
| edge_deliver : rider_edge EnRoute Delivered
| edge_fail_assigned : rider_edge Assigned Failed
| edge_fail_en_route : rider_edge EnRoute Failed.

(** The four handlers of the rider screen that write to [orders]. *)
Inductive rider_action :=
| Accept | Start | Deliver | Undeliverable (confirmFail : bool).

Definition run_rider (a : rider_action) (orderId now : string)
    (f_active f_update f_load : fault) (db : Db) (s : RiderApp.State)
    : Db * RiderApp.State :=
  match a with
  | Accept => RiderApp.acceptOrder orderId now f_active f_update f_load db s
  | Start => RiderApp.startDelivery orderId now f_update f_load db s
  | Deliver => RiderApp.markDelivered orderId now f_update f_load db s
  | Undeliverable c => RiderApp.markUndeliverable orderId now c f_update f_load db s
  end.

(** The screen shows an assigned or en-route order of rider [rid]. *)
Definition busy (s : RiderApp.State) (rid : string) : Prop :=
  ∃ id o, (id, o) ∈ RiderApp.orders_view s
          ∧ o_rider_id o = Some rid
          ∧ RiderApp.in_delivery (o_status o) = true.

(** The rows of [users] linked to the signed-in identity [auth_id]. *)
Definition profiles_of (auth_id : string) (users : list ClientPayment.UserProfile)
    : list ClientPayment.UserProfile :=
  List.filter (λ p, String.eqb (ClientPayment.up_auth_user_id p) auth_id) users.

Definition sample_auth_user : ClientPayment.AuthUser :=
  ClientPayment.mkAuthUser "auth-1" (Some "thandi@example.com") (Some "Thandi M")
                           None.

(** The sum of the amounts of a list of orders. *)
Definition cents_sum (l : list (string * Order)) : Z :=
  foldr (λ r acc, (default 0 (o_total_cents r.2) + acc)%Z) 0%Z l.

(** The dashboard as loaded under a given filter. *)
Definition admin_view (statusFilter : string) (db : Db) (s : AdminApp.State)
    : AdminApp.State :=
  AdminApp.loadOrders None db (AdminApp.setStatusFilter statusFilter s).

Definition fresh_shell : AppShell.Shell :=
  AppShell.mkShell "/" None false fresh_app.

(** * Properties *)

(** ** The store *)

Lemma update_orders_miss patch oid filters db :
  (∀ o, orders db !! oid = Some o → filters o = false) →
  Store.update_orders patch oid filters db = (db, []).
Proof.
  intros H. unfold Store.update_orders.
  destruct (orders db !! oid) as [o|] eqn:E; [|done].
  by rewrite (H o eq_refl).
Qed.

Lemma update_orders_hit patch oid filters db o :
  orders db !! oid = Some o → filters o = true →
  Store.update_orders patch oid filters db
  = (mkDb (<[oid := patch o]> (orders db)) (payments db), [oid]).
Proof. intros E F. unfold Store.update_orders. by rewrite E, F. Qed.

(** A conditional update never touches another row, nor [payments]. *)
Lemma update_orders_frame patch oid filters db oid' :
  oid' ≠ oid →
  orders (Store.update_orders patch oid filters db).1 !! oid' = orders db !! oid'.
Proof.
  intros Hne. unfold Store.update_orders.
  destruct (orders db !! oid) as [o|]; [|done].
  destruct (filters o); [|done]. simpl. by rewrite lookup_insert_ne.
Qed.

Lemma update_orders_payments patch oid filters db :
  payments (Store.update_orders patch oid filters db).1 = payments db.
Proof.
  unfold Store.update_orders.
  destruct (orders db !! oid) as [o|]; [|done]. by destruct (filters o).
Qed.

Lemma eq_col_true c v : Store.eq_col c v = true ↔ c = Some v.
Proof. unfold Store.eq_col. by rewrite bool_decide_eq_true. Qed.

(** ** The claim protocol *)

Lemma claim_filters_true o :
  RiderApp.claim_filters o = true
  ↔ o_status o = Pending ∧ o_payment_status o = Some Paid ∧ o_rider_id o = None.
Proof.
  unfold RiderApp.claim_filters, Store.is_null.
  rewrite !andb_true_iff, !bool_decide_eq_true.
  destruct (o_rider_id o); intuition congruence.
Qed.

Lemma claim_update_hit rid now oid db o :
  orders db !! oid = Some o → RiderApp.claim_filters o = true →
  RiderApp.claim_update rid now oid db
  = (mkDb (<[oid := RiderApp.claim_patch rid now o]> (orders db)) (payments db), [oid]).
Proof. apply update_orders_hit. Qed.

Lemma claim_update_miss rid now oid db :
  ¬ claimable db oid → RiderApp.claim_update rid now oid db = (db, []).
Proof.
  intros Hn. apply update_orders_miss. intros o Ho.
  destruct (RiderApp.claim_filters o) eqn:F; [|done].
  exfalso. apply Hn. exists o. by apply claim_filters_true in F.
Qed.

Lemma claimable_dec db oid : claimable db oid ∨ ¬ claimable db oid.
Proof.
  destruct (orders db !! oid) as [o|] eqn:Ho.
  - destruct (RiderApp.claim_filters o) eqn:F.
    + left. exists o. by apply claim_filters_true in F.
    + right. intros (o' & Ho' & H). rewrite Ho in Ho'. injection Ho' as <-.
      apply claim_filters_true in H. congruence.
  - right. intros (o' & Ho' & _). congruence.
Qed.

Lemma rider_of_Some s rid :
  RiderApp.riderId s = Some rid → rid ≠ "" → RiderApp.rider_of s = Some rid.
Proof.
  intros H Hne. unfold RiderApp.rider_of. rewrite H. simpl.
  by destruct (String.eqb_spec rid "").
Qed.

Lemma loadOrders_alerts f db s :
  RiderApp.alerts (RiderApp.loadOrders f db s) = RiderApp.alerts s.
Proof. unfold RiderApp.loadOrders. by destruct f. Qed.

Lemma loadOrders_view db s :
  RiderApp.orders_view (RiderApp.loadOrders None db s) = RiderApp.select_orders db.
Proof. done. Qed.

(** C1. Once a rider's claim reaches the store (the rider profile is loaded and
    the check for another active delivery has passed), the claim update
    applies if and only if the order is pending, paid and has no rider.  When
    it applies the order becomes assigned to the calling rider; when it does
    not, the store is left as it was, no row comes back, the rider is told the
    order is no longer available and the list of orders is loaded again. *)
Theorem acceptOrder_claims_iff_claimable
    (db : Db) (s : RiderApp.State) (rid orderId now : string)
    (f_active f_load : fault) :
  RiderApp.riderId s = Some rid → rid ≠ "" →
  RiderApp.hasActiveOrderForRider f_active (Some rid) db = false →
  let upd := RiderApp.claim_update rid now orderId db in
  let out := RiderApp.acceptOrder orderId now f_active None f_load db s in
  out.1 = upd.1
  ∧ (upd.2 ≠ [] ↔ claimable db orderId)
  ∧ (claimable db orderId →
       upd.2 = [orderId]
       ∧ (∃ o, orders db !! orderId = Some o
               ∧ orders upd.1 !! orderId = Some (RiderApp.claim_patch rid now o))
       ∧ (∃ o', orders upd.1 !! orderId = Some o'
                ∧ o_status o' = Assigned ∧ o_rider_id o' = Some rid)
       ∧ RiderApp.alerts out.2 = RiderApp.alerts s)
  ∧ (¬ claimable db orderId →
       upd.1 = db
       ∧ upd.2 = []
       ∧ out.1 = db
       ∧ RiderApp.alerts out.2
         = RiderApp.alerts s ++ [RiderApp.msg_no_longer_available]
       ∧ (f_load = None → RiderApp.orders_view out.2 = RiderApp.select_orders db)).
Proof.
  intros Hrid Hne Hpre upd out. apply rider_of_Some in Hrid; [|done].
  assert (Hout : out = match upd.2 with
                       | [] => (upd.1, RiderApp.loadOrders f_load upd.1
                                  (RiderApp.alert RiderApp.msg_no_longer_available
                                     (RiderApp.setUpdatingId None
                                        (RiderApp.setUpdatingId (Some orderId)
                                           (RiderApp.setError None s)))))
                       | _ :: _ => (upd.1, RiderApp.loadOrders f_load upd.1
                                     (RiderApp.setUpdatingId None
                                        (RiderApp.setUpdatingId (Some orderId)
                                           (RiderApp.setError None s))))
                       end).
  { subst out upd. unfold RiderApp.acceptOrder. rewrite Hrid, Hpre.
    by destruct (RiderApp.claim_update rid now orderId db) as [db' [|r rows]]. }
  assert (Hupd : upd = RiderApp.claim_update rid now orderId db) by done.
  clearbody upd out. subst out.
  destruct (claimable_dec db orderId) as [Hc|Hn].
  - destruct Hc as (o & Ho & Hst & Hpay & Hr).
    assert (Hf : RiderApp.claim_filters o = true)
      by (apply claim_filters_true; auto).
    rewrite (claim_update_hit rid now orderId db o Ho Hf) in Hupd.
    subst upd. simpl.
    split; [done|]. split.
    { split; [intros _; exists o; auto | done]. }
    split.
    { intros _. split; [done|]. split.
      - exists o. split; [done|]. by rewrite lookup_insert_eq.
      - split; [|by rewrite loadOrders_alerts].
        exists (RiderApp.claim_patch rid now o).
        by rewrite lookup_insert_eq. }
    intros Hn. exfalso. apply Hn. exists o; auto.
  - rewrite (claim_update_miss rid now orderId db Hn) in Hupd.
    subst upd. simpl.
    split; [done|]. split.
    { split; [done | intros Hc; by destruct Hn]. }
    split; [intros Hc; by destruct Hn|].
    intros _. repeat split; try done.
    + by rewrite loadOrders_alerts.
    + by intros ->.
Qed.

Lemma acceptOrder_claims_iff_claimable_witness :
  (RiderApp.claim_update "r1" "2025-01-01T10:05:00.000Z" "o1"
     (sample_db Pending (Some Paid) None)).2 ≠ []
  ↔ claimable (sample_db Pending (Some Paid) None) "o1".
Proof.
  refine (proj1 (proj2
    (acceptOrder_claims_iff_claimable (sample_db Pending (Some Paid) None)
       sample_rider "r1" "o1" "2025-01-01T10:05:00.000Z" None None _ _ _))).
  - reflexivity.
  - discriminate.
  - vm_compute. reflexivity.
Defined.

(** At most one winner: once a claim has gone through, a later claim on the
    same order, by whichever rider, finds no row and changes nothing. *)
Lemma claim_update_second_loses rid rid' now now' oid db :
  claimable db oid →
  let db1 := (RiderApp.claim_update rid now oid db).1 in
  RiderApp.claim_update rid' now' oid db1 = (db1, []).
Proof.
  intros (o & Ho & Hst & Hpay & Hr) db1. apply claim_update_miss.
  subst db1. unfold RiderApp.claim_update.
  rewrite (update_orders_hit _ _ _ _ o Ho) by (apply claim_filters_true; auto).
  intros (o' & Ho' & Hst' & _). simpl in Ho'.
  rewrite lookup_insert_eq in Ho'. injection Ho' as <-. discriminate Hst'.
Qed.

(** ** Delivery progression *)

Lemma guarded_update_lookup patch oid guard db :
  orders (Store.update_orders patch oid guard db).1 !! oid
  = (λ o, if guard o then patch o else o) <$> orders db !! oid.
Proof.
  unfold Store.update_orders.
  destruct (orders db !! oid) as [o|] eqn:Ho; simpl; [|by rewrite Ho].
  destruct (guard o); simpl; [by rewrite lookup_insert_eq | by rewrite Ho].
Qed.

Lemma guarded_update_unchanged patch oid guard db :
  (∀ o, orders db !! oid = Some o → guard o = false) →
  (Store.update_orders patch oid guard db).1 = db.
Proof. intros H. by rewrite update_orders_miss. Qed.

Lemma after_update_db f_update f_load db' db s :
  (RiderApp.after_update f_update f_load db' db s).1
  = match f_update with Some _ => db | None => db' end.
Proof. unfold RiderApp.after_update. by destruct f_update. Qed.

(** C6. For a rider [rid] and an order [o] stored under [orderId]:
    - [startDelivery] applies only if [o] belongs to [rid] and is assigned, and
      then makes it en route with an ETA of 10 minutes;
    - [markDelivered] applies only if [o] belongs to [rid] and is en route, and
      then makes it delivered and stamps [delivered_at];
    - [markUndeliverable] applies only if [o] belongs to [rid] and is assigned
      or en route, and then makes it failed and stamps [cancelled_at];
    - in every other case the store is left as it was; in particular no
      handler changes an order whose [rider_id] is not [rid].
    Only [updated_at] changes besides the fields named above. *)
Theorem rider_transitions_guarded
    (db : Db) (s : RiderApp.State) (rid orderId now : string) (o : Order)
    (f_load : fault) :
  RiderApp.riderId s = Some rid → rid ≠ "" →
  orders db !! orderId = Some o →
  let started := (RiderApp.startDelivery orderId now None f_load db s).1 in
  let delivered := (RiderApp.markDelivered orderId now None f_load db s).1 in
  let failed := (RiderApp.markUndeliverable orderId now true None f_load db s).1 in
  (* start_delivery *)
  (o_rider_id o = Some rid ∧ o_status o = Assigned →
     started =
       mkDb (<[orderId :=
                 mkOrder (o_user_id o) EnRoute (o_payment_status o)
                   (o_payment_method o) (o_rider_id o) (o_total_cents o)
                   (Some 10%Z) (o_created_at o) (Some now)
                   (o_delivered_at o) (o_cancelled_at o)]> (orders db))
            (payments db))
  ∧ (¬ (o_rider_id o = Some rid ∧ o_status o = Assigned) → started = db)
  (* mark_delivered *)
  ∧ (o_rider_id o = Some rid ∧ o_status o = EnRoute →
     delivered =
       mkDb (<[orderId :=
                 mkOrder (o_user_id o) Delivered (o_payment_status o)
                   (o_payment_method o) (o_rider_id o) (o_total_cents o)
                   (o_eta_minutes o) (o_created_at o) (Some now)
                   (Some now) (o_cancelled_at o)]> (orders db))
            (payments db))
  ∧ (¬ (o_rider_id o = Some rid ∧ o_status o = EnRoute) → delivered = db)
  (* mark_undeliverable *)
  ∧ (o_rider_id o = Some rid ∧ (o_status o = Assigned ∨ o_status o = EnRoute) →
     failed =
       mkDb (<[orderId :=
                 mkOrder (o_user_id o) Failed (o_payment_status o)
                   (o_payment_method o) (o_rider_id o) (o_total_cents o)
                   (o_eta_minutes o) (o_created_at o) (Some now)
                   (o_delivered_at o) (Some now)]> (orders db))
            (payments db))
  ∧ (¬ (o_rider_id o = Some rid ∧ (o_status o = Assigned ∨ o_status o = EnRoute)) →
     failed = db)
  (* an order of another rider is out of reach, whatever else happens *)
  ∧ (o_rider_id o ≠ Some rid →
     ∀ f_update f_load' confirmFail,
       (RiderApp.startDelivery orderId now f_update f_load' db s).1 = db
       ∧ (RiderApp.markDelivered orderId now f_update f_load' db s).1 = db
       ∧ (RiderApp.markUndeliverable orderId now confirmFail f_update f_load' db s).1 = db).
Proof.
  intros Hrid Hne Ho started delivered failed.
  apply rider_of_Some in Hrid; [|done].
  subst started delivered failed.
  unfold RiderApp.startDelivery, RiderApp.markDelivered, RiderApp.markUndeliverable.
  rewrite Hrid. cbn [negb]. rewrite !after_update_db.
  repeat split.
  - intros [Hr Hs].
    rewrite (update_orders_hit _ _ _ _ o Ho); [done|].
    by rewrite andb_true_iff, eq_col_true, bool_decide_eq_true.
  - intros Hn. apply guarded_update_unchanged. intros o' Ho'.
    assert (o' = o) as -> by congruence.
    apply not_true_is_false. intros H. apply Hn.
    by rewrite andb_true_iff, eq_col_true, bool_decide_eq_true in H.
  - intros [Hr Hs].
    rewrite (update_orders_hit _ _ _ _ o Ho); [done|].
    by rewrite andb_true_iff, eq_col_true, bool_decide_eq_true.
  - intros Hn. apply guarded_update_unchanged. intros o' Ho'.
    assert (o' = o) as -> by congruence.
    apply not_true_is_false. intros H. apply Hn.
    by rewrite andb_true_iff, eq_col_true, bool_decide_eq_true in H.
  - intros [Hr Hs].
    rewrite (update_orders_hit _ _ _ _ o Ho); [done|].
    rewrite andb_true_iff, eq_col_true. split; [done|].
    by destruct Hs as [-> | ->].
  - intros Hn. apply guarded_update_unchanged. intros o' Ho'.
    assert (o' = o) as -> by congruence.
    apply not_true_is_false. intros H. apply Hn.
    rewrite andb_true_iff, eq_col_true in H. destruct H as [Hr Hs].
    split; [done|]. destruct (o_status o); simpl in Hs; auto; discriminate.
  - destruct f_update; [done|]. apply guarded_update_unchanged.
    intros o' Ho'. assert (o' = o) as -> by congruence.
    apply andb_false_iff. left. apply not_true_is_false.
    by rewrite eq_col_true.
  - destruct f_update; [done|]. apply guarded_update_unchanged.
    intros o' Ho'. assert (o' = o) as -> by congruence.
    apply andb_false_iff. left. apply not_true_is_false.
    by rewrite eq_col_true.
  - destruct confirmFail; cbn [negb]; [|done]. rewrite after_update_db.
    destruct f_update; [done|]. apply guarded_update_unchanged.
    intros o' Ho'. assert (o' = o) as -> by congruence.
    apply andb_false_iff. left. apply not_true_is_false.
    by rewrite eq_col_true.
Qed.

Lemma rider_transitions_guarded_witness :
  o_status <$> orders (RiderApp.startDelivery "o1" "2025-01-01T10:20:00.000Z" None None
                         (sample_db Assigned (Some Paid) (Some "r1")) sample_rider).1
               !! "o1"
  = Some EnRoute.
Proof.
  pose proof (rider_transitions_guarded
                (sample_db Assigned (Some Paid) (Some "r1")) sample_rider
                "r1" "o1" "2025-01-01T10:20:00.000Z"
                (sample_order Assigned (Some Paid) (Some "r1")) None
                eq_refl ltac:(discriminate) eq_refl) as H.
  destruct H as [H _]. rewrite H; [|split; reflexivity].
  simpl. rewrite lookup_insert_eq. reflexivity.
Defined.

(** Without a rider profile, or for an order id the store does not hold,
    the three handlers leave the store as it was. *)
Lemma rider_transitions_no_profile db s orderId now c f_update f_load :
  RiderApp.rider_of s = None →
  RiderApp.startDelivery orderId now f_update f_load db s = (db, s)
  ∧ RiderApp.markDelivered orderId now f_update f_load db s = (db, s)
  ∧ RiderApp.markUndeliverable orderId now c f_update f_load db s = (db, s).
Proof.
  intros H.
  unfold RiderApp.startDelivery, RiderApp.markDelivered, RiderApp.markUndeliverable.
  by rewrite H.
Qed.

Lemma rider_transitions_no_order db s orderId now c f_update f_load :
  orders db !! orderId = None →
  (RiderApp.startDelivery orderId now f_update f_load db s).1 = db
  ∧ (RiderApp.markDelivered orderId now f_update f_load db s).1 = db
  ∧ (RiderApp.markUndeliverable orderId now c f_update f_load db s).1 = db.
Proof.
  intros H.
  unfold RiderApp.startDelivery, RiderApp.markDelivered, RiderApp.markUndeliverable.
  destruct (RiderApp.rider_of s) as [rid|]; [|done].
  destruct c; cbn [negb]; rewrite ?after_update_db;
    repeat split; try done;
    destruct f_update; try done;
    apply guarded_update_unchanged; congruence.
Qed.

(** ** Cancellation by the customer *)

(** The update of [handleCancelOrder] is keyed by the order id alone: it
    goes through whatever the stored status is. *)
Lemma handleCancelOrder_ignores_stored_status
    (db : Db) (s : ClientApp.State) (oid t1 t2 : string) (o v : Order) (f_fetch : fault) :
  ClientApp.lastOrderId s = Some oid → oid ≠ "" →
  ClientApp.orderStatus s = Some v →
  orders db !! oid = Some o →
  orders (ClientApp.handleCancelOrder true t1 t2 None f_fetch db s).1 !! oid
  = Some (ClientApp.cancel_patch t1 t2 o).
Proof.
  intros Hid Hne Hv Ho. unfold ClientApp.handleCancelOrder.
  rewrite Hid, Hv.
  destruct (String.eqb_spec oid "") as [->|_]; [done|]. cbn [negb].
  cbn [fst]. rewrite (update_orders_hit _ _ _ _ o Ho); [|done].
  simpl. by rewrite lookup_insert_eq.
Qed.

(** When the view is current, the button (and with it the cancellation)
    exists only for a pending, assigned or en-route order. *)
Lemma clickCancel_gated_on_view db s ok t1 t2 f_update f_fetch v :
  ClientApp.orderStatus s = Some v →
  ClientApp.includes_active (o_status v) = false →
  ClientApp.clickCancel ok t1 t2 f_update f_fetch db s = (db, s).
Proof.
  intros Hv Hst. unfold ClientApp.clickCancel, ClientApp.cancel_button_rendered.
  rewrite Hv, Hst. destruct (ClientApp.lastOrderId s); [|done].
  by rewrite andb_false_r.
Qed.

(** C2. The order ["o1"] is delivered in the store, while the customer's
    screen still shows the en-route row it fetched at its last poll.  The
    customer clicks "Cancel order" and confirms: the stored order goes from
    delivered to cancelled, and nothing is reported. *)
Theorem clickCancel_overwrites_delivered :
  let db := sample_db Delivered (Some Paid) (Some "r1") in
  let s := sample_client EnRoute in
  let out := ClientApp.clickCancel true "2025-01-01T10:30:00.000Z"
               "2025-01-01T10:30:00.001Z" None None db s in
  o_status <$> orders db !! "o1" = Some Delivered
  ∧ ClientApp.cancel_button_rendered s = true
  ∧ o_status <$> orders out.1 !! "o1" = Some Cancelled
  ∧ o_cancelled_at <$> orders out.1 !! "o1" = Some (Some "2025-01-01T10:30:00.000Z")
  ∧ ClientApp.error out.2 = None
  ∧ o_status <$> ClientApp.orderStatus out.2 = Some Cancelled.
Proof. vm_compute. repeat split; reflexivity. Qed.

(** ** Role resolution *)

Lemma resolve_rider_found r s :
  rider_found r →
  App.resolve_rider (App.Resolved r) s = App.setRole (Some App.rider) s.
Proof.
  intros [[id Hrow] [Herr | [m Herr]]]; unfold App.resolve_rider;
    rewrite Herr, Hrow; done.
Qed.

Lemma resolve_rider_not_found r s :
  ¬ rider_found r →
  App.role (App.resolve_rider (App.Resolved r) s) = Some App.client
  ∧ App.error (App.resolve_rider (App.Resolved r) s) = App.error s.
Proof.
  intros Hn. unfold App.resolve_rider.
  destruct (App.riderError r) as [[code m]|] eqn:Herr.
  - destruct (String.eqb_spec code "PGRST116") as [->|Hc]; cbn [negb]; [|done].
    destruct (App.riderRow r) as [id|] eqn:Hrow; [|done].
    exfalso. apply Hn. split; [by exists id | right; by exists m].
  - destruct (App.riderRow r) as [id|] eqn:Hrow; [|done].
    exfalso. apply Hn. split; [by exists id | by left].
Qed.

Lemma resolve_rider_role riders s :
  App.role (App.resolve_rider riders s) = Some App.rider
  ∨ App.role (App.resolve_rider riders s) = Some App.client.
Proof.
  unfold App.resolve_rider. destruct riders as [r|m]; [|by right].
  destruct (App.riderError r) as [[code m]|];
    [destruct (negb (String.eqb code "PGRST116"))|];
    try (by right); destruct (App.riderRow r); auto.
Qed.

Lemma rider_found_dec r : rider_found r ∨ ¬ rider_found r.
Proof.
  unfold rider_found.
  destruct (App.riderRow r) as [id|]; [|right; by intros [[? ?] _]].
  destruct (App.riderError r) as [[code m]|]; [|left; eauto].
  destruct (String.eqb_spec code "PGRST116") as [->|Hc]; [left; eauto|].
  right. intros [_ [?|[m' ?]]]; congruence.
Qed.

(** C8, as the code has it.  [resolveRole] always ends with exactly one of
    the three roles and with [resolvingRole] cleared.
    - The admin check comes first: a reply in time that carries no error and
      [true] gives [admin].
    - When the timer of 1500 ms fires first, the check counts as
      "not admin" and no message is set.
    - "Not admin" (including an error returned by the admin check, which is
      only logged) leads to the rider lookup: a row gives [rider], no row or
      a lookup error (only logged) gives [client]; no message is set.
    - Only an exception (a rejected request) gives [client] together with
      the message shown on screen. *)
Theorem resolveRole_decides
    (rpc : App.InFlight App.RpcReply) (riders : App.Settled App.RiderReply)
    (s : App.State) :
  let out := App.resolveRole rpc riders s in
  let check := App.safeIsAdminRpc App.default_timeoutMs rpc in
  (App.role out = Some App.admin ∨ App.role out = Some App.rider
   ∨ App.role out = Some App.client)
  ∧ App.resolvingRole out = false
  ∧ (∀ reply, check = App.Resolved reply → App.rpc_error reply = None →
       App.rpc_data reply = App.DataTrue →
       App.role out = Some App.admin ∧ App.error out = None)
  ∧ ((rpc = App.NeverSettles
      ∨ ∃ delay o, rpc = App.SettlesAfter delay o ∧ (1500 <= delay)%Z) →
       check = App.Resolved (App.mkRpcReply App.DataNull None)
       ∧ not_admin check ∧ App.role out ≠ Some App.admin)
  ∧ (not_admin check → ∀ r, riders = App.Resolved r →
       (rider_found r → App.role out = Some App.rider)
       ∧ (¬ rider_found r → App.role out = Some App.client)
       ∧ App.error out = None)
  ∧ (∀ m, check = App.Rejected m ∨ (not_admin check ∧ riders = App.Rejected m) →
       App.role out = Some App.client
       ∧ App.error out = Some (default App.msg_unable m)).
Proof.
  intros out check. subst out check. unfold App.resolveRole.
  set (check := App.safeIsAdminRpc App.default_timeoutMs rpc).
  set (s0 := App.setError None (App.setResolvingRole true s)).
  repeat apply conj.
  - destruct check as [reply|m]; [|by right; right].
    destruct (App.rpc_error reply).
    + destruct (resolve_rider_role riders (App.console_error "is_admin error" s0))
        as [H|H]; simpl; rewrite H; auto.
    + destruct (App.rpc_data reply); try (by left);
        destruct (resolve_rider_role riders s0) as [H|H]; simpl; rewrite H; auto.
  - done.
  - intros reply -> Herr Hdata. by rewrite Herr, Hdata.
  - intros Hrpc.
    assert (Hc : check = App.Resolved (App.mkRpcReply App.DataNull None)).
    { subst check. destruct Hrpc as [-> | (delay & o & -> & Hd)]; [done|].
      unfold App.safeIsAdminRpc, App.default_timeoutMs.
      destruct (Z.ltb_spec delay 1500); [lia | done]. }
    rewrite Hc. split; [done|]. split.
    + eexists. split; [done|]. by right.
    + simpl. destruct (resolve_rider_role riders s0) as [H|H]; rewrite H; done.
  - intros (reply & -> & Hna) r ->.
    assert (Hgo : ∃ s1, App.error s1 = None ∧
              match App.rpc_error reply with
              | Some _ => App.resolve_rider (App.Resolved r)
                            (App.console_error "is_admin error" s0)
              | None => match App.rpc_data reply with
                        | App.DataTrue => App.setRole (Some App.admin) s0
                        | _ => App.resolve_rider (App.Resolved r) s0
                        end
              end = App.resolve_rider (App.Resolved r) s1).
    { destruct (App.rpc_error reply).
      - by exists (App.console_error "is_admin error" s0).
      - exists s0. split; [done|].
        destruct (App.rpc_data reply); try done. by destruct Hna. }
    destruct Hgo as (s1 & He & ->).
    unfold App.setResolvingRole; cbn [App.role App.error].
    destruct (rider_found_dec r) as [Hf|Hf].
    + rewrite (resolve_rider_found r s1 Hf). simpl. by rewrite He.
    + destruct (resolve_rider_not_found r s1 Hf) as [Hr Hk].
      rewrite Hr, Hk, He. done.
  - intros m [-> | [(reply & -> & Hna) ->]]; [done|].
    destruct (App.rpc_error reply); [done|].
    destruct (App.rpc_data reply); try done. by destruct Hna.
Qed.

Lemma resolveRole_decides_witness :
  App.role (App.resolveRole (App.SettlesAfter 2000 (App.Resolved (App.mkRpcReply App.DataTrue None)))
              (App.Resolved (App.mkRiderReply None None)) fresh_app)
  = Some App.client.
Proof.
  pose proof (resolveRole_decides
                (App.SettlesAfter 2000 (App.Resolved (App.mkRpcReply App.DataTrue None)))
                (App.Resolved (App.mkRiderReply None None)) fresh_app) as H.
  destruct H as (_ & _ & _ & Ht & Hr & _).
  destruct Ht as (_ & Hna & _).
  { right. exists 2000%Z, (App.Resolved (App.mkRpcReply App.DataTrue None)).
    split; [reflexivity | lia]. }
  destruct (Hr Hna (App.mkRiderReply None None) eq_refl) as (_ & Hc & _).
  apply Hc. intros [[id Hid] _]. discriminate Hid.
Defined.

(** An error returned by the admin check does not lead to [client] when the
    account has a rider profile: the error is logged, the lookup goes on and
    the role is [rider], with no message on screen. *)
Lemma resolveRole_admin_error_still_rider :
  let out := App.resolveRole
               (App.SettlesAfter 120
                  (App.Resolved (App.mkRpcReply App.DataNull (Some "permission denied"))))
               (App.Resolved (App.mkRiderReply (Some "r1") None)) fresh_app in
  App.role out = Some App.rider
  ∧ App.role out ≠ Some App.client
  ∧ App.error out = None
  ∧ App.console out = ["is_admin error"].
Proof. vm_compute. repeat split; congruence. Qed.

(** ** The payment webhook *)

Lemma truthy_Some s : s ≠ "" → truthy (Some s) = true.
Proof. intros H. simpl. by destruct (String.eqb_spec s ""). Qed.

Lemma truthy_true s : truthy s = true → ∃ x, s = Some x ∧ x ≠ "".
Proof.
  destruct s as [x|]; [|done]. simpl.
  destruct (String.eqb_spec x ""); [done|]. eauto.
Qed.

Lemma unhex_hex_byte b : unhex_byte (StripeWebhook.hex_byte b) = Some b.
Proof. destruct b; reflexivity. Qed.

Lemma hex_byte_lower b :
  string_forall is_lower_hex (StripeWebhook.hex_byte b) = true.
Proof. destruct b; reflexivity. Qed.

Lemma hex_byte_shape b :
  ∃ hi lo, StripeWebhook.hex_byte b = String hi (String lo EmptyString).
Proof. unfold StripeWebhook.hex_byte. eauto. Qed.

Lemma append_cons c (s t : string) : String c s +:+ t = String c (s +:+ t).
Proof. reflexivity. Qed.

Lemma append_nil_l (t : string) : "" +:+ t = t.
Proof. reflexivity. Qed.

Lemma append_nil_r (s : string) : s +:+ "" = s.
Proof. induction s as [|c s IH]; [done|]. by rewrite append_cons, IH. Qed.

Lemma concat_empty_cons (x : string) (l : list string) :
  String.concat "" (x :: l) = x +:+ String.concat "" l.
Proof. destruct l as [|y l]; simpl; [by rewrite append_nil_r | done]. Qed.

Lemma string_forall_app P s1 s2 :
  string_forall P (s1 +:+ s2) = string_forall P s1 && string_forall P s2.
Proof.
  induction s1 as [|c s1 IH]; [done|].
  rewrite append_cons. simpl. by rewrite IH, andb_assoc.
Qed.

Lemma hex_concat_inj (l1 : list Byte.byte) : ∀ l2,
  String.concat "" (map StripeWebhook.hex_byte l1)
  = String.concat "" (map StripeWebhook.hex_byte l2) →
  l1 = l2.
Proof.
  induction l1 as [|b1 l1 IH]; intros [|b2 l2] E; [done| | |].
  - cbn [map] in E. rewrite concat_empty_cons in E.
    destruct (hex_byte_shape b2) as (? & ? & H). rewrite H in E.
    rewrite append_cons in E. done.
  - cbn [map] in E. rewrite concat_empty_cons in E.
    destruct (hex_byte_shape b1) as (? & ? & H). rewrite H in E.
    rewrite append_cons in E. done.
  - cbn [map] in E. rewrite !concat_empty_cons in E.
    pose proof (unhex_hex_byte b1) as U1. pose proof (unhex_hex_byte b2) as U2.
    destruct (hex_byte_shape b1) as (h1 & o1 & H1).
    destruct (hex_byte_shape b2) as (h2 & o2 & H2).
    rewrite H1, H2 in E. rewrite !append_cons, !append_nil_l in E.
    injection E as -> -> E.
    rewrite H1 in U1. rewrite H2 in U2. rewrite U1 in U2. injection U2 as ->.
    f_equal. by apply IH.
Qed.

Lemma string_app_assoc (a b c : string) : (a +:+ b) +:+ c = a +:+ (b +:+ c).
Proof. induction a as [|x a IH]; [done|]. by rewrite !append_cons, IH. Qed.

Lemma string_of_list_ascii_app (l1 l2 : list ascii) :
  string_of_list_ascii (l1 ++ l2)
  = string_of_list_ascii l1 +:+ string_of_list_ascii l2.
Proof. induction l1 as [|c l1 IH]; [done|]. simpl. by rewrite IH. Qed.

(** The code's two digits of a byte are those of the hexadecimal notation. *)
Lemma hex_byte_lower_hex b : StripeWebhook.hex_byte b = lower_hex [b].
Proof. destruct b; reflexivity. Qed.

Lemma lower_hex_cons b l : lower_hex (b :: l) = lower_hex [b] +:+ lower_hex l.
Proof.
  unfold lower_hex. change (b :: l) with ([b] ++ l).
  by rewrite bind_app, string_of_list_ascii_app.
Qed.

Lemma concat_hex_byte_lower_hex l :
  String.concat "" (map StripeWebhook.hex_byte l) = lower_hex l.
Proof.
  induction l as [|b l IH]; [done|]. cbn [map].
  by rewrite concat_empty_cons, IH, hex_byte_lower_hex, <- lower_hex_cons.
Qed.

(** What [hmacSha256Hex] returns is the hexadecimal notation of the MAC. *)
Lemma hmacSha256Hex_lower_hex `{rt : StripeWebhook.Runtime} secret message :
  StripeWebhook.hmacSha256Hex secret message
  = lower_hex (StripeWebhook.hmac_sha256 (encode secret) (encode message)).
Proof. apply concat_hex_byte_lower_hex. Qed.

Lemma lower_hex_inj l1 l2 : lower_hex l1 = lower_hex l2 → l1 = l2.
Proof. rewrite <- !concat_hex_byte_lower_hex. apply hex_concat_inj. Qed.

(** ** White space and [trim] *)

Lemma white_char_cases w : white_char w ↔ is_white_space w = true.
Proof.
  unfold is_white_space. rewrite existsb_exists. split.
  - intros (cp & Hcp & ->). exists cp. split; [|apply String.eqb_refl].
    unfold WhiteSpace in Hcp. unfold white_space_code_points. simpl. lia.
  - intros (cp & Hin & Heq). apply String.eqb_eq in Heq. exists cp.
    split; [|done]. unfold white_space_code_points in Hin. simpl in Hin.
    unfold WhiteSpace. lia.
Qed.

(** A white space character is a first byte followed by at most two
    continuation bytes. *)
Lemma white_char_shape w :
  white_char w →
  ∃ c r, w = String c r ∧ is_continuation c = false
         ∧ string_forall is_continuation r = true
         ∧ (String.length r ≤ 2)%nat.
Proof.
  intros (cp & Hcp & ->).
  assert (Hin : In cp white_space_code_points).
  { unfold WhiteSpace in Hcp. unfold white_space_code_points. simpl. lia. }
  unfold white_space_code_points in Hin. simpl in Hin.
  repeat (destruct Hin as [<-|Hin];
          [eexists _, _; split; [reflexivity|]; repeat split; simpl; lia|]).
  done.
Qed.

Lemma trimStart_white w s : white_char w → trimStart (w +:+ s) = trimStart s.
Proof.
  intros (cp & Hcp & ->).
  assert (Hin : In cp white_space_code_points).
  { unfold WhiteSpace in Hcp. unfold white_space_code_points. simpl. lia. }
  unfold white_space_code_points in Hin. simpl in Hin.
  repeat (destruct Hin as [<-|Hin]; [reflexivity|]).
  done.
Qed.

Lemma trimEnd_white_char w : white_char w → trimEnd w = "".
Proof.
  intros (cp & Hcp & ->).
  assert (Hin : In cp white_space_code_points).
  { unfold WhiteSpace in Hcp. unfold white_space_code_points. simpl. lia. }
  unfold white_space_code_points in Hin. simpl in Hin.
  repeat (destruct Hin as [<-|Hin]; [reflexivity|]).
  done.
Qed.

(** Either [s] starts with no white space character and [trimStart] keeps
    it, or it starts with one and [trimStart] goes on after it. *)
Lemma trimStart_cases s :
  (trimStart s = s ∧ ∀ w r, white_char w → s ≠ w +:+ r)
  ∨ (∃ w r, white_char w ∧ s = w +:+ r ∧ trimStart s = trimStart r).
Proof.
  assert (Hstop : ∀ a s1,
            is_white_space (String a "") = false →
            match s1 with
            | String b s2 =>
                is_white_space (String a (String b "")) = false
                ∧ match s2 with
                  | String c _ =>
                      is_white_space (String a (String b (String c ""))) = false
                  | EmptyString => True
                  end
            | EmptyString => True
            end →
            ∀ w r, white_char w → String a s1 ≠ w +:+ r).
  { intros a s1 H1 H23 w r Hw E.
    destruct (white_char_shape w Hw) as (c & r0 & -> & _ & _ & Hlen).
    apply white_char_cases in Hw.
    rewrite append_cons in E. injection E as <- E.
    destruct r0 as [|x r0]; [congruence|].
    rewrite append_cons in E. destruct s1 as [|b s2]; [done|].
    injection E as <- E. destruct H23 as [H2 H3].
    destruct r0 as [|y r0]; [congruence|].
    rewrite append_cons in E. destruct s2 as [|c s3]; [done|].
    injection E as <- E.
    destruct r0 as [|z r0]; [congruence|]. simpl in Hlen. lia. }
  destruct s as [|a s1]; [left; split; [done|]; intros w r Hw E|].
  { destruct (white_char_shape w Hw) as (c & r0 & -> & _). done. }
  cbn [trimStart].
  destruct (is_white_space (String a "")) eqn:E1.
  { right. exists (String a ""), s1. by rewrite white_char_cases. }
  destruct s1 as [|b s2]; [left; split; [done|]; by apply Hstop|].
  destruct (is_white_space (String a (String b ""))) eqn:E2.
  { right. exists (String a (String b "")), s2. by rewrite white_char_cases. }
  destruct s2 as [|c s3]; [left; split; [done|]; by apply Hstop|].
  destruct (is_white_space (String a (String b (String c "")))) eqn:E3.
  { right. exists (String a (String b (String c ""))), s3.
    by rewrite white_char_cases. }
  left. split; [done|]. by apply Hstop.
Qed.

Lemma trimStart_id s : (∀ w r, white_char w → s ≠ w +:+ r) → trimStart s = s.
Proof.
  intros H. destruct (trimStart_cases s) as [[E _]|(w & r & Hw & E & _)]; [done|].
  by destruct (H w r Hw).
Qed.

Lemma trimStart_run lead s : white_run lead → trimStart (lead +:+ s) = trimStart s.
Proof.
  induction 1 as [|w l Hw _ IH]; [done|].
  by rewrite string_app_assoc, trimStart_white.
Qed.

Lemma white_char_length w : white_char w → (0 < String.length w)%nat.
Proof.
  intros Hw. destruct (white_char_shape w Hw) as (c & r & -> & _). simpl. lia.
Qed.

Lemma string_length_app (a b : string) :
  String.length (a +:+ b) = String.length a + String.length b.
Proof. induction a as [|c a IH]; [done|]. rewrite append_cons. simpl. by rewrite IH. Qed.

(** What [trimStart] removes is a run of white space, and what it keeps
    starts with no white space character. *)
Lemma trimStart_spec s :
  ∃ lead, s = lead +:+ trimStart s ∧ white_run lead
          ∧ ∀ w r, white_char w → trimStart s ≠ w +:+ r.
Proof.
  remember (String.length s) as n eqn:Hn. revert s Hn.
  induction n as [n IH] using lt_wf_ind. intros s ->.
  destruct (trimStart_cases s) as [[E Hno]|(w & r & Hw & -> & E)].
  - exists "". rewrite E. split; [done|]. split; [constructor | done].
  - destruct (IH (String.length r)) with (s := r) as (lead & Hr & Hlead & Hno);
      [|done|].
    { rewrite string_length_app. pose proof (white_char_length w Hw). lia. }
    exists (w +:+ lead). rewrite E.
    split; [by rewrite string_app_assoc, <- Hr|].
    split; [by constructor | done].
Qed.

Lemma trimEnd_app_white s w : white_char w → trimEnd (s +:+ w) = trimEnd s.
Proof.
  intros Hw. induction s as [|c s IH]; [by apply trimEnd_white_char|].
  rewrite append_cons. cbn [trimEnd]. by rewrite IH.
Qed.

Lemma trimEnd_run trail : white_run trail → ∀ s, trimEnd (s +:+ trail) = trimEnd s.
Proof.
  induction 1 as [|w t Hw _ IH]; intros s; [by rewrite append_nil_r|].
  by rewrite <- string_app_assoc, IH, trimEnd_app_white.
Qed.

Lemma trimEnd_id s : (∀ w r, white_char w → s ≠ r +:+ w) → trimEnd s = s.
Proof.
  induction s as [|c s IH]; [done|]. intros H. cbn [trimEnd].
  rewrite IH.
  - destruct (is_white_space (String c s)) eqn:E; [|done].
    apply white_char_cases in E. by destruct (H _ "" E).
  - intros w r Hw ->. by destruct (H w (String c r) Hw).
Qed.

(** What [trimEnd] removes is a run of white space, and what it keeps ends
    with no white space character. *)
Lemma trimEnd_spec s :
  ∃ trail, s = trimEnd s +:+ trail ∧ white_run trail
           ∧ ∀ w r, white_char w → trimEnd s ≠ r +:+ w.
Proof.
  induction s as [|c s (trail & Hs & Htrail & Hno)].
  { exists "". split; [done|]. split; [constructor|].
    intros w r Hw E. pose proof (white_char_length w Hw) as Hl.
    apply (f_equal String.length) in E. rewrite string_length_app in E.
    simpl in E. lia. }
  cbn [trimEnd]. destruct (is_white_space (String c (trimEnd s))) eqn:E.
  - exists (String c (trimEnd s) +:+ trail).
    split; [by rewrite append_nil_l, append_cons, <- Hs|].
    split; [constructor; [by apply white_char_cases | done]|].
    intros w r Hw E'. pose proof (white_char_length w Hw) as Hl.
    apply (f_equal String.length) in E'. rewrite string_length_app in E'.
    simpl in E'. lia.
  - exists trail. split; [by rewrite append_cons, <- Hs|]. split; [done|].
    intros w r Hw E'. destruct r as [|x r].
    + rewrite append_nil_l in E'. subst w. apply white_char_cases in Hw. congruence.
    + rewrite append_cons in E'. injection E' as <- E'. by destruct (Hno w r Hw).
Qed.

Lemma string_app_eq_app (a b c d : string) :
  a +:+ b = c +:+ d →
  (∃ z, a = c +:+ z) ∨ (∃ x z, c = a +:+ String x z ∧ b = String x z +:+ d).
Proof.
  revert c. induction a as [|p a IH]; intros c E.
  - rewrite append_nil_l in E. destruct c as [|x z]; [left; by exists ""|].
    right. exists x, z. by rewrite append_nil_l.
  - destruct c as [|q c]; [left; by exists (String p a)|].
    rewrite !append_cons in E. injection E as <- E.
    destruct (IH c E) as [(z & ->)|(x & z & -> & ->)].
    + left. by exists z.
    + right. by exists x, z.
Qed.

Lemma white_run_head x t : white_run (String x t) → is_continuation x = false.
Proof.
  intros H. remember (String x t) as s eqn:Hs. revert x t Hs.
  induction H as [|w s Hw Hrun IH]; intros x t Hs; [done|].
  destruct (white_char_shape w Hw) as (c & r & -> & Hc & _).
  rewrite append_cons in Hs. by injection Hs as -> _.
Qed.

(** After a text that starts with no white space character, a run of white
    space does not make one. *)
Lemma no_white_prefix_app p core trail :
  (∀ w r, white_char w → String p core ≠ w +:+ r) →
  white_run trail →
  ∀ w r, white_char w → String p core +:+ trail ≠ w +:+ r.
Proof.
  intros Hcore Htrail w r Hw E.
  destruct (white_char_shape w Hw) as (c & r0 & -> & Hc & Hr0 & _).
  rewrite !append_cons in E. injection E as <- E.
  destruct (string_app_eq_app _ _ _ _ E) as [(z & ->)|(x & z & -> & ->)].
  - by destruct (Hcore _ z Hw).
  - rewrite string_forall_app in Hr0. apply andb_true_iff in Hr0 as [_ Hx].
    simpl in Hx. apply andb_true_iff in Hx as [Hx _].
    rewrite append_cons in Htrail. apply white_run_head in Htrail. congruence.
Qed.

(** [trim] meets its description: it returns the text without the white
    space around it, and nothing else is that. *)
Lemma trim_is_stripped s : stripped s (trim s).
Proof.
  destruct (trimStart_spec s) as (lead & Hs & Hlead & Hstart).
  destruct (trimEnd_spec (trimStart s)) as (trail & Ht & Htrail & Hend).
  exists lead, trail. unfold trim.
  split; [by rewrite <- Ht|]. split; [done|]. split; [done|]. split; [|done].
  intros w r Hw E. apply (Hstart w (r +:+ trail) Hw).
  by rewrite Ht at 1; rewrite E, string_app_assoc.
Qed.

Lemma trim_stripped s core : stripped s core → trim s = core.
Proof.
  intros (lead & trail & -> & Hlead & Htrail & Hstart & Hend). unfold trim.
  rewrite trimStart_run by done. destruct core as [|p core].
  - rewrite append_nil_l.
    assert (E : trimStart trail = "").
    { rewrite <- (append_nil_r trail). by rewrite trimStart_run. }
    by rewrite E.
  - rewrite trimStart_id by (by apply no_white_prefix_app).
    rewrite trimEnd_run by done. by apply trimEnd_id.
Qed.

Lemma byte_to_N_inj x y : Byte.to_N x = Byte.to_N y → x = y.
Proof.
  intros E. apply (f_equal Byte.of_N) in E.
  rewrite !Byte.of_to_N in E. congruence.
Qed.

Lemma xor_accumulate_zero a : ∀ b out,
  length a = length b →
  StripeWebhook.xor_accumulate out a b = 0%N ↔ out = 0%N ∧ a = b.
Proof.
  induction a as [|x a IH]; intros [|y b] out Hlen; simpl in *; try done.
  - intuition.
  - rewrite IH by lia. rewrite N.lor_eq_0_iff, N.lxor_eq_0_iff. split.
    + intros [[-> E] ->]. by rewrite (byte_to_N_inj _ _ E).
    + intros [-> [= -> ->]]. done.
Qed.

(** The comparison loop decides equality of the two byte arrays. *)
Lemma timingSafeEqualBytes_eq a b :
  StripeWebhook.timingSafeEqualBytes a b = true ↔ a = b.
Proof.
  unfold StripeWebhook.timingSafeEqualBytes.
  destruct (Nat.eqb_spec (length a) (length b)) as [E|E]; simpl.
  - rewrite N.eqb_eq, xor_accumulate_zero by done. intuition.
  - split; [done | intros ->; done].
Qed.

Lemma encode_inj s1 s2 : encode s1 = encode s2 → s1 = s2.
Proof.
  unfold encode. intros E. apply (f_equal string_of_list_byte) in E.
  by rewrite !string_of_list_byte_of_string in E.
Qed.

Lemma signature_ok_elem expectedHex v1s :
  StripeWebhook.signature_ok expectedHex v1s = true ↔ expectedHex ∈ v1s.
Proof.
  unfold StripeWebhook.signature_ok. rewrite existsb_exists. split.
  - intros (v & Hin & Heq). apply timingSafeEqualBytes_eq, encode_inj in Heq.
    subst. by apply list_elem_of_In.
  - intros Hin. exists expectedHex. split; [by apply list_elem_of_In|].
    by apply timingSafeEqualBytes_eq.
Qed.

Example parseStripeSignature_two_signatures :
  StripeWebhook.parseStripeSignature "t=1700000000, v1=ab12 ,v0=zz,v1=cd34"
  = (Some "1700000000", ["ab12"; "cd34"]).
Proof. reflexivity. Qed.

Example parseStripeSignature_empty :
  StripeWebhook.parseStripeSignature "" = (None, []).
Proof. reflexivity. Qed.

(** White space outside ASCII is removed too: here a no-break space, an em
    space and a byte-order mark; the last byte of [à] is that of the
    no-break space, and stays. *)
Example parseStripeSignature_unicode_space :
  StripeWebhook.parseStripeSignature
    ("t=1700000000," +:+ utf8 0xA0 +:+ "v1=ab12" +:+ utf8 0x2003 +:+ utf8 0xFEFF
     +:+ ",v1=" +:+ utf8 0xE0)
  = (Some "1700000000", ["ab12"; utf8 0xE0]).
Proof. reflexivity. Qed.

Example hex_byte_padded :
  map StripeWebhook.hex_byte [Byte.x00; Byte.x0a; Byte.x7f; Byte.xff]
  = ["00"; "0a"; "7f"; "ff"].
Proof. reflexivity. Qed.

Example toUpperCase_zar : toUpperCase "zar" = "ZAR".
Proof. reflexivity. Qed.

Example outside_tolerance_301 :
  StripeWebhook.outside_tolerance 1700000301 (inject_Z 1700000000) = true
  ∧ StripeWebhook.outside_tolerance 1700000300 (inject_Z 1700000000) = false
  ∧ StripeWebhook.outside_tolerance 1699999699 (inject_Z 1700000000) = true.
Proof. repeat split. Qed.

Section Webhook.
Context `{rt : StripeWebhook.Runtime}.

Lemma checkout_completed_response fs oid sid nowIso session db :
  (StripeWebhook.checkout_completed fs oid sid nowIso session db).1
  = json 200 [("ok", JBool true)].
Proof. done. Qed.

(** Once past the signature check the handler answers 200 or 500. *)
Lemma process_event_status fs rawBody nowIso db :
  status (StripeWebhook.process_event fs rawBody nowIso db).1 = 200%Z
  ∨ status (StripeWebhook.process_event fs rawBody nowIso db).1 = 500%Z.
Proof.
  unfold StripeWebhook.process_event.
  destruct (StripeWebhook.JSON_parse rawBody) as [event|m]; [|by right].
  repeat case_match; by left.
Qed.

(** What the handler does with a request whose header is well formed. *)
Lemma handler_signed env req now_ms nowIso fs db secret t ts v1s :
  configured env secret → signed_with req t ts v1s →
  StripeWebhook.handler env req now_ms nowIso fs db
  = if StripeWebhook.outside_tolerance (now_ms / 1000) ts
    then (timestamp_outside_tolerance, db)
    else if StripeWebhook.signature_ok
              (StripeWebhook.hmacSha256Hex secret (t +:+ "." +:+ StripeWebhook.rawBody req))
              v1s
         then StripeWebhook.process_event fs (StripeWebhook.rawBody req) nowIso db
         else (invalid_signature, db).
Proof.
  intros (Hurl & Hkey & Hsec & Hne) (Hparse & Ht & Hv & Hnum).
  unfold StripeWebhook.handler.
  rewrite Hurl, Hkey, Hsec, (truthy_Some secret Hne). cbn [negb orb].
  rewrite Hparse. rewrite (truthy_Some t Ht). cbn [negb orb default].
  destruct v1s as [|v v1s]; [done|]. cbn [length Nat.eqb id].
  rewrite Hnum.
  destruct (StripeWebhook.outside_tolerance (now_ms / 1000) ts); [done|].
  by destruct (StripeWebhook.signature_ok _ _).
Qed.

(** C3. For a request that reaches the signature check (complete
    environment, header with a timestamp inside the tolerance and at least
    one [v1]), the comparison succeeds exactly when some [v1] is the
    lower-case hexadecimal notation of the HMAC-SHA256 of ["{t}.{rawBody}"]
    under the secret.  If one is, the event is processed; if none is, the
    answer is 401 and the store is untouched; so the answer is 401 exactly
    when none is.  In particular, take a header whose [v1] values are the
    signature of the body, and send it with another body: provided the MAC
    tells the two bodies apart, which is what HMAC-SHA256 is relied on for,
    the answer is 401 and the store is untouched. *)
Theorem webhook_signature_accepted_iff
    (env : StripeWebhook.Env) (req : StripeWebhook.Request) (now_ms : Z)
    (nowIso : string) (fs : StripeWebhook.Faults) (db : Db)
    (secret t : string) (ts : Q) (v1s : list string) :
  configured env secret →
  signed_with req t ts v1s →
  StripeWebhook.outside_tolerance (now_ms / 1000) ts = false →
  let mac body :=
    StripeWebhook.hmac_sha256 (encode secret) (encode (t +:+ "." +:+ body)) in
  let signs body := ∃ v1, v1 ∈ v1s ∧ v1 = lower_hex (mac body) in
  let run r := StripeWebhook.handler env r now_ms nowIso fs db in
  (StripeWebhook.signature_ok
     (StripeWebhook.hmacSha256Hex secret (t +:+ "." +:+ StripeWebhook.rawBody req)) v1s
   = true
   ↔ signs (StripeWebhook.rawBody req))
  ∧ (signs (StripeWebhook.rawBody req) →
       run req = StripeWebhook.process_event fs (StripeWebhook.rawBody req) nowIso db
       ∧ status (run req).1 ≠ 401%Z)
  ∧ (¬ signs (StripeWebhook.rawBody req) → run req = (invalid_signature, db))
  ∧ (status (run req).1 = 401%Z ↔ ¬ signs (StripeWebhook.rawBody req))
  ∧ (∀ body',
       body' ≠ StripeWebhook.rawBody req →
       (mac body' = mac (StripeWebhook.rawBody req) → body' = StripeWebhook.rawBody req) →
       (∀ v1, v1 ∈ v1s → v1 = lower_hex (mac (StripeWebhook.rawBody req))) →
       run (StripeWebhook.mkRequest (StripeWebhook.stripe_signature req) body')
       = (invalid_signature, db)).
Proof.
  intros Henv Hsig Htol mac signs run.
  assert (Hex : ∀ body,
            signs body
            ↔ StripeWebhook.signature_ok
                (StripeWebhook.hmacSha256Hex secret (t +:+ "." +:+ body)) v1s = true).
  { intros body. rewrite signature_ok_elem, hmacSha256Hex_lower_hex.
    subst signs mac. split; [by intros (v & Hv & ->)|eauto]. }
  assert (Hrun : ∀ body,
            run (StripeWebhook.mkRequest (StripeWebhook.stripe_signature req) body)
            = if StripeWebhook.signature_ok
                   (StripeWebhook.hmacSha256Hex secret (t +:+ "." +:+ body)) v1s
              then StripeWebhook.process_event fs body nowIso db
              else (invalid_signature, db)).
  { intros body. subst run. cbv beta.
    rewrite (handler_signed env _ now_ms nowIso fs db secret t ts v1s Henv);
      [by rewrite Htol|].
    destruct Hsig as (? & ? & ? & ?). by repeat split. }
  assert (Hreq : req = StripeWebhook.mkRequest (StripeWebhook.stripe_signature req)
                                                (StripeWebhook.rawBody req))
    by (by destruct req).
  assert (Hyes : signs (StripeWebhook.rawBody req) →
            run req = StripeWebhook.process_event fs (StripeWebhook.rawBody req) nowIso db
            ∧ status (run req).1 ≠ 401%Z).
  { intros Hok. apply Hex in Hok. rewrite Hreq at 1 3. rewrite Hrun, Hok.
    split; [done|].
    destruct (process_event_status fs (StripeWebhook.rawBody req) nowIso db) as [E|E];
      rewrite E; lia. }
  assert (Hno : ∀ body, ¬ signs body →
            run (StripeWebhook.mkRequest (StripeWebhook.stripe_signature req) body)
            = (invalid_signature, db)).
  { intros body Hno. rewrite Hrun.
    destruct (StripeWebhook.signature_ok _ _) eqn:E; [|done].
    apply Hex in E. by destruct Hno. }
  split; [symmetry; apply Hex|]. split; [exact Hyes|].
  split; [intros H; rewrite Hreq at 1; by apply Hno|]. split.
  - split.
    + intros H401 Hok. by destruct (Hyes Hok).
    + intros H. rewrite Hreq at 1. by rewrite Hno.
  - intros body' Hbody Hmac Hv1s. apply Hno. intros (v1 & Hin & Hv1).
    apply Hbody, Hmac, lower_hex_inj. rewrite <- Hv1. by apply Hv1s.
Qed.

Lemma outside_tolerance_true nowSec ts :
  StripeWebhook.outside_tolerance nowSec ts = true
  ↔ (300 < Qabs (inject_Z nowSec - ts))%Q.
Proof.
  unfold StripeWebhook.outside_tolerance, StripeWebhook.toleranceSec.
  rewrite negb_true_iff, <- not_true_iff_false, Qle_bool_iff.
  split; [apply Qnot_le_lt | apply Qlt_not_le].
Qed.

End Webhook.

(** C5. A request whose header carries a timestamp and at least one [v1],
    and whose timestamp is more than 300 seconds away from the current
    second, is answered 401 "timestamp outside tolerance" and the store is
    untouched.  Nothing is assumed on the [v1] values or on the body, so the
    signature may be valid or not; and the answer is the same on any
    platform that reads the timestamp the same way, whatever its HMAC
    computes: the timestamp is checked before any signature is computed or
    compared. *)
Theorem webhook_stale_timestamp_rejected `{rt : StripeWebhook.Runtime}
    (env : StripeWebhook.Env) (req : StripeWebhook.Request) (now_ms : Z)
    (nowIso : string) (fs : StripeWebhook.Faults) (db : Db)
    (secret t : string) (ts : Q) (v1s : list string) :
  configured env secret →
  signed_with req t ts v1s →
  (300 < Qabs (inject_Z (now_ms / 1000) - ts))%Q →
  StripeWebhook.handler env req now_ms nowIso fs db
  = (timestamp_outside_tolerance, db)
  ∧ status (StripeWebhook.handler env req now_ms nowIso fs db).1 = 401%Z
  ∧ (∀ rt' : StripeWebhook.Runtime,
       @StripeWebhook.Number rt' t = Some ts →
       @StripeWebhook.handler rt' env req now_ms nowIso fs db
       = (timestamp_outside_tolerance, db)).
Proof.
  intros Henv Hsig Hlate. apply outside_tolerance_true in Hlate.
  rewrite (handler_signed env req now_ms nowIso fs db secret t ts v1s Henv Hsig).
  rewrite Hlate. split; [done|]. split; [done|].
  intros rt' Hnum.
  assert (Hsig' : @signed_with rt' req t ts v1s).
  { destruct Hsig as (? & ? & ? & _). by repeat split. }
  rewrite (@handler_signed rt' env req now_ms nowIso fs db secret t ts v1s Henv Hsig').
  by rewrite Hlate.
Qed.


Lemma sample_request_signed :
  @signed_with sample_runtime sample_request "1700000000" (inject_Z 1700000000)
    [@StripeWebhook.hmacSha256Hex sample_runtime "whsec_test"
       ("1700000000." +:+ sample_body)].
Proof. repeat split; try discriminate; vm_compute; reflexivity. Defined.

Lemma sample_env_configured : configured sample_env "whsec_test".
Proof. repeat split; discriminate. Defined.

(** The request of the example is accepted as well when a no-break space
    follows its signature. *)
Example webhook_accepts_padded_signature :
  (@StripeWebhook.handler sample_runtime sample_env
     (StripeWebhook.mkRequest
        (Some (default "" (StripeWebhook.stripe_signature sample_request)
               +:+ utf8 0xA0))
        sample_body)
     1700000100000 "2023-11-14T22:15:00.000Z" StripeWebhook.no_faults
     (sample_db Pending (Some Unpaid) None)).1
  = json 200 [("ok", JBool true)].
Proof. vm_compute. reflexivity. Qed.

(** The signed request of the example, sent again with the body ["{}"]. *)
Lemma webhook_signature_accepted_iff_witness :
  @StripeWebhook.handler sample_runtime sample_env
    (StripeWebhook.mkRequest (StripeWebhook.stripe_signature sample_request) "{}")
    1700000100000 "2023-11-14T22:15:00.000Z" StripeWebhook.no_faults
    (sample_db Pending (Some Unpaid) None)
  = (invalid_signature, sample_db Pending (Some Unpaid) None).
Proof.
  refine (proj2 (proj2 (proj2 (proj2
    (@webhook_signature_accepted_iff sample_runtime sample_env sample_request
       1700000100000 "2023-11-14T22:15:00.000Z" StripeWebhook.no_faults
       (sample_db Pending (Some Unpaid) None) "whsec_test" "1700000000"
       (inject_Z 1700000000) _ sample_env_configured sample_request_signed _))))
    "{}" _ _ _).
  - vm_compute. reflexivity.
  - discriminate.
  - intros H. vm_compute in H. discriminate.
  - intros v1 Hin. apply list_elem_of_In in Hin. destruct Hin as [<-|[]].
    reflexivity.
Defined.

(** The valid request of the example, delivered 301 seconds late. *)
Lemma webhook_stale_timestamp_rejected_witness :
  status (@StripeWebhook.handler sample_runtime sample_env sample_request
            1700000301000 "2023-11-14T22:18:21.000Z" StripeWebhook.no_faults
            (sample_db Pending (Some Unpaid) None)).1 = 401%Z.
Proof.
  refine (proj1 (proj2
    (@webhook_stale_timestamp_rejected sample_runtime sample_env sample_request
       1700000301000 "2023-11-14T22:18:21.000Z" StripeWebhook.no_faults
       (sample_db Pending (Some Unpaid) None) "whsec_test" "1700000000"
       (inject_Z 1700000000) _ sample_env_configured sample_request_signed _))).
  vm_compute. reflexivity.
Defined.

(** *** Replays of a checkout-completed event *)

Section PaymentRows.
Variables (F : Payment → bool) (g : Payment → Payment).

Lemma update_rows_none l :
  filter (λ p, F p = true) l = [] →
  map (λ p, if F p then g p else p) l = l.
Proof.
  induction l as [|p l IH]; [done|]. rewrite filter_cons. simpl.
  destruct (F p) eqn:E.
  - rewrite decide_True by done. done.
  - rewrite decide_False by congruence. intros H. by rewrite IH.
Qed.

Lemma update_rows_filter l :
  (∀ p, F (g p) = F p) →
  filter (λ p, F p = true) (map (λ p, if F p then g p else p) l)
  = map g (filter (λ p, F p = true) l).
Proof.
  intros Hkey. induction l as [|p l IH]; [done|]. simpl.
  rewrite !filter_cons. destruct (F p) eqn:E.
  - rewrite Hkey, E. rewrite !decide_True by done. simpl. by rewrite IH.
  - rewrite E. rewrite !decide_False by congruence. done.
Qed.

End PaymentRows.

Lemma session_filters_patch oid sid st iso p :
  StripeWebhook.session_filters oid sid (StripeWebhook.payment_status_patch st iso p)
  = StripeWebhook.session_filters oid sid p.
Proof. done. Qed.

Lemma session_filters_fallback oid sid iso session :
  StripeWebhook.session_filters oid sid
    (StripeWebhook.fallback_row oid sid iso session) = true.
Proof.
  unfold StripeWebhook.session_filters, StripeWebhook.fallback_row. simpl.
  by rewrite !String.eqb_refl.
Qed.

(** The store after a run of the checkout-completed branch in which every
    store call goes through. *)
Lemma checkout_completed_db oid sid iso session db :
  (StripeWebhook.checkout_completed StripeWebhook.no_faults oid sid iso session db).2
  = let paid :=
      mkDb (orders (Store.update_orders (StripeWebhook.paid_order_patch iso) oid
                      (λ _, true) db).1)
           (map (λ p, if StripeWebhook.session_filters oid sid p
                      then StripeWebhook.payment_status_patch PayPaid iso p else p)
                (payments db)) in
    match session_rows oid sid db with
    | [] => Store.insert_payment (StripeWebhook.fallback_row oid sid iso session) paid
    | _ :: _ => paid
    end.
Proof.
  unfold StripeWebhook.checkout_completed, StripeWebhook.no_faults,
    StripeWebhook.attempt, Store.update_payments, session_rows.
  cbn [StripeWebhook.f_orders StripeWebhook.f_payments StripeWebhook.f_insert
       fst snd orders payments].
  rewrite update_orders_payments.
  by destruct (filter _ (payments db)).
Qed.

Lemma checkout_completed_rows oid sid iso session db :
  session_rows oid sid
    (StripeWebhook.checkout_completed StripeWebhook.no_faults oid sid iso session db).2
  = match session_rows oid sid db with
    | [] => [StripeWebhook.fallback_row oid sid iso session]
    | rows => map (StripeWebhook.payment_status_patch PayPaid iso) rows
    end.
Proof.
  rewrite checkout_completed_db. cbv zeta.
  destruct (session_rows oid sid db) as [|r rows] eqn:E; unfold session_rows in *.
  - cbn [Store.insert_payment payments]. rewrite filter_app.
    rewrite update_rows_filter by (intros; apply session_filters_patch).
    rewrite E. simpl. rewrite filter_cons, filter_nil.
    by rewrite decide_True by apply session_filters_fallback.
  - cbn [payments]. rewrite update_rows_filter by (intros; apply session_filters_patch).
    by rewrite E.
Qed.

Lemma all_paid_filter (l : list Payment) :
  Forall (λ p, p_status p = PayPaid) l →
  filter (λ p, p_status p = PayPaid) l = l.
Proof.
  induction 1 as [|p l Hp _ IH]; [done|].
  rewrite filter_cons, decide_True by done. by rewrite IH.
Qed.

Lemma checkout_completed_rows_paid oid sid iso session db :
  Forall (λ p, p_status p = PayPaid)
    (session_rows oid sid
       (StripeWebhook.checkout_completed StripeWebhook.no_faults oid sid iso session db).2).
Proof.
  rewrite checkout_completed_rows.
  destruct (session_rows oid sid db) as [|r rows].
  - by repeat constructor.
  - by apply Forall_map, Forall_true.
Qed.

Lemma checkout_completed_order oid sid iso session db :
  orders (StripeWebhook.checkout_completed StripeWebhook.no_faults oid sid iso session db).2
    !! oid
  = StripeWebhook.paid_order_patch iso <$> orders db !! oid.
Proof.
  rewrite checkout_completed_db. cbv zeta.
  assert (H : orders (Store.update_orders (StripeWebhook.paid_order_patch iso) oid
                        (λ _, true) db).1 !! oid
              = StripeWebhook.paid_order_patch iso <$> orders db !! oid).
  { rewrite guarded_update_lookup. by destruct (orders db !! oid). }
  by destruct (session_rows oid sid db).
Qed.

Lemma map_ext_filter {A} (F : A → bool) (f g : A → A) (l : list A) :
  Forall (λ p, f p = g p) (filter (λ p, F p = true) l) →
  map (λ p, if F p then f p else p) l = map (λ p, if F p then g p else p) l.
Proof.
  induction l as [|p l IH]; [done|]. rewrite filter_cons. simpl.
  destruct (F p) eqn:E.
  - rewrite decide_True by done. intros H. apply Forall_cons in H as [-> H].
    by rewrite IH.
  - rewrite decide_False by congruence. intros H. by rewrite IH.
Qed.

(** A second run on the outcome of a first one only refreshes the
    [updated_at] stamps. *)
Lemma checkout_completed_replay oid sid iso1 iso2 session db :
  let db1 :=
    (StripeWebhook.checkout_completed StripeWebhook.no_faults oid sid iso1 session db).2 in
  (StripeWebhook.checkout_completed StripeWebhook.no_faults oid sid iso2 session db1).2
  = restamp oid sid iso2 db1.
Proof.
  intros db1.
  pose proof (checkout_completed_rows oid sid iso1 session db) as Hrows.
  pose proof (checkout_completed_rows_paid oid sid iso1 session db) as Hpaid.
  pose proof (checkout_completed_order oid sid iso1 session db) as Hord.
  fold db1 in Hrows, Hpaid, Hord.
  rewrite checkout_completed_db. cbv zeta.
  destruct (session_rows oid sid db1) as [|r rows] eqn:E.
  { destruct (session_rows oid sid db); discriminate. }
  unfold restamp. f_equal.
  - apply map_eq. intros k. destruct (decide (k = oid)) as [->|Hk].
    + rewrite guarded_update_lookup, lookup_alter_eq, Hord.
      by destruct (orders db !! oid).
    + rewrite update_orders_frame, lookup_alter_ne by done. done.
  - apply map_ext_filter. fold (session_rows oid sid db1). rewrite E.
    eapply Forall_impl; [exact Hpaid|]. intros [] Hp. simpl in Hp.
    unfold StripeWebhook.payment_status_patch, restamp_payment. simpl. by rewrite Hp.
Qed.

Lemma restamp_rows oid sid iso db :
  session_rows oid sid (restamp oid sid iso db)
  = map (restamp_payment iso) (session_rows oid sid db).
Proof.
  unfold restamp, session_rows. cbn [payments].
  by rewrite update_rows_filter.
Qed.

Lemma restamp_length oid sid iso db :
  length (payments (restamp oid sid iso db)) = length (payments db).
Proof. unfold restamp. cbn [payments]. by rewrite length_map. Qed.

Lemma restamp_same_stamp oid sid iso db :
  (∀ o, orders db !! oid = Some o → o_updated_at o = Some iso) →
  Forall (λ p, p_updated_at p = iso) (session_rows oid sid db) →
  restamp oid sid iso db = db.
Proof.
  intros Ho Hp. destruct db as [os ps]. unfold restamp, session_rows in *.
  cbn [orders payments] in *. f_equal.
  - apply map_eq. intros k. destruct (decide (k = oid)) as [->|Hk].
    + rewrite lookup_alter_eq. destruct (os !! oid) as [o|] eqn:E; [|done].
      specialize (Ho o eq_refl). destruct o; simpl in *. by rewrite Ho.
    + by rewrite lookup_alter_ne.
  - induction ps as [|p ps IH]; [done|]. rewrite filter_cons in Hp. simpl.
    destruct (StripeWebhook.session_filters oid sid p) eqn:E.
    + rewrite decide_True in Hp by done. apply Forall_cons in Hp as [Hp1 Hp2].
      rewrite IH by done. f_equal. destruct p; simpl in *. by rewrite Hp1.
    + rewrite decide_False in Hp by congruence. by rewrite IH.
Qed.

Section WebhookEvents.
Context `{rt : StripeWebhook.Runtime}.

Lemma handler_accepted env req now_ms nowIso fs db :
  accepted_at env req now_ms →
  StripeWebhook.handler env req now_ms nowIso fs db
  = StripeWebhook.process_event fs (StripeWebhook.rawBody req) nowIso db.
Proof.
  intros (secret & t & ts & v1s & Henv & Hsig & Htol & Hin).
  rewrite (handler_signed env req now_ms nowIso fs db secret t ts v1s Henv Hsig).
  rewrite Htol. apply signature_ok_elem in Hin. by rewrite Hin.
Qed.

Lemma process_event_completed req oid sid session fs nowIso db :
  completed_event req oid sid session →
  StripeWebhook.process_event fs (StripeWebhook.rawBody req) nowIso db
  = StripeWebhook.checkout_completed fs oid sid nowIso (Some session) db.
Proof.
  intros (Hparse & Hoid & Hsid & Ho & Hs).
  unfold StripeWebhook.process_event. rewrite Hparse.
  cbn [StripeWebhook.e_data_object StripeWebhook.e_type mbind option_bind].
  rewrite Hoid, Hsid, (truthy_Some _ Ho), (truthy_Some _ Hs).
  cbn [negb orb default id]. by rewrite bool_decide_eq_true_2.
Qed.

(** The filter of the two updates of [payments] selects the rows of the
    session, column by column. *)
Lemma session_filters_spec oid sid p :
  StripeWebhook.session_filters oid sid p = true ↔ row_of_session oid sid p.
Proof.
  unfold StripeWebhook.session_filters, row_of_session.
  rewrite !andb_true_iff, !String.eqb_eq. tauto.
Qed.

Lemma rows_of_session oid sid db :
  filter (row_of_session oid sid) (payments db) = session_rows oid sid db.
Proof. apply list_filter_iff. intros p. by rewrite session_filters_spec. Qed.

Lemma filter_iff_in {A} (P Q : A → Prop) `{!∀ x, Decision (P x)}
    `{!∀ x, Decision (Q x)} (l : list A) :
  (∀ x, x ∈ l → P x ↔ Q x) → filter P l = filter Q l.
Proof.
  induction l as [|x l IH]; intros Hiff; [done|]. rewrite !filter_cons.
  rewrite IH by (intros y Hy; apply Hiff; by right).
  destruct (decide (P x)) as [HP|HP], (decide (Q x)) as [HQ|HQ]; try done.
  - destruct HQ. by apply (Hiff x); [left|].
  - destruct HP. by apply (Hiff x); [left|].
Qed.

(** An update of the rows of the session leaves the other rows alone. *)
Lemma other_rows_updated oid sid (g : Payment → Payment) (l : list Payment) :
  (∀ p, row_of_session oid sid p → row_of_session oid sid (g p)) →
  filter (λ p, ¬ row_of_session oid sid p)
    (map (λ p, if StripeWebhook.session_filters oid sid p then g p else p) l)
  = filter (λ p, ¬ row_of_session oid sid p) l.
Proof.
  intros Hg. induction l as [|p l IH]; [done|]. cbn [map].
  rewrite !filter_cons, IH.
  destruct (StripeWebhook.session_filters oid sid p) eqn:E.
  - apply session_filters_spec in E.
    rewrite !decide_False by (intros H; apply H; auto). done.
  - done.
Qed.

Lemma checkout_completed_other_rows oid sid iso session db :
  filter (λ p, ¬ row_of_session oid sid p)
    (payments (StripeWebhook.checkout_completed StripeWebhook.no_faults oid sid iso
                 session db).2)
  = filter (λ p, ¬ row_of_session oid sid p) (payments db).
Proof.
  rewrite checkout_completed_db. cbv zeta.
  destruct (session_rows oid sid db).
  - cbn [Store.insert_payment payments]. rewrite filter_app, other_rows_updated.
    + rewrite filter_cons, filter_nil, decide_False, app_nil_r; [done|].
      intros H. apply H. by repeat split.
    + by intros [].
  - cbn [payments]. apply other_rows_updated. by intros [].
Qed.

Lemma checkout_completed_orders oid sid iso session db o :
  orders db !! oid = Some o →
  orders (StripeWebhook.checkout_completed StripeWebhook.no_faults oid sid iso
            session db).2
  = <[oid := marked_paid_order iso o]> (orders db).
Proof.
  intros Ho. rewrite checkout_completed_db. cbv zeta.
  assert (H : orders (Store.update_orders (StripeWebhook.paid_order_patch iso) oid
                        (λ _, true) db).1
              = <[oid := marked_paid_order iso o]> (orders db)).
  { by rewrite (update_orders_hit _ _ _ _ o). }
  by destruct (session_rows oid sid db).
Qed.

(** C4. A checkout-completed event for order [orderId] and session
    [sessionId] is delivered twice (both deliveries accepted, every store
    call going through), on a store with the order and at most one payment
    row whose [order_id] is the order, whose [provider] is "stripe" and
    whose [provider_payment_id] is the session.  After the first run there
    is exactly one such row: the stored one, now paid, or else the row
    built from the event.  After the second run there is still exactly one,
    the same row with [updated_at] refreshed; it is paid.  Every other row
    is as it was, no row has been added by the second run, and the order is
    paid by card after one run and after two.  When the store's rows with
    this session id all belong to this order and provider, there is exactly
    one row with this session id, and it is paid.  With equal clock reads
    the second run leaves the store exactly as the first run left it. *)
Theorem webhook_completed_replay_idempotent
    (env : StripeWebhook.Env) (req : StripeWebhook.Request)
    (now1 now2 : Z) (iso1 iso2 : string) (db : Db)
    (orderId sessionId : string) (session : StripeWebhook.Session) (o : Order) :
  accepted_at env req now1 →
  accepted_at env req now2 →
  completed_event req orderId sessionId session →
  orders db !! orderId = Some o →
  (length (filter (row_of_session orderId sessionId) (payments db)) ≤ 1)%nat →
  let once := StripeWebhook.handler env req now1 iso1 StripeWebhook.no_faults db in
  let twice := StripeWebhook.handler env req now2 iso2 StripeWebhook.no_faults once.2 in
  let rows d := filter (row_of_session orderId sessionId) (payments d) in
  let others d := filter (λ p, ¬ row_of_session orderId sessionId p) (payments d) in
  let row1 :=
    match rows db with
    | r :: _ => marked_paid iso1 r
    | [] => mkPayment orderId "stripe" sessionId
              (default 0%Z (StripeWebhook.s_amount_total session))
              (toUpperCase (default "ZAR" (StripeWebhook.s_currency session)))
              PayPaid iso1 iso1
    end in
  once.1 = json 200 [("ok", JBool true)]
  ∧ twice.1 = json 200 [("ok", JBool true)]
  ∧ rows once.2 = [row1]
  ∧ rows twice.2 = [marked_paid iso2 row1]
  ∧ p_status row1 = PayPaid
  ∧ others once.2 = others db
  ∧ others twice.2 = others db
  ∧ length (payments twice.2) = length (payments once.2)
  ∧ orders once.2 = <[orderId := marked_paid_order iso1 o]> (orders db)
  ∧ orders twice.2 = <[orderId := marked_paid_order iso2 o]> (orders db)
  ∧ ((∀ p, p ∈ payments db → p_provider_payment_id p = sessionId →
           row_of_session orderId sessionId p) →
       filter (λ p, p_provider_payment_id p = sessionId) (payments twice.2)
       = [marked_paid iso2 row1])
  ∧ (iso2 = iso1 → twice.2 = once.2).
Proof.
  intros Hacc1 Hacc2 Hev Ho Hle once twice rows others row1.
  subst once twice rows others. cbv beta in *.
  rewrite !handler_accepted by done.
  rewrite !(process_event_completed req orderId sessionId session) by done.
  set (db1 := (StripeWebhook.checkout_completed StripeWebhook.no_faults orderId
                 sessionId iso1 (Some session) db).2).
  assert (Hrep := checkout_completed_replay orderId sessionId iso1 iso2 (Some session) db).
  cbv zeta in Hrep. fold db1 in Hrep.
  assert (Hrows1 : filter (row_of_session orderId sessionId) (payments db1) = [row1]).
  { subst db1 row1. rewrite !rows_of_session, checkout_completed_rows.
    rewrite rows_of_session in Hle.
    destruct (session_rows orderId sessionId db) as [|r [|r' l]]; simpl in *;
      [done | done | lia]. }
  assert (Hpaid1 : p_status row1 = PayPaid).
  { subst row1. by destruct (filter _ (payments db)). }
  assert (Hord1 : orders db1 = <[orderId := marked_paid_order iso1 o]> (orders db))
    by (by apply checkout_completed_orders).
  assert (Hothers1 : filter (λ p, ¬ row_of_session orderId sessionId p) (payments db1)
                     = filter (λ p, ¬ row_of_session orderId sessionId p) (payments db))
    by apply checkout_completed_other_rows.
  assert (Hrows2 : filter (row_of_session orderId sessionId)
                     (payments (restamp orderId sessionId iso2 db1))
                   = [marked_paid iso2 row1]).
  { rewrite rows_of_session, restamp_rows, <- rows_of_session, Hrows1.
    cbn [map]. unfold restamp_payment, marked_paid. by rewrite Hpaid1. }
  assert (Hothers2 : filter (λ p, ¬ row_of_session orderId sessionId p)
                       (payments (restamp orderId sessionId iso2 db1))
                     = filter (λ p, ¬ row_of_session orderId sessionId p) (payments db)).
  { rewrite <- Hothers1. unfold restamp. cbn [payments].
    apply other_rows_updated. by intros []. }
  rewrite Hrep.
  split; [done|]. split; [done|]. split; [done|]. split; [done|].
  split; [done|]. split; [done|]. split; [done|].
  split; [apply restamp_length|]. split; [done|].
  split.
  { unfold restamp. cbn [orders]. rewrite Hord1.
    apply map_eq. intros k. destruct (decide (k = orderId)) as [->|Hk].
    - by rewrite lookup_alter_eq, !lookup_insert_eq.
    - by rewrite lookup_alter_ne, !lookup_insert_ne. }
  split.
  { intros Hsid. rewrite <- Hrows2. apply filter_iff_in. intros p Hp. split.
    - intros Hpid. destruct (decide (row_of_session orderId sessionId p)) as [|Hn];
        [done|].
      assert (Hin : p ∈ filter (λ p, ¬ row_of_session orderId sessionId p)
                      (payments (restamp orderId sessionId iso2 db1)))
        by (by apply list_elem_of_filter).
      rewrite Hothers2 in Hin. apply list_elem_of_filter in Hin as [_ Hin]. auto.
    - by intros (_ & _ & ?). }
  intros ->. apply restamp_same_stamp.
  - intros o' Ho'. rewrite Hord1, lookup_insert_eq in Ho'. by injection Ho' as <-.
  - rewrite <- rows_of_session, Hrows1. constructor; [|done].
    subst row1. by destruct (filter _ (payments db)).
Qed.

(** C10. When a checkout-completed event arrives and [payments] holds no
    row for its order and session, one row is appended: its [amount_cents]
    is the event's [amount_total], or 0 when that is absent; its [currency]
    is the event's [currency] in upper case, or "ZAR" when that is absent;
    its status is paid.  The [orders] table plays no part in the row: two
    stores with the same payments get the same payments. *)
Theorem webhook_fallback_row_from_event
    (env : StripeWebhook.Env) (req : StripeWebhook.Request) (now_ms : Z)
    (nowIso : string) (db : Db) (orderId sessionId : string)
    (session : StripeWebhook.Session) :
  accepted_at env req now_ms →
  completed_event req orderId sessionId session →
  session_rows orderId sessionId db = [] →
  let run d := StripeWebhook.handler env req now_ms nowIso StripeWebhook.no_faults d in
  payments (run db).2
  = payments db ++
      [mkPayment orderId "stripe" sessionId
         (default 0%Z (StripeWebhook.s_amount_total session))
         (toUpperCase (default "ZAR" (StripeWebhook.s_currency session)))
         PayPaid nowIso nowIso]
  ∧ (∀ db', payments db' = payments db → payments (run db').2 = payments (run db).2).
Proof.
  intros Hacc Hev Hnone run.
  assert (Hrun : ∀ d, session_rows orderId sessionId d = [] →
            payments (run d).2
            = payments d ++
                [StripeWebhook.fallback_row orderId sessionId nowIso (Some session)]).
  { intros d Hd. subst run. cbv beta.
    rewrite handler_accepted by done.
    rewrite (process_event_completed req orderId sessionId session) by done.
    rewrite checkout_completed_db. cbv zeta. rewrite Hd.
    cbn [Store.insert_payment payments].
    by rewrite update_rows_none by exact Hd. }
  split; [by rewrite Hrun|].
  intros db' Hsame. rewrite !Hrun; [by rewrite Hsame | done |].
  unfold session_rows in *. by rewrite Hsame.
Qed.

End WebhookEvents.

Lemma sample_request_accepted now_ms :
  (1699999700 <= now_ms / 1000 <= 1700000300)%Z →
  @accepted_at sample_runtime sample_env sample_request now_ms.
Proof.
  intros Hwin.
  exists "whsec_test", "1700000000", (inject_Z 1700000000),
    [@StripeWebhook.hmacSha256Hex sample_runtime "whsec_test"
       ("1700000000." +:+ sample_body)].
  split; [exact sample_env_configured|].
  split; [exact sample_request_signed|].
  split; [|apply list_elem_of_here].
  apply not_true_is_false. intros H.
  apply outside_tolerance_true in H.
  apply Qlt_not_le in H. apply H.
  apply Qabs_Qle_condition. unfold Qminus, Qle, Qplus, Qopp, inject_Z; simpl.
  lia.
Defined.

Lemma sample_request_completed :
  @completed_event sample_runtime sample_request "o1" "cs_test_1" sample_session.
Proof. repeat split; discriminate. Defined.

(** The order of the example has a second, older session: its row, and the
    row of another order, stay as they were, and the row of the session is
    the only paid one. *)
Lemma webhook_completed_replay_idempotent_witness :
  let twice :=
    @StripeWebhook.handler sample_runtime sample_env sample_request
      1700000200000 "2023-11-14T22:16:40.000Z" StripeWebhook.no_faults
      (@StripeWebhook.handler sample_runtime sample_env sample_request
         1700000100000 "2023-11-14T22:15:00.000Z" StripeWebhook.no_faults
         two_sessions_db).2 in
  filter (row_of_session "o1" "cs_test_1") (payments twice.2)
  = [mkPayment "o1" "stripe" "cs_test_1" 23997 "ZAR" PayPaid
       "2023-11-14T22:10:00.000Z" "2023-11-14T22:16:40.000Z"]
  ∧ payments twice.2
    = [mkPayment "o1" "stripe" "cs_test_0" 23997 "ZAR" PayPending
         "2023-11-14T22:00:00.000Z" "2023-11-14T22:00:00.000Z";
       mkPayment "o1" "stripe" "cs_test_1" 23997 "ZAR" PayPaid
         "2023-11-14T22:10:00.000Z" "2023-11-14T22:16:40.000Z";
       mkPayment "o2" "stripe" "cs_test_2" 5000 "ZAR" PayPending
         "2023-11-14T22:11:00.000Z" "2023-11-14T22:11:00.000Z"].
Proof.
  split; [|reflexivity].
  refine (proj1 (proj2 (proj2 (proj2
    (@webhook_completed_replay_idempotent sample_runtime sample_env sample_request
       1700000100000 1700000200000
       "2023-11-14T22:15:00.000Z" "2023-11-14T22:16:40.000Z"
       two_sessions_db "o1" "cs_test_1" sample_session
       (sample_order Pending (Some Unpaid) None)
       (sample_request_accepted _ _) (sample_request_accepted _ _)
       sample_request_completed _ _))))).
  - vm_compute. split; discriminate.
  - vm_compute. split; discriminate.
  - reflexivity.
  - vm_compute. lia.
Defined.

(** The order of the example is worth 23997 cents; the event says 100. *)
Lemma webhook_fallback_row_from_event_witness :
  payments (@StripeWebhook.handler sample_runtime sample_env sample_request
              1700000100000 "2023-11-14T22:15:00.000Z" StripeWebhook.no_faults
              (sample_db Pending (Some Unpaid) None)).2
  = [mkPayment "o1" "stripe" "cs_test_1" 100 "ZAR" PayPaid
       "2023-11-14T22:15:00.000Z" "2023-11-14T22:15:00.000Z"].
Proof.
  refine (proj1
    (@webhook_fallback_row_from_event sample_runtime sample_env sample_request
       1700000100000 "2023-11-14T22:15:00.000Z"
       (sample_db Pending (Some Unpaid) None) "o1" "cs_test_1" sample_session
       (sample_request_accepted _ _) sample_request_completed _)).
  - vm_compute. split; discriminate.
  - reflexivity.
Defined.

(** ** Checkout-session creation *)

Lemma includes_closed_terminal st : CreateCheckout.includes_closed st = terminal st.
Proof. by destruct st. Qed.

Section Checkout.
Context `{rt : CreateCheckout.Runtime}.

(** The handler on a POST that names an order, with a complete
    environment: what is left is the chain of checks. *)
Lemma handler_post env req t_tag nowIso fs db oid :
  CreateCheckout.method req = "POST" → ready env →
  CreateCheckout.order_id req = Some oid → oid ≠ "" →
  CreateCheckout.handler env req t_tag nowIso fs db
  = let auth := CreateCheckout.getUser (default "" (CreateCheckout.authorization req)) in
    if Store.is_null (CreateCheckout.authErr auth) && truthy (CreateCheckout.user_id auth)
    then
      let uid := default "" (CreateCheckout.user_id auth) in
      match CreateCheckout.f_select fs with
      | Some message =>
          (json 500 [("error", JStr "order select failed"); ("details", JStr message)], db)
      | None =>
          match orders db !! oid with
          | None => (json 404 [("error", JStr "order not found"); ("order_id", JStr oid)], db)
          | Some o =>
              if negb (bool_decide (o_user_id o = Some uid))
              then (json 403 [("error", JStr "Forbidden (not your order)")], db)
              else if bool_decide (o_payment_status o = Some Paid)
              then (json 409 [("error", JStr "order already paid")], db)
              else if CreateCheckout.includes_closed (o_status o)
              then (json 409 [("error",
                      JStr ("order not payable in status="
                            +:+ CreateCheckout.status_text (o_status o)))], db)
              else
                let amount := default 0%Z (o_total_cents o) in
                if (amount <? 100)%Z
                then (json 400 [("error", JStr "amount too low (>= 100 cents)")], db)
                else
                  CreateCheckout.create_session
                    (default "" (CreateCheckout.STRIPE_SECRET_KEY env))
                    (default "" (CreateCheckout.CHECKOUT_SUCCESS_URL env))
                    (default "" (CreateCheckout.CHECKOUT_CANCEL_URL env))
                    oid o amount t_tag nowIso fs db
          end
      end
    else (json 401 [("error", JStr "Unauthorized")], db).
Proof.
  intros Hm (H1 & H2 & H3 & H4 & H5 & H6) Hoid Hne.
  unfold CreateCheckout.handler.
  rewrite Hm, H1, H2, H3, H4, H5, H6, Hoid, (truthy_Some oid Hne).
  reflexivity.
Qed.

Lemma create_session_status key su cu oid o amount t_tag nowIso fs db :
  match CreateCheckout.fetch_stripe key (CreateCheckout.session_form su cu oid o amount) with
  | CreateCheckout.FetchRejected m =>
      (CreateCheckout.create_session key su cu oid o amount t_tag nowIso fs db).1
      = json 500 [("error", JStr m)]
  | CreateCheckout.StripeRefused d =>
      (CreateCheckout.create_session key su cu oid o amount t_tag nowIso fs db).1
      = json 502 [("error", JStr "stripe session create failed"); ("stripe", d)]
  | CreateCheckout.StripeSession sid url =>
      (CreateCheckout.create_session key su cu oid o amount t_tag nowIso fs db).1
      = json 200 [("url", CreateCheckout.option_json url); ("session_id", JStr sid)]
  end.
Proof.
  unfold CreateCheckout.create_session.
  by destruct (CreateCheckout.fetch_stripe _ _).
Qed.

(** C7, as the code has it.  For a POST that names an order, on a complete
    environment and with the order lookup going through, the answer is
    401 for an unauthenticated caller; otherwise 404 when the order is not
    found; otherwise 403 when the caller is not its owner; otherwise 409
    when it is already paid or in a terminal status; otherwise 400 when
    [total_cents] is below 100; otherwise 502 when the provider answers with
    a failure, 500 when the provider cannot be reached, and 200 with the
    redirect URL and the session id when the provider created the session. *)
Theorem create_checkout_status_codes
    (env : CreateCheckout.Env) (req : CreateCheckout.Request)
    (t_tag nowIso : string) (fs : CreateCheckout.Faults) (db : Db) (oid : string) :
  CreateCheckout.method req = "POST" →
  ready env →
  CreateCheckout.order_id req = Some oid → oid ≠ "" →
  CreateCheckout.f_select fs = None →
  let auth := CreateCheckout.getUser (default "" (CreateCheckout.authorization req)) in
  let r := (CreateCheckout.handler env req t_tag nowIso fs db).1 in
  (unauthenticated auth → status r = 401%Z)
  ∧ (∀ uid, authenticated_as auth uid →
       (orders db !! oid = None → status r = 404%Z)
       ∧ (∀ o, orders db !! oid = Some o →
            (o_user_id o ≠ Some uid → status r = 403%Z)
            ∧ (o_user_id o = Some uid →
                 (o_payment_status o = Some Paid ∨ terminal (o_status o) = true →
                    status r = 409%Z)
                 ∧ (o_payment_status o ≠ Some Paid → terminal (o_status o) = false →
                      ((default 0 (o_total_cents o) < 100)%Z → status r = 400%Z)
                      ∧ ((100 <= default 0 (o_total_cents o))%Z →
                           match provider_reply env oid o with
                           | CreateCheckout.StripeRefused _ => status r = 502%Z
                           | CreateCheckout.FetchRejected _ => status r = 500%Z
                           | CreateCheckout.StripeSession sid url =>
                               r = json 200 [("url", CreateCheckout.option_json url);
                                             ("session_id", JStr sid)]
                           end))))).
Proof.
  intros Hm Henv Hoid Hne Hsel auth r. subst r.
  rewrite (handler_post env req t_tag nowIso fs db oid Hm Henv Hoid Hne).
  cbv zeta. fold auth. rewrite Hsel. split.
  - intros [Herr | Hid].
    + destruct (CreateCheckout.authErr auth); [done | by destruct Herr].
    + by rewrite Hid, andb_false_r.
  - intros uid (Herr & Hid & Huid).
    rewrite Herr, Hid, (truthy_Some uid Huid). cbn [Store.is_null andb default id].
    split; [by intros ->|].
    intros o ->. split.
    + intros Hown. by rewrite bool_decide_eq_false_2.
    + intros Hown. rewrite bool_decide_eq_true_2 by done. cbn [negb]. split.
      * intros [Hpaid | Hterm].
        -- by rewrite bool_decide_eq_true_2.
        -- rewrite includes_closed_terminal, Hterm. by case_bool_decide.
      * intros Hpaid Hterm.
        rewrite bool_decide_eq_false_2, includes_closed_terminal, Hterm by done.
        split.
        -- intros Hlow. by rewrite (proj2 (Z.ltb_lt _ _) Hlow).
        -- intros Hok. rewrite (proj2 (Z.ltb_ge _ _) Hok).
           unfold provider_reply.
           pose proof (create_session_status
                         (default "" (CreateCheckout.STRIPE_SECRET_KEY env))
                         (default "" (CreateCheckout.CHECKOUT_SUCCESS_URL env))
                         (default "" (CreateCheckout.CHECKOUT_CANCEL_URL env))
                         oid o (default 0%Z (o_total_cents o)) t_tag nowIso fs db) as H.
           destruct (CreateCheckout.fetch_stripe _ _); by rewrite H.
Qed.

(** The tag is an update keyed by the order id alone: it applies to the
    stored row whatever its status and payment status. *)
Lemma tag_card_intent_unconditional now oid db o :
  orders db !! oid = Some o →
  tag_orders now oid db o.
Proof.
  intros Ho. unfold tag_orders, CreateCheckout.tag_card_intent.
  by rewrite (update_orders_hit _ _ _ _ o Ho).
Qed.

(** A run that reaches the provider has passed every check. *)
Lemma handler_reaches_provider env req t_tag nowIso fs db :
  CreateCheckout.method req = "POST" →
  (status (CreateCheckout.handler env req t_tag nowIso fs db).1 = 200%Z
   ∨ status (CreateCheckout.handler env req t_tag nowIso fs db).1 = 502%Z) →
  ∃ oid o,
    CreateCheckout.order_id req = Some oid
    ∧ orders db !! oid = Some o
    ∧ CreateCheckout.handler env req t_tag nowIso fs db
      = CreateCheckout.create_session
          (default "" (CreateCheckout.STRIPE_SECRET_KEY env))
          (default "" (CreateCheckout.CHECKOUT_SUCCESS_URL env))
          (default "" (CreateCheckout.CHECKOUT_CANCEL_URL env))
          oid o (default 0%Z (o_total_cents o)) t_tag nowIso fs db.
Proof.
  intros Hm. unfold CreateCheckout.handler. rewrite Hm. cbn [String.eqb Ascii.eqb Bool.eqb negb].
  repeat (case_match; try (cbn [status fst json]; intros [?|?]; discriminate)).
  intros _. destruct (CreateCheckout.order_id req) as [oid|] eqn:E; [|done].
  exists oid. eexists. split; [done|]. split; [eassumption|done].
Qed.

(** C9. A run of [create-checkout] that ends in 200 (or in 502, the provider
    having refused) has, the store call going through, rewritten the order
    as follows: [payment_method] is "card", [updated_at] is the clock read,
    every other field and every other order is as before.  The update is
    keyed by the order id alone: applied to any stored row, whatever its
    status or payment status, it goes through. *)
Theorem create_checkout_tags_card_intent
    (env : CreateCheckout.Env) (req : CreateCheckout.Request)
    (t_tag nowIso : string) (fs : CreateCheckout.Faults) (db : Db) :
  CreateCheckout.method req = "POST" →
  CreateCheckout.f_update fs = None →
  (status (CreateCheckout.handler env req t_tag nowIso fs db).1 = 200%Z
   ∨ status (CreateCheckout.handler env req t_tag nowIso fs db).1 = 502%Z) →
  ∃ oid o,
    CreateCheckout.order_id req = Some oid
    ∧ orders db !! oid = Some o
    ∧ orders (CreateCheckout.handler env req t_tag nowIso fs db).2
      = <[oid := mkOrder (o_user_id o) (o_status o) (o_payment_status o)
                   (Some "card") (o_rider_id o) (o_total_cents o)
                   (o_eta_minutes o) (o_created_at o) (Some t_tag)
                   (o_delivered_at o) (o_cancelled_at o)]> (orders db)
    ∧ (∀ db0 o0, orders db0 !! oid = Some o0 → tag_orders t_tag oid db0 o0).
Proof.
  intros Hm Hupd Hst.
  destruct (handler_reaches_provider env req t_tag nowIso fs db Hm Hst)
    as (oid & o & Hoid & Ho & ->).
  exists oid, o. split; [done|]. split; [done|]. split.
  - unfold CreateCheckout.create_session. rewrite Hupd.
    pose proof (tag_card_intent_unconditional t_tag oid db o Ho) as Htag.
    unfold tag_orders in Htag.
    destruct (CreateCheckout.fetch_stripe _ _); cbn [snd]; try done.
    by destruct (CreateCheckout.f_insert fs).
  - intros db0 o0. apply tag_card_intent_unconditional.
Qed.

End Checkout.

Lemma sample_checkout_env_ready : ready sample_checkout_env.
Proof. repeat split. Defined.

Lemma create_checkout_status_codes_witness :
  (@CreateCheckout.handler sample_checkout_runtime sample_checkout_env
     sample_checkout_request "2025-01-01T10:01:00.000Z" "2025-01-01T10:01:01.000Z"
     CreateCheckout.no_faults (sample_db Pending (Some Unpaid) None)).1
  = json 200 [("url", JStr "https://checkout.stripe.com/c/pay/cs_test_1");
              ("session_id", JStr "cs_test_1")].
Proof.
  pose proof (@create_checkout_status_codes sample_checkout_runtime
                sample_checkout_env sample_checkout_request
                "2025-01-01T10:01:00.000Z" "2025-01-01T10:01:01.000Z"
                CreateCheckout.no_faults (sample_db Pending (Some Unpaid) None) "o1"
                eq_refl sample_checkout_env_ready eq_refl) as H.
  destruct H as [_ H]; [discriminate | reflexivity |].
  destruct (H "u1") as [_ Ho]; [repeat split; discriminate|].
  destruct (Ho (sample_order Pending (Some Unpaid) None) eq_refl) as [_ Hown].
  destruct (Hown eq_refl) as [_ Hpay].
  destruct Hpay as [_ Hamount]; [discriminate | reflexivity |].
  apply Hamount. vm_compute. discriminate.
Defined.

(** Two requests answered with other codes: an unauthenticated POST without
    [order_id] is answered 400, not 401; and when the provider cannot be
    reached the answer is 500, not 502. *)
Lemma create_checkout_other_codes :
  let db := sample_db Pending (Some Unpaid) None in
  let anonymous := CreateCheckout.mkRequest "POST" None None in
  let r := (@CreateCheckout.handler sample_checkout_runtime sample_checkout_env
              anonymous "2025-01-01T10:01:00.000Z" "2025-01-01T10:01:01.000Z"
              CreateCheckout.no_faults db).1 in
  let r' := (@CreateCheckout.handler offline_checkout_runtime sample_checkout_env
               sample_checkout_request "2025-01-01T10:01:00.000Z"
               "2025-01-01T10:01:01.000Z" CreateCheckout.no_faults db).1 in
  (unauthenticated
     (@CreateCheckout.getUser sample_checkout_runtime
        (default "" (CreateCheckout.authorization anonymous)))
   ∧ status r = 400%Z ∧ status r ≠ 401%Z)
  ∧ (status r' = 500%Z ∧ status r' ≠ 502%Z).
Proof.
  vm_compute. repeat split; try discriminate. left. discriminate.
Qed.

Lemma create_checkout_tags_card_intent_witness :
  o_payment_method <$>
    orders (@CreateCheckout.handler sample_checkout_runtime sample_checkout_env
              sample_checkout_request "2025-01-01T10:01:00.000Z"
              "2025-01-01T10:01:01.000Z" CreateCheckout.no_faults
              (mkDb {[ "o1" := mkOrder (Some "u1") Pending (Some Unpaid) None None
                                 (Some 23997%Z) None "2025-01-01T10:00:00.000Z"
                                 None None None ]} [])).2 !! "o1"
  = Some (Some "card").
Proof.
  destruct (@create_checkout_tags_card_intent sample_checkout_runtime
              sample_checkout_env sample_checkout_request
              "2025-01-01T10:01:00.000Z" "2025-01-01T10:01:01.000Z"
              CreateCheckout.no_faults
              (mkDb {[ "o1" := mkOrder (Some "u1") Pending (Some Unpaid) None None
                                 (Some 23997%Z) None "2025-01-01T10:00:00.000Z"
                                 None None None ]} [])
              eq_refl eq_refl)
    as (oid & o & Hoid & Ho & Horders & _).
  - left. vm_compute. reflexivity.
  - injection Hoid as <-. rewrite Horders, lookup_insert_eq. reflexivity.
Defined.

(** * Further properties of the code *)

(** ** Signature comparison and hex encoding *)

(** X1. [timingSafeEqualBytes] answers [true] exactly when the two arrays
    are equal: arrays of different lengths are unequal without looking at a
    byte, and for equal lengths the accumulated xor is zero only when every
    pair of bytes agrees. *)
Theorem timingSafeEqualBytes_decides_equality (a b : list Byte.byte) :
  (StripeWebhook.timingSafeEqualBytes a b = true ↔ a = b)
  ∧ (length a ≠ length b → StripeWebhook.timingSafeEqualBytes a b = false)
  ∧ (length a = length b →
     StripeWebhook.timingSafeEqualBytes a b = false ↔ ∃ i x y,
       a !! i = Some x ∧ b !! i = Some y ∧ x ≠ y).
Proof.
  split; [apply timingSafeEqualBytes_eq|]. split.
  - intros Hlen. apply not_true_is_false. intros H.
    apply timingSafeEqualBytes_eq in H. by subst.
  - intros Hlen. rewrite <- not_true_iff_false, timingSafeEqualBytes_eq. split.
    + revert b Hlen. induction a as [|x a IH]; intros [|y b] Hlen Hne;
        simpl in *; try done.
      destruct (N.eq_dec (Byte.to_N x) (Byte.to_N y)) as [Hxy|Hxy].
      * apply byte_to_N_inj in Hxy as ->.
        destruct (IH b) as (i & x' & y' & ? & ? & ?); [lia | congruence |].
        by exists (S i), x', y'.
      * exists 0, x, y. repeat split. congruence.
    + intros (i & x & y & Ha & Hb & Hxy) ->. congruence.
Qed.

Lemma timingSafeEqualBytes_decides_equality_witness :
  StripeWebhook.timingSafeEqualBytes [Byte.x61; Byte.x62] [Byte.x61; Byte.x62; Byte.x63]
  = false.
Proof.
  apply (proj1 (proj2 (timingSafeEqualBytes_decides_equality
                         [Byte.x61; Byte.x62] [Byte.x61; Byte.x62; Byte.x63]))).
  simpl. lia.
Defined.

(** X2. The hex string [hmacSha256Hex] builds has two characters per byte
    of the MAC, all of them among [0-9a-f], and loses nothing: two hex
    strings are equal only when the MACs are.  A [v1] value holding any
    other character (an upper-case digit, say) is therefore never accepted. *)
Theorem hmacSha256Hex_encoding `{rt : StripeWebhook.Runtime} (secret message : string) :
  let mac := StripeWebhook.hmac_sha256 (encode secret) (encode message) in
  String.length (StripeWebhook.hmacSha256Hex secret message) = 2 * length mac
  ∧ string_forall is_lower_hex (StripeWebhook.hmacSha256Hex secret message) = true
  ∧ (∀ secret' message',
       StripeWebhook.hmacSha256Hex secret message
       = StripeWebhook.hmacSha256Hex secret' message'
       ↔ mac = StripeWebhook.hmac_sha256 (encode secret') (encode message'))
  ∧ (∀ v1s, StripeWebhook.signature_ok (StripeWebhook.hmacSha256Hex secret message) v1s = true →
       ∃ v1, v1 ∈ v1s ∧ string_forall is_lower_hex v1 = true
             ∧ String.length v1 = 2 * length mac).
Proof.
  intros mac. unfold StripeWebhook.hmacSha256Hex. fold mac.
  assert (Hlen : ∀ l, String.length (String.concat "" (map StripeWebhook.hex_byte l))
                      = 2 * length l).
  { induction l as [|b l IH]; [done|]. cbn [map]. rewrite concat_empty_cons.
    destruct (hex_byte_shape b) as (? & ? & ->).
    rewrite !append_cons, append_nil_l. simpl in *. rewrite IH. lia. }
  assert (Hhex : ∀ l, string_forall is_lower_hex
                        (String.concat "" (map StripeWebhook.hex_byte l)) = true).
  { induction l as [|b l IH]; [done|]. cbn [map].
    by rewrite concat_empty_cons, string_forall_app, hex_byte_lower, IH. }
  split; [apply Hlen|]. split; [apply Hhex|]. split.
  - intros secret' message'. split; [apply hex_concat_inj | by intros <-].
  - intros v1s Hok. apply signature_ok_elem in Hok.
    eexists. split; [exact Hok|]. split; [apply Hhex | apply Hlen].
Qed.

Lemma hmacSha256Hex_encoding_witness :
  String.length (@StripeWebhook.hmacSha256Hex sample_runtime "whsec_test" "1700000000.{}")
  = 8.
Proof.
  exact (proj1 (@hmacSha256Hex_encoding sample_runtime "whsec_test" "1700000000.{}")).
Defined.

(** ** Parsing the signature header *)

Lemma split_no_sep x :
  string_forall (λ c, negb (Ascii.eqb c ",")) x = true → split "," x = [x].
Proof.
  induction x as [|c x IH]; [done|]. simpl.
  intros [Hc Hx]%andb_true_iff. apply negb_true_iff in Hc. rewrite Hc.
  by rewrite IH.
Qed.

Lemma split_app_sep x r :
  string_forall (λ c, negb (Ascii.eqb c ",")) x = true →
  split "," (x +:+ String "," r) = x :: split "," r.
Proof.
  induction x as [|c x IH]; [done|]. rewrite append_cons. simpl.
  intros [Hc Hx]%andb_true_iff. apply negb_true_iff in Hc. rewrite Hc.
  by rewrite IH.
Qed.

Lemma split_concat (x : string) (xs : list string) :
  Forall (λ y, string_forall (λ c, negb (Ascii.eqb c ",")) y = true) (x :: xs) →
  split "," (String.concat "," (x :: xs)) = x :: xs.
Proof.
  revert x. induction xs as [|y xs IH]; intros x H.
  - apply Forall_cons in H as [Hx _]. by apply split_no_sep.
  - apply Forall_cons in H as [Hx Hxs].
    change (String.concat "," (x :: y :: xs))
      with (x +:+ String "," (String.concat "," (y :: xs))).
    rewrite split_app_sep by done. by rewrite IH.
Qed.

Lemma string_forall_cons P c s :
  string_forall P (String c s) = P c && string_forall P s.
Proof. done. Qed.

Lemma startsWith_app pre s : startsWith pre (pre +:+ s) = true.
Proof.
  unfold startsWith. induction pre as [|c pre IH]; [by destruct s|].
  rewrite append_cons. simpl. by destruct (ascii_dec c c).
Qed.

Lemma startsWith_inv pre s : startsWith pre s = true → ∃ v, s = pre +:+ v.
Proof.
  unfold startsWith. revert s. induction pre as [|c pre IH]; intros s H.
  - exists s. by rewrite append_nil_l.
  - destruct s as [|d s]; [done|]. simpl in H.
    destruct (ascii_dec c d) as [->|]; [|done].
    destruct (IH s H) as (v & ->). exists v. by rewrite append_cons.
Qed.

(** The parts of a header, as [parseStripeSignature] reads them. *)
Lemma parse_concat (parts : list string) :
  parts ≠ [] → Forall comma_free parts →
  StripeWebhook.parseStripeSignature (String.concat "," parts)
  = (slice 2 <$> List.find (startsWith "t=") (map trim parts),
     map (slice 3) (List.filter (startsWith "v1=") (map trim parts))).
Proof.
  intros Hne Hc. destruct parts as [|p parts]; [done|].
  unfold StripeWebhook.parseStripeSignature. by rewrite split_concat.
Qed.

Lemma find_no_field (parts : list string) :
  no_field "t=" parts → List.find (startsWith "t=") (map trim parts) = None.
Proof.
  induction parts as [|p parts IH]; intros Hno; [done|]. cbn [map List.find].
  destruct (startsWith "t=" (trim p)) eqn:E.
  - apply startsWith_inv in E as (v & E). destruct (Hno p v); [left|].
    rewrite <- E. apply trim_is_stripped.
  - apply IH. intros q v Hq. apply Hno. by right.
Qed.

Lemma find_field (before after : list string) (p t : string) :
  no_field "t=" before → stripped p ("t=" +:+ t) →
  List.find (startsWith "t=") (map trim (before ++ p :: after)) = Some ("t=" +:+ t).
Proof.
  intros Hno Hp. induction before as [|q before IH].
  - cbn [app map List.find]. by rewrite (trim_stripped _ _ Hp), startsWith_app.
  - cbn [app map List.find]. destruct (startsWith "t=" (trim q)) eqn:E.
    + apply startsWith_inv in E as (v & E). destruct (Hno q v); [left|].
      rewrite <- E. apply trim_is_stripped.
    + apply IH. intros r v Hr. apply Hno. by right.
Qed.

Lemma filter_no_field (parts : list string) :
  no_field "v1=" parts → List.filter (startsWith "v1=") (map trim parts) = [].
Proof.
  induction parts as [|p parts IH]; intros Hno; [done|]. cbn [map List.filter].
  destruct (startsWith "v1=" (trim p)) eqn:E.
  - apply startsWith_inv in E as (v & E). destruct (Hno p v); [left|].
    rewrite <- E. apply trim_is_stripped.
  - apply IH. intros q v Hq. apply Hno. by right.
Qed.

Lemma filter_field (parts : list string) (p v : string) :
  p ∈ parts → stripped p ("v1=" +:+ v) →
  List.filter (startsWith "v1=") (map trim parts) ≠ [].
Proof.
  intros Hin Hp E.
  assert (H : In (trim p) (List.filter (startsWith "v1=") (map trim parts))).
  { apply filter_In. split.
    - apply in_map. by apply list_elem_of_In.
    - by rewrite (trim_stripped _ _ Hp), startsWith_app. }
  by rewrite E in H.
Qed.

(** X3. Parsing gives back what the header was built from.  A header is a
    list of parts separated by commas.  When its first part reads [t=<t>]
    and the others read [v1=<s1>], ..., [v1=<sn>], each with any white space
    around it (blanks, no-break spaces, or any other white space of the
    language), [parseStripeSignature] returns the timestamp and the
    signatures, in order. *)
Theorem parseStripeSignature_roundtrip (t : string) (v1s parts : list string) :
  Forall comma_free parts →
  Forall2 stripped parts (("t=" +:+ t) :: map (λ v, "v1=" +:+ v) v1s) →
  StripeWebhook.parseStripeSignature (String.concat "," parts) = (Some t, v1s).
Proof.
  intros Hc Hparts.
  assert (Htrim : map trim parts = ("t=" +:+ t) :: map (λ v, "v1=" +:+ v) v1s).
  { clear Hc. induction Hparts as [|p f ps fs Hp _ IH]; [done|].
    cbn [map]. by rewrite (trim_stripped _ _ Hp), IH. }
  rewrite parse_concat; [|by inversion Hparts|done].
  rewrite Htrim. f_equal.
  - cbn [List.find]. by rewrite startsWith_app.
  - cbn [List.filter].
    change (startsWith "v1=" ("t=" +:+ t)) with false. cbv iota.
    clear. induction v1s as [|v l IH]; [done|]. cbn [map List.filter].
    rewrite startsWith_app. cbn [map]. by rewrite IH.
Qed.

(** The second part has a blank before and a no-break space after. *)
Lemma parseStripeSignature_roundtrip_witness :
  StripeWebhook.parseStripeSignature
    ("t=1700000000, v1=ab12" +:+ utf8 0xA0 +:+ ",v1=cd34")
  = (Some "1700000000", ["ab12"; "cd34"]).
Proof.
  apply (parseStripeSignature_roundtrip "1700000000" ["ab12"; "cd34"]
           ["t=1700000000"; " v1=ab12" +:+ utf8 0xA0; "v1=cd34"]).
  - repeat constructor.
  - repeat constructor.
    + exact (trim_is_stripped "t=1700000000").
    + exact (trim_is_stripped (" v1=ab12" +:+ utf8 0xA0)).
    + exact (trim_is_stripped "v1=cd34").
Defined.

(** ** The webhook: rejections, acknowledgements and frame *)

(** X4. With a complete environment, a request without signature header is
    answered 400 "missing signature".  So is one whose header, cut at the
    commas and the white space around each part put aside, has no part
    reading [t=...], or none reading [v1=...], or whose first [t=] part has
    an empty value.  When there is a [v1=] part and the value of the first
    [t=] part is not empty but does not read as a finite number, the answer
    is 400 "invalid timestamp".  In every case the store is untouched,
    whatever the body. *)
Theorem webhook_malformed_header_400 `{rt : StripeWebhook.Runtime}
    (env : StripeWebhook.Env) (req : StripeWebhook.Request) (now_ms : Z)
    (nowIso : string) (fs : StripeWebhook.Faults) (db : Db) (secret : string) :
  configured env secret →
  let run := StripeWebhook.handler env req now_ms nowIso fs db in
  (StripeWebhook.stripe_signature req = None → run = (missing_signature, db))
  ∧ (∀ parts,
       StripeWebhook.stripe_signature req = Some (String.concat "," parts) →
       parts ≠ [] → Forall comma_free parts →
       (no_field "t=" parts ∨ no_field "v1=" parts → run = (missing_signature, db))
       ∧ (∀ before p after t,
            parts = before ++ p :: after →
            no_field "t=" before →
            stripped p ("t=" +:+ t) →
            (t = "" → run = (missing_signature, db))
            ∧ (∀ p' v,
                 p' ∈ parts → stripped p' ("v1=" +:+ v) →
                 t ≠ "" → StripeWebhook.Number t = None →
                 run = (invalid_timestamp, db)))).
Proof.
  intros (Hurl & Hkey & Hsec & Hne) run. subst run.
  unfold StripeWebhook.handler.
  rewrite Hurl, Hkey, Hsec, (truthy_Some secret Hne). cbn [negb orb].
  split; [by intros ->|].
  intros parts -> Hparts Hc. cbn [from_option id]. rewrite parse_concat by done.
  split.
  - intros [Ht|Hv].
    + by rewrite find_no_field.
    + rewrite filter_no_field by done. cbn [map length Nat.eqb].
      by rewrite orb_true_r.
  - intros before p after t -> Hbefore Hp.
    rewrite (find_field before after p t) by done.
    cbn [fmap option_fmap option_map].
    change (slice 2 ("t=" +:+ t)) with t. split.
    + by intros ->.
    + intros p' v Hin Hp' Ht Hnum. rewrite (truthy_Some t Ht).
      pose proof (filter_field _ _ _ Hin Hp') as Hv1.
      destruct (List.filter _ _) as [|x l]; [done|].
      cbn [map length Nat.eqb negb orb default id]. by rewrite Hnum.
Qed.

(** A header with a signature, after a no-break space, and no timestamp. *)
Lemma webhook_malformed_header_400_witness :
  @StripeWebhook.handler sample_runtime sample_env
     (StripeWebhook.mkRequest (Some ("v0=00," +:+ utf8 0xA0 +:+ "v1=ab12")) sample_body)
     1700000100000 "2023-11-14T22:15:00.000Z" StripeWebhook.no_faults
     (sample_db Pending (Some Unpaid) None)
  = (missing_signature, sample_db Pending (Some Unpaid) None).
Proof.
  refine (proj1 (proj2 (@webhook_malformed_header_400 sample_runtime sample_env
                  (StripeWebhook.mkRequest
                     (Some ("v0=00," +:+ utf8 0xA0 +:+ "v1=ab12")) sample_body)
                  1700000100000 "2023-11-14T22:15:00.000Z" StripeWebhook.no_faults
                  (sample_db Pending (Some Unpaid) None) "whsec_test"
                  sample_env_configured)
                  ["v0=00"; utf8 0xA0 +:+ "v1=ab12"] eq_refl _ _) _).
  - discriminate.
  - repeat constructor.
  - left. intros p v Hin Hp. apply trim_stripped in Hp.
    apply list_elem_of_In in Hin. destruct Hin as [<-|[<-|[]]]; discriminate.
Defined.

Lemma process_event_not_200 `{rt : StripeWebhook.Runtime} fs rawBody nowIso db :
  status (StripeWebhook.process_event fs rawBody nowIso db).1 ≠ 200%Z →
  (StripeWebhook.process_event fs rawBody nowIso db).2 = db.
Proof.
  unfold StripeWebhook.process_event.
  destruct (StripeWebhook.JSON_parse rawBody) as [event|m]; [|done].
  repeat case_match; cbn [fst snd status json]; try done;
    unfold StripeWebhook.checkout_completed, StripeWebhook.checkout_expired;
    cbn [fst snd status json]; done.
Qed.

(** X5. Whatever the request, the environment and the faults, an answer of
    the webhook other than 200 comes with an untouched store: no rejection
    (400, 401) and no failure (500) leaves a partial update behind. *)
Theorem webhook_no_partial_processing `{rt : StripeWebhook.Runtime}
    (env : StripeWebhook.Env) (req : StripeWebhook.Request) (now_ms : Z)
    (nowIso : string) (fs : StripeWebhook.Faults) (db : Db) :
  status (StripeWebhook.handler env req now_ms nowIso fs db).1 ≠ 200%Z →
  (StripeWebhook.handler env req now_ms nowIso fs db).2 = db.
Proof.
  unfold StripeWebhook.handler.
  repeat case_match; cbn [fst snd]; try done.
  apply process_event_not_200.
Qed.

Lemma webhook_no_partial_processing_witness :
  (@StripeWebhook.handler sample_runtime sample_env
     (StripeWebhook.mkRequest (StripeWebhook.stripe_signature sample_request) "{}")
     1700000100000 "2023-11-14T22:15:00.000Z" StripeWebhook.no_faults
     (sample_db Pending (Some Unpaid) None)).2
  = sample_db Pending (Some Unpaid) None.
Proof.
  apply (@webhook_no_partial_processing sample_runtime).
  vm_compute. discriminate.
Defined.

Lemma orders_related_refl (R : Order → Order → Prop) db db' :
  (∀ o, R o o) → orders db' = orders db → orders_related R db db'.
Proof. intros HR E k. rewrite E. destruct (orders db !! k); auto. Qed.

Lemma orders_related_trans (R : Order → Order → Prop) db1 db2 db3 :
  (∀ a b c, R a b → R b c → R a c) →
  orders_related R db1 db2 → orders_related R db2 db3 → orders_related R db1 db3.
Proof.
  intros HR H12 H23 k. specialize (H12 k). specialize (H23 k).
  destruct (orders db1 !! k), (orders db2 !! k), (orders db3 !! k); try done.
  eauto.
Qed.

Lemma update_orders_related (R : Order → Order → Prop) patch oid filters db :
  (∀ o, R o o) → (∀ o, R o (patch o)) →
  orders_related R db (Store.update_orders patch oid filters db).1.
Proof.
  intros Hrefl Hpatch k. destruct (decide (k = oid)) as [->|Hk].
  - rewrite guarded_update_lookup. destruct (orders db !! oid) as [o|]; [|done].
    simpl. by destruct (filters o).
  - rewrite update_orders_frame by done. destruct (orders db !! k); auto.
Qed.

Lemma same_delivery_refl o : same_delivery o o.
Proof. by repeat split. Qed.

Lemma same_delivery_trans a b c :
  same_delivery a b → same_delivery b c → same_delivery a c.
Proof. unfold same_delivery. intuition congruence. Qed.

Lemma same_payment_refl o : same_payment o o.
Proof. by repeat split. Qed.

Lemma same_payment_trans a b c :
  same_payment a b → same_payment b c → same_payment a c.
Proof. unfold same_payment. intuition congruence. Qed.

Lemma update_payments_core st iso (F : Payment → bool) (l : list Payment) :
  map payment_core
    (map (λ p, if F p then StripeWebhook.payment_status_patch st iso p else p) l)
  = map payment_core l.
Proof.
  rewrite map_map. apply map_ext. intros p. by destruct (F p).
Qed.

Lemma no_extra_row (ps qs : list Payment) :
  map payment_core ps = map payment_core qs →
  ∃ extra, map payment_core ps = map payment_core qs ++ map payment_core extra
           ∧ (length extra ≤ 1)%nat.
Proof. intros ->. exists []. simpl. rewrite app_nil_r. split; [done | lia]. Qed.

Lemma checkout_completed_frame fs oid sid iso session db :
  let db' := (StripeWebhook.checkout_completed fs oid sid iso session db).2 in
  orders_related same_delivery db db'
  ∧ ∃ extra, map payment_core (payments db')
             = map payment_core (payments db) ++ map payment_core extra
             ∧ (length extra ≤ 1)%nat.
Proof.
  intros db'. subst db'. unfold StripeWebhook.checkout_completed, StripeWebhook.attempt.
  cbn [snd].
  set (db1 := match StripeWebhook.f_orders fs with
              | Some _ => db
              | None => (Store.update_orders (StripeWebhook.paid_order_patch iso) oid
                           (λ _, true) db).1
              end).
  assert (H1 : orders_related same_delivery db db1 ∧ payments db1 = payments db).
  { subst db1. destruct (StripeWebhook.f_orders fs).
    - split; [by apply orders_related_refl; auto using same_delivery_refl | done].
    - split; [|apply update_orders_payments].
      apply update_orders_related; [apply same_delivery_refl|].
      intros o. by repeat split. }
  destruct H1 as [Ho Hp]. clearbody db1.
  assert (Hnone : ∃ extra, map payment_core (payments db1)
                    = map payment_core (payments db) ++ map payment_core extra
                    ∧ (length extra ≤ 1)%nat).
  { apply no_extra_row. by rewrite Hp. }
  assert (Hone : ∀ ps, map payment_core ps = map payment_core (payments db) →
            ∃ extra, map payment_core
                       (ps ++ [StripeWebhook.fallback_row oid sid iso session])
                     = map payment_core (payments db) ++ map payment_core extra
                     ∧ (length extra ≤ 1)%nat).
  { intros ps Hps. exists [StripeWebhook.fallback_row oid sid iso session].
    rewrite map_app, Hps. split; [done | simpl; lia]. }
  destruct (StripeWebhook.f_payments fs) as [m|].
  - destruct (StripeWebhook.f_insert fs) as [m'|]; [by split|].
    split; [exact Ho|]. apply Hone. by rewrite Hp.
  - unfold Store.update_payments. cbn [fst snd].
    destruct (map _ (filter _ (payments db1))) as [|r rows].
    + destruct (StripeWebhook.f_insert fs) as [m'|].
      * split; [exact Ho|]. cbn [payments]. apply no_extra_row.
        by rewrite update_payments_core, Hp.
      * split; [exact Ho|]. cbn [Store.insert_payment payments]. apply Hone.
        by rewrite update_payments_core, Hp.
    + split; [exact Ho|]. cbn [payments]. apply no_extra_row.
      by rewrite update_payments_core, Hp.
Qed.

Lemma checkout_expired_frame fs oid sid iso db :
  let db' := (StripeWebhook.checkout_expired fs oid sid iso db).2 in
  orders_related same_delivery db db'
  ∧ map payment_core (payments db') = map payment_core (payments db).
Proof.
  intros db'. subst db'. unfold StripeWebhook.checkout_expired, StripeWebhook.attempt.
  cbn [snd].
  set (db1 := match StripeWebhook.f_payments fs with
              | Some _ => db
              | None => (Store.update_payments
                           (StripeWebhook.payment_status_patch PayFailed iso)
                           (StripeWebhook.session_filters oid sid) db).1
              end).
  assert (H1 : orders db1 = orders db
               ∧ map payment_core (payments db1) = map payment_core (payments db)).
  { subst db1. destruct (StripeWebhook.f_payments fs); [done|].
    unfold Store.update_payments. cbn [fst orders payments].
    by rewrite update_payments_core. }
  destruct H1 as [Ho Hp]. clearbody db1.
  destruct (StripeWebhook.f_orders fs).
  - split; [|done]. by apply orders_related_refl; auto using same_delivery_refl.
  - rewrite update_orders_payments. split; [|done].
    eapply orders_related_trans; [apply same_delivery_trans | |].
    + apply (orders_related_refl same_delivery db db1);
        auto using same_delivery_refl.
    + apply update_orders_related; [apply same_delivery_refl|].
      intros o. by repeat split.
Qed.

(** X7. Whatever it receives, the webhook leaves the delivery side of every
    order alone: no order is added or removed, and each keeps its owner,
    status, rider, amount, ETA and its creation, delivery and cancellation
    stamps.  Of the payment rows it changes only [status] and [updated_at];
    it removes none and appends at most one. *)
Theorem webhook_frame `{rt : StripeWebhook.Runtime}
    (env : StripeWebhook.Env) (req : StripeWebhook.Request) (now_ms : Z)
    (nowIso : string) (fs : StripeWebhook.Faults) (db : Db) :
  let db' := (StripeWebhook.handler env req now_ms nowIso fs db).2 in
  orders_related same_delivery db db'
  ∧ ∃ extra, map payment_core (payments db')
             = map payment_core (payments db) ++ map payment_core extra
             ∧ (length extra ≤ 1)%nat.
Proof.
  intros db'. subst db'.
  assert (Hid : orders_related same_delivery db db
                ∧ ∃ extra, map payment_core (payments db)
                           = map payment_core (payments db) ++ map payment_core extra
                           ∧ (length extra ≤ 1)%nat).
  { split; [by apply orders_related_refl; auto using same_delivery_refl|].
    by apply no_extra_row. }
  unfold StripeWebhook.handler.
  repeat case_match; cbn [snd]; try exact Hid.
  unfold StripeWebhook.process_event.
  repeat case_match; cbn [snd]; try exact Hid.
  - apply checkout_completed_frame.
  - destruct (checkout_expired_frame fs
                (default "" (StripeWebhook.nullish
                   (StripeWebhook.e_data_object e ≫= StripeWebhook.s_metadata_order_id)
                   (StripeWebhook.e_data_object e ≫= StripeWebhook.s_client_reference_id)))
                (default "" (StripeWebhook.e_data_object e ≫= StripeWebhook.s_id))
                nowIso db) as [Ho Hp].
    split; [exact Ho|]. by apply no_extra_row.
Qed.

Lemma process_event_expired `{rt : StripeWebhook.Runtime}
    req oid sid session fs nowIso db :
  expired_event req oid sid session →
  StripeWebhook.process_event fs (StripeWebhook.rawBody req) nowIso db
  = StripeWebhook.checkout_expired fs oid sid nowIso db.
Proof.
  intros (Hparse & Hoid & Hsid & Ho & Hs).
  unfold StripeWebhook.process_event. rewrite Hparse.
  cbn [StripeWebhook.e_data_object StripeWebhook.e_type mbind option_bind].
  rewrite Hoid, Hsid, (truthy_Some _ Ho), (truthy_Some _ Hs).
  cbn [negb orb default id].
  rewrite bool_decide_eq_false_2 by discriminate.
  by rewrite bool_decide_eq_true_2.
Qed.

(** X6. An accepted checkout-expired event, the store calls going through,
    is answered 200; every payment row of its order and session becomes
    failed, whatever its status was (a paid row too); no row is added or
    removed and the rows of other sessions are untouched; the order's
    [payment_status] becomes unpaid, whatever it was, with [updated_at]
    refreshed and every other column and every other order as before. *)
Theorem webhook_expired_marks_failed `{rt : StripeWebhook.Runtime}
    (env : StripeWebhook.Env) (req : StripeWebhook.Request) (now_ms : Z)
    (nowIso : string) (db : Db) (orderId sessionId : string)
    (session : StripeWebhook.Session) :
  accepted_at env req now_ms →
  expired_event req orderId sessionId session →
  let out := StripeWebhook.handler env req now_ms nowIso StripeWebhook.no_faults db in
  out.1 = json 200 [("ok", JBool true)]
  ∧ payments out.2
    = map (λ p, if StripeWebhook.session_filters orderId sessionId p
                then mkPayment (p_order_id p) (p_provider p) (p_provider_payment_id p)
                       (p_amount_cents p) (p_currency p) PayFailed (p_created_at p)
                       nowIso
                else p) (payments db)
  ∧ length (session_rows orderId sessionId out.2)
    = length (session_rows orderId sessionId db)
  ∧ Forall (λ p, p_status p = PayFailed) (session_rows orderId sessionId out.2)
  ∧ orders out.2 !! orderId
    = (λ o, mkOrder (o_user_id o) (o_status o) (Some Unpaid) (o_payment_method o)
              (o_rider_id o) (o_total_cents o) (o_eta_minutes o) (o_created_at o)
              (Some nowIso) (o_delivered_at o) (o_cancelled_at o))
      <$> orders db !! orderId
  ∧ (∀ k, k ≠ orderId → orders out.2 !! k = orders db !! k).
Proof.
  intros Hacc Hev out. subst out.
  rewrite handler_accepted by done.
  rewrite (process_event_expired req orderId sessionId session) by done.
  unfold StripeWebhook.checkout_expired, StripeWebhook.no_faults, StripeWebhook.attempt.
  cbn [StripeWebhook.f_orders StripeWebhook.f_payments fst snd].
  split; [done|].
  rewrite update_orders_payments. unfold Store.update_payments. cbn [fst payments].
  split; [done|].
  assert (Hrows : session_rows orderId sessionId
                    (Store.update_orders (StripeWebhook.unpaid_order_patch nowIso) orderId
                       (λ _, true)
                       (mkDb (orders db)
                          (map (λ p, if StripeWebhook.session_filters orderId sessionId p
                                     then StripeWebhook.payment_status_patch PayFailed nowIso p
                                     else p) (payments db)))).1
                  = map (StripeWebhook.payment_status_patch PayFailed nowIso)
                        (session_rows orderId sessionId db)).
  { unfold session_rows. rewrite update_orders_payments. cbn [payments].
    by rewrite update_rows_filter. }
  rewrite Hrows. split; [by rewrite length_map|].
  split; [by apply Forall_map, Forall_true|].
  split.
  - rewrite guarded_update_lookup. cbn [orders]. by destruct (orders db !! orderId).
  - intros k Hk. by rewrite update_orders_frame.
Qed.

(** X8. An accepted event that names no order or no session, or whose type
    is neither checkout-completed nor checkout-expired, is acknowledged
    with 200 and leaves the store untouched. *)
Theorem webhook_acknowledges_without_action `{rt : StripeWebhook.Runtime}
    (env : StripeWebhook.Env) (req : StripeWebhook.Request) (now_ms : Z)
    (nowIso : string) (fs : StripeWebhook.Faults) (db : Db)
    (event : StripeWebhook.Event) :
  accepted_at env req now_ms →
  StripeWebhook.JSON_parse (StripeWebhook.rawBody req) = inl event →
  let session := StripeWebhook.e_data_object event in
  let orderId :=
    StripeWebhook.nullish (session ≫= StripeWebhook.s_metadata_order_id)
                          (session ≫= StripeWebhook.s_client_reference_id) in
  let sessionId := session ≫= StripeWebhook.s_id in
  let out := StripeWebhook.handler env req now_ms nowIso fs db in
  (truthy orderId = false ∨ truthy sessionId = false →
     out = (json 200 [("ok", JBool true);
                      ("note", JStr "no orderId/sessionId (ignored)")], db))
  ∧ (StripeWebhook.e_type event ≠ Some "checkout.session.completed" →
     StripeWebhook.e_type event ≠ Some "checkout.session.expired" →
     status out.1 = 200%Z ∧ out.2 = db).
Proof.
  intros Hacc Hparse session orderId sessionId out. subst out.
  rewrite handler_accepted by done.
  unfold StripeWebhook.process_event. rewrite Hparse.
  fold session. fold orderId. fold sessionId. split.
  - intros [H|H]; rewrite H; [done | by rewrite orb_true_r].
  - intros Hc He. rewrite !bool_decide_eq_false_2 by done.
    by destruct (negb (truthy orderId) || negb (truthy sessionId)).
Qed.

(** X9. When the update of [payments] reports an error, the
    checkout-completed branch still answers 200 and appends a paid row for
    the session, whether or not the session already has a row: every
    delivery of the event under such a fault adds one row. *)
Theorem webhook_failed_update_appends_row `{rt : StripeWebhook.Runtime}
    (env : StripeWebhook.Env) (req : StripeWebhook.Request) (now_ms : Z)
    (nowIso : string) (fs : StripeWebhook.Faults) (db : Db)
    (orderId sessionId message : string) (session : StripeWebhook.Session) :
  accepted_at env req now_ms →
  completed_event req orderId sessionId session →
  StripeWebhook.f_payments fs = Some message →
  StripeWebhook.f_insert fs = None →
  let out := StripeWebhook.handler env req now_ms nowIso fs db in
  out.1 = json 200 [("ok", JBool true)]
  ∧ payments out.2
    = payments db ++
        [mkPayment orderId "stripe" sessionId
           (default 0%Z (StripeWebhook.s_amount_total session))
           (toUpperCase (default "ZAR" (StripeWebhook.s_currency session)))
           PayPaid nowIso nowIso]
  ∧ length (session_rows orderId sessionId out.2)
    = S (length (session_rows orderId sessionId db)).
Proof.
  intros Hacc Hev Hf Hi out. subst out.
  rewrite handler_accepted by done.
  rewrite (process_event_completed req orderId sessionId session) by done.
  unfold StripeWebhook.checkout_completed, StripeWebhook.attempt.
  rewrite Hf, Hi. cbn [fst snd]. split; [done|].
  assert (Hp : payments
                 match StripeWebhook.f_orders fs with
                 | Some _ => db
                 | None => (Store.update_orders (StripeWebhook.paid_order_patch nowIso)
                              orderId (λ _, true) db).1
                 end = payments db).
  { destruct (StripeWebhook.f_orders fs); [done | apply update_orders_payments]. }
  unfold Store.insert_payment, session_rows. cbn [payments]. rewrite Hp.
  split; [done|].
  rewrite filter_app, length_app, filter_cons, filter_nil.
  rewrite decide_True by apply session_filters_fallback. simpl. lia.
Qed.

Lemma expired_request_accepted :
  @accepted_at sample_runtime2 sample_env (signed_request expired_body) 1700000100000.
Proof.
  exists "whsec_test", "1700000000", (inject_Z 1700000000),
    [@StripeWebhook.hmacSha256Hex sample_runtime2 "whsec_test"
       ("1700000000." +:+ expired_body)].
  split; [exact sample_env_configured|].
  split; [repeat split; try discriminate; vm_compute; reflexivity|].
  split; [vm_compute; reflexivity | apply list_elem_of_here].
Defined.

Lemma unknown_request_accepted :
  @accepted_at sample_runtime2 sample_env (signed_request unknown_body) 1700000100000.
Proof.
  exists "whsec_test", "1700000000", (inject_Z 1700000000),
    [@StripeWebhook.hmacSha256Hex sample_runtime2 "whsec_test"
       ("1700000000." +:+ unknown_body)].
  split; [exact sample_env_configured|].
  split; [repeat split; try discriminate; vm_compute; reflexivity|].
  split; [vm_compute; reflexivity | apply list_elem_of_here].
Defined.

Lemma completed_request_accepted :
  @accepted_at sample_runtime2 sample_env (signed_request sample_body) 1700000100000.
Proof.
  exists "whsec_test", "1700000000", (inject_Z 1700000000),
    [@StripeWebhook.hmacSha256Hex sample_runtime2 "whsec_test"
       ("1700000000." +:+ sample_body)].
  split; [exact sample_env_configured|].
  split; [repeat split; try discriminate; vm_compute; reflexivity|].
  split; [vm_compute; reflexivity | apply list_elem_of_here].
Defined.

(** The paid row of the example is failed and the paid order unpaid after
    the expired event. *)
Lemma webhook_expired_marks_failed_witness :
  let out := @StripeWebhook.handler sample_runtime2 sample_env
               (signed_request expired_body) 1700000100000
               "2023-11-14T22:15:00.000Z" StripeWebhook.no_faults paid_db in
  map p_status (payments out.2) = [PayFailed; PayPending]
  ∧ o_payment_status <$> orders out.2 !! "o1" = Some (Some Unpaid).
Proof.
  destruct (@webhook_expired_marks_failed sample_runtime2 sample_env
              (signed_request expired_body) 1700000100000
              "2023-11-14T22:15:00.000Z" paid_db "o1" "cs_test_1" sample_session
              expired_request_accepted)
    as (_ & Hp & _ & _ & Ho & _).
  - repeat split; discriminate.
  - cbv zeta. rewrite Hp, Ho. split; reflexivity.
Defined.

Lemma webhook_acknowledges_without_action_witness :
  @StripeWebhook.handler sample_runtime2 sample_env (signed_request unknown_body)
     1700000100000 "2023-11-14T22:15:00.000Z" StripeWebhook.no_faults paid_db
  = (json 200 [("ok", JBool true); ("note", JStr "no orderId/sessionId (ignored)")],
     paid_db).
Proof.
  refine (proj1 (@webhook_acknowledges_without_action sample_runtime2 sample_env
                   (signed_request unknown_body) 1700000100000
                   "2023-11-14T22:15:00.000Z" StripeWebhook.no_faults paid_db
                   (StripeWebhook.mkEvent (Some "payment_intent.created") None)
                   unknown_request_accepted eq_refl) _).
  left. reflexivity.
Defined.

Lemma webhook_failed_update_appends_row_witness :
  length (session_rows "o1" "cs_test_1"
            (@StripeWebhook.handler sample_runtime2 sample_env
               (signed_request sample_body) 1700000100000
               "2023-11-14T22:15:00.000Z"
               (StripeWebhook.mkFaults None (Some "connection reset") None)
               paid_db).2)
  = 2.
Proof.
  refine (proj2 (proj2 (@webhook_failed_update_appends_row sample_runtime2 sample_env
                   (signed_request sample_body) 1700000100000
                   "2023-11-14T22:15:00.000Z"
                   (StripeWebhook.mkFaults None (Some "connection reset") None)
                   paid_db "o1" "cs_test_1" "connection reset" sample_session
                   completed_request_accepted _ eq_refl eq_refl))).
  repeat split; discriminate.
Defined.

(** ** Checkout-session creation: rejections, the payment row, the frame *)

Lemma create_session_db `{rt : CreateCheckout.Runtime}
    key su cu oid o amount t_tag nowIso fs db :
  let out := CreateCheckout.create_session key su cu oid o amount t_tag nowIso fs db in
  let tagged := match CreateCheckout.f_update fs with
                | Some _ => db
                | None => CreateCheckout.tag_card_intent t_tag oid db
                end in
  match CreateCheckout.fetch_stripe key (CreateCheckout.session_form su cu oid o amount) with
  | CreateCheckout.StripeSession sid url =>
      out.1 = json 200 [("url", CreateCheckout.option_json url); ("session_id", JStr sid)]
      ∧ out.2 = match CreateCheckout.f_insert fs with
                | Some _ => tagged
                | None => Store.insert_payment
                            (CreateCheckout.pending_row oid sid amount nowIso) tagged
                end
  | _ => status out.1 ≠ 200%Z ∧ out.2 = tagged
  end.
Proof.
  unfold CreateCheckout.create_session.
  by destruct (CreateCheckout.fetch_stripe _ _).
Qed.

(** X10. A request to [create-checkout] that is not a POST, or that is
    answered with a 4xx code (missing order id, unauthenticated, unknown
    order, not the owner, not payable, amount too low), leaves the store
    untouched: the order is tagged and a payment row recorded only once
    every check has passed. *)
Theorem create_checkout_rejections_touch_nothing `{rt : CreateCheckout.Runtime}
    (env : CreateCheckout.Env) (req : CreateCheckout.Request)
    (t_tag nowIso : string) (fs : CreateCheckout.Faults) (db : Db) :
  let out := CreateCheckout.handler env req t_tag nowIso fs db in
  (CreateCheckout.method req ≠ "POST" → out.2 = db)
  ∧ ((400 <= status out.1 < 500)%Z → out.2 = db).
Proof.
  intros out. subst out. unfold CreateCheckout.handler. split.
  - intros Hm. destruct (String.eqb_spec (CreateCheckout.method req) "OPTIONS"); [done|].
    destruct (String.eqb_spec (CreateCheckout.method req) "POST"); done.
  - repeat case_match; cbn [fst snd status json]; try done; try lia.
    unfold CreateCheckout.create_session.
    destruct (CreateCheckout.fetch_stripe _ _); cbn [fst snd status json]; lia.
Qed.

Lemma create_checkout_rejections_touch_nothing_witness :
  (@CreateCheckout.handler sample_checkout_runtime sample_checkout_env
     (CreateCheckout.mkRequest "POST" (Some "o1") (Some "Bearer stolen"))
     "2025-01-01T10:01:00.000Z" "2025-01-01T10:01:01.000Z"
     CreateCheckout.no_faults (sample_db Pending (Some Unpaid) None)).2
  = sample_db Pending (Some Unpaid) None.
Proof.
  apply (proj2 (@create_checkout_rejections_touch_nothing sample_checkout_runtime
                  sample_checkout_env
                  (CreateCheckout.mkRequest "POST" (Some "o1") (Some "Bearer stolen"))
                  "2025-01-01T10:01:00.000Z" "2025-01-01T10:01:01.000Z"
                  CreateCheckout.no_faults (sample_db Pending (Some Unpaid) None))).
  vm_compute. split; [discriminate | reflexivity].
Defined.

(** A run that ends in 200 on a POST, seen from the provider's side. *)
Lemma handler_success `{rt : CreateCheckout.Runtime} env req t_tag nowIso fs db :
  CreateCheckout.method req = "POST" →
  status (CreateCheckout.handler env req t_tag nowIso fs db).1 = 200%Z →
  ∃ oid o sid url,
    CreateCheckout.order_id req = Some oid
    ∧ orders db !! oid = Some o
    ∧ (100 <= default 0 (o_total_cents o))%Z
    ∧ o_payment_status o ≠ Some Paid
    ∧ terminal (o_status o) = false
    ∧ provider_reply env oid o = CreateCheckout.StripeSession sid url
    ∧ CreateCheckout.handler env req t_tag nowIso fs db
      = CreateCheckout.create_session
          (default "" (CreateCheckout.STRIPE_SECRET_KEY env))
          (default "" (CreateCheckout.CHECKOUT_SUCCESS_URL env))
          (default "" (CreateCheckout.CHECKOUT_CANCEL_URL env))
          oid o (default 0%Z (o_total_cents o)) t_tag nowIso fs db.
Proof.
  intros Hm. unfold CreateCheckout.handler. rewrite Hm.
  cbn [String.eqb Ascii.eqb Bool.eqb negb].
  repeat (case_match; try (cbn [status fst json]; intros ?; discriminate)).
  intros Hst. destruct (CreateCheckout.order_id req) as [oid|] eqn:E; [|done].
  exists oid. eexists. cbn [default id] in *.
  pose proof (create_session_db
                (default "" (CreateCheckout.STRIPE_SECRET_KEY env))
                (default "" (CreateCheckout.CHECKOUT_SUCCESS_URL env))
                (default "" (CreateCheckout.CHECKOUT_CANCEL_URL env))
                oid o (default 0%Z (o_total_cents o)) t_tag nowIso fs db) as Hc.
  cbv zeta in Hc. unfold provider_reply.
  destruct (CreateCheckout.fetch_stripe _ _) as [m|d|sid url] eqn:Hf;
    try (destruct Hc as [Hc _]; by destruct Hc).
  exists sid, url. split; [done|]. split; [eassumption|].
  split; [by apply Z.ltb_ge|].
  split.
  { match goal with
    | H : bool_decide (o_payment_status o = Some Paid) = false |- _ =>
        by apply bool_decide_eq_false in H
    end. }
  split; [by rewrite <- includes_closed_terminal|]. done.
Qed.

(** X11. A POST to [create-checkout] answered 200 has, the insert going
    through, appended exactly one payment row: pending, for the provider
    "stripe", keyed by the session id the provider returned, in ZAR, for the
    order's stored [total_cents] (at least 100).  The answer carries that
    session id.  A run with any other answer records no payment row. *)
Theorem create_checkout_records_pending_payment `{rt : CreateCheckout.Runtime}
    (env : CreateCheckout.Env) (req : CreateCheckout.Request)
    (t_tag nowIso : string) (fs : CreateCheckout.Faults) (db : Db) :
  CreateCheckout.method req = "POST" →
  CreateCheckout.f_insert fs = None →
  let out := CreateCheckout.handler env req t_tag nowIso fs db in
  (status out.1 = 200%Z →
     ∃ oid o sid url,
       CreateCheckout.order_id req = Some oid
       ∧ orders db !! oid = Some o
       ∧ (100 <= default 0 (o_total_cents o))%Z
       ∧ out.1 = json 200 [("url", CreateCheckout.option_json url);
                           ("session_id", JStr sid)]
       ∧ payments out.2
         = payments db ++
             [mkPayment oid "stripe" sid (default 0%Z (o_total_cents o)) "ZAR"
                PayPending nowIso nowIso])
  ∧ (status out.1 ≠ 200%Z → payments out.2 = payments db).
Proof.
  intros Hm Hi out. subst out. split.
  - intros Hst.
    destruct (handler_success env req t_tag nowIso fs db Hm Hst)
      as (oid & o & sid & url & Hoid & Ho & Hamt & _ & _ & Hrep & ->).
    exists oid, o, sid, url. split; [done|]. split; [done|]. split; [done|].
    pose proof (create_session_db
                  (default "" (CreateCheckout.STRIPE_SECRET_KEY env))
                  (default "" (CreateCheckout.CHECKOUT_SUCCESS_URL env))
                  (default "" (CreateCheckout.CHECKOUT_CANCEL_URL env))
                  oid o (default 0%Z (o_total_cents o)) t_tag nowIso fs db) as Hc.
    cbv zeta in Hc. unfold provider_reply in Hrep. rewrite Hrep, Hi in Hc.
    destruct Hc as [-> ->]. split; [done|].
    unfold Store.insert_payment, CreateCheckout.pending_row. cbn [payments].
    f_equal. destruct (CreateCheckout.f_update fs); [done|].
    apply update_orders_payments.
  - unfold CreateCheckout.handler.
    repeat case_match; cbn [fst snd status json]; try done.
    intros Hst.
    match goal with
    | |- payments (CreateCheckout.create_session ?k ?su ?cu ?oid ?o ?a _ _ _ _).2 = _ =>
        pose proof (create_session_db k su cu oid o a t_tag nowIso fs db) as Hc
    end.
    cbv zeta in Hc.
    destruct (CreateCheckout.fetch_stripe _ _);
      destruct Hc as [Hc1 Hc2]; try (by rewrite Hc1 in Hst);
      rewrite Hc2; destruct (CreateCheckout.f_update fs); try done;
      apply update_orders_payments.
Qed.

Lemma create_checkout_records_pending_payment_witness :
  payments (@CreateCheckout.handler sample_checkout_runtime sample_checkout_env
              sample_checkout_request "2025-01-01T10:01:00.000Z"
              "2025-01-01T10:01:01.000Z" CreateCheckout.no_faults
              (sample_db Pending (Some Unpaid) None)).2
  = [mkPayment "o1" "stripe" "cs_test_1" 23997 "ZAR" PayPending
       "2025-01-01T10:01:01.000Z" "2025-01-01T10:01:01.000Z"].
Proof.
  destruct (proj1 (@create_checkout_records_pending_payment sample_checkout_runtime
                     sample_checkout_env sample_checkout_request
                     "2025-01-01T10:01:00.000Z" "2025-01-01T10:01:01.000Z"
                     CreateCheckout.no_faults (sample_db Pending (Some Unpaid) None)
                     eq_refl eq_refl))
    as (oid & o & sid & url & Hoid & Ho & _ & Hr & Hp).
  - vm_compute. reflexivity.
  - injection Hoid as <-. rewrite Hp.
    assert (o = sample_order Pending (Some Unpaid) None) as ->.
    { vm_compute in Ho. by injection Ho. }
    assert (sid = "cs_test_1") as ->.
    { vm_compute in Hr. by injection Hr. }
    reflexivity.
Defined.

(** X12. Whatever the request and the faults, [create-checkout] adds and
    removes no order, and changes of an order nothing but [payment_method]
    and [updated_at]: status, payment status, rider, owner, amount and the
    other stamps stay as they were. *)
Theorem create_checkout_frame `{rt : CreateCheckout.Runtime}
    (env : CreateCheckout.Env) (req : CreateCheckout.Request)
    (t_tag nowIso : string) (fs : CreateCheckout.Faults) (db : Db) :
  orders_related same_but_method db
    (CreateCheckout.handler env req t_tag nowIso fs db).2.
Proof.
  assert (Hrefl : ∀ o, same_but_method o o) by (intros o; by repeat split).
  assert (Hid : orders_related same_but_method db db)
    by (by apply orders_related_refl).
  unfold CreateCheckout.handler.
  repeat case_match; cbn [snd]; try exact Hid.
  unfold CreateCheckout.create_session.
  assert (Htag : orders_related same_but_method db
                   match CreateCheckout.f_update fs with
                   | Some _ => db
                   | None => CreateCheckout.tag_card_intent t_tag
                               (default "" (CreateCheckout.order_id req)) db
                   end).
  { destruct (CreateCheckout.f_update fs); [exact Hid|].
    apply update_orders_related; [exact Hrefl|]. intros o'. by repeat split. }
  destruct (CreateCheckout.fetch_stripe _ _); cbn [snd]; try exact Htag.
  destruct (CreateCheckout.f_insert fs); [exact Htag|].
  intros k. specialize (Htag k). exact Htag.
Qed.

(** X13. Checkout followed by payment.  [create-checkout] answers 200 with
    session id [sid] for order [oid] (no row for that session before), and
    then the webhook accepts the checkout-completed event of that session.
    Afterwards [payments] holds one more row than at the start: the row
    recorded at checkout, now paid, still for the order's stored
    [total_cents] (the event's amount is not used), created at checkout and
    updated by the webhook.  The order is paid by card, its delivery side
    unchanged. *)
Theorem checkout_then_payment
    `{crt : CreateCheckout.Runtime} `{wrt : StripeWebhook.Runtime}
    (cenv : CreateCheckout.Env) (creq : CreateCheckout.Request)
    (t_tag iso1 : string) (db : Db)
    (wenv : StripeWebhook.Env) (wreq : StripeWebhook.Request) (now_ms : Z)
    (iso2 : string) (oid sid : string) (url : Json)
    (session : StripeWebhook.Session) :
  CreateCheckout.method creq = "POST" →
  CreateCheckout.order_id creq = Some oid →
  session_rows oid sid db = [] →
  let checkout :=
    CreateCheckout.handler cenv creq t_tag iso1 CreateCheckout.no_faults db in
  checkout.1 = json 200 [("url", url); ("session_id", JStr sid)] →
  accepted_at wenv wreq now_ms →
  completed_event wreq oid sid session →
  let paid :=
    StripeWebhook.handler wenv wreq now_ms iso2 StripeWebhook.no_faults checkout.2 in
  ∃ o, orders db !! oid = Some o
       ∧ payments paid.2
         = payments db ++
             [mkPayment oid "stripe" sid (default 0%Z (o_total_cents o)) "ZAR"
                PayPaid iso1 iso2]
       ∧ orders paid.2 !! oid
         = Some (mkOrder (o_user_id o) (o_status o) (Some Paid) (Some "card")
                   (o_rider_id o) (o_total_cents o) (o_eta_minutes o)
                   (o_created_at o) (Some iso2) (o_delivered_at o)
                   (o_cancelled_at o)).
Proof.
  intros Hm Hoid Hnone checkout Hres Hacc Hev paid. subst paid.
  assert (Hst : status checkout.1 = 200%Z) by (by rewrite Hres).
  subst checkout.
  destruct (handler_success cenv creq t_tag iso1 CreateCheckout.no_faults db Hm Hst)
    as (oid' & o & sid' & url' & Hoid' & Ho & _ & _ & _ & Hrep & Hrun).
  assert (oid' = oid) as -> by congruence.
  rewrite Hrun in Hres |- *.
  pose proof (create_session_db
                (default "" (CreateCheckout.STRIPE_SECRET_KEY cenv))
                (default "" (CreateCheckout.CHECKOUT_SUCCESS_URL cenv))
                (default "" (CreateCheckout.CHECKOUT_CANCEL_URL cenv))
                oid o (default 0%Z (o_total_cents o)) t_tag iso1
                CreateCheckout.no_faults db) as Hc.
  cbv zeta in Hc. unfold provider_reply in Hrep. rewrite Hrep in Hc.
  cbn [CreateCheckout.no_faults CreateCheckout.f_insert CreateCheckout.f_update] in Hc.
  destruct Hc as [Hc1 Hc2]. rewrite Hc1 in Hres.
  assert (sid' = sid) as -> by (by injection Hres).
  rewrite Hc2. clear Hc1 Hc2 Hres Hrun.
  exists o. split; [done|].
  rewrite handler_accepted by done.
  rewrite (process_event_completed wreq oid sid session) by done.
  rewrite checkout_completed_db. cbv zeta.
  set (tagged := CreateCheckout.tag_card_intent t_tag oid db).
  assert (Hpt : payments tagged = payments db) by apply update_orders_payments.
  assert (Hot : orders tagged !! oid = Some (CreateCheckout.card_intent_patch t_tag o)).
  { subst tagged. unfold CreateCheckout.tag_card_intent.
    rewrite guarded_update_lookup, Ho. done. }
  assert (Hrows : session_rows oid sid
                    (Store.insert_payment
                       (CreateCheckout.pending_row oid sid
                          (default 0%Z (o_total_cents o)) iso1) tagged)
                  = [CreateCheckout.pending_row oid sid
                       (default 0%Z (o_total_cents o)) iso1]).
  { unfold session_rows, Store.insert_payment in *. cbn [payments].
    rewrite filter_app, Hpt, Hnone, filter_cons, filter_nil.
    rewrite decide_True; [done|].
    unfold StripeWebhook.session_filters, CreateCheckout.pending_row. simpl.
    by rewrite !String.eqb_refl. }
  rewrite Hrows. cbn [payments orders Store.insert_payment]. split.
  - rewrite map_app, Hpt. rewrite update_rows_none by exact Hnone.
    cbn [map]. unfold StripeWebhook.session_filters, CreateCheckout.pending_row.
    simpl. by rewrite !String.eqb_refl.
  - rewrite guarded_update_lookup. unfold Store.insert_payment. cbn [orders].
    rewrite Hot. done.
Qed.

Lemma checkout_then_payment_witness :
  payments
    (@StripeWebhook.handler sample_runtime sample_env sample_request
       1700000100000 "2023-11-14T22:15:00.000Z" StripeWebhook.no_faults
       (@CreateCheckout.handler sample_checkout_runtime sample_checkout_env
          sample_checkout_request "2025-01-01T10:01:00.000Z"
          "2025-01-01T10:01:01.000Z" CreateCheckout.no_faults
          (sample_db Pending (Some Unpaid) None)).2).2
  = [mkPayment "o1" "stripe" "cs_test_1" 23997 "ZAR" PayPaid
       "2025-01-01T10:01:01.000Z" "2023-11-14T22:15:00.000Z"].
Proof.
  destruct (@checkout_then_payment sample_checkout_runtime sample_runtime
              sample_checkout_env sample_checkout_request
              "2025-01-01T10:01:00.000Z" "2025-01-01T10:01:01.000Z"
              (sample_db Pending (Some Unpaid) None)
              sample_env sample_request 1700000100000 "2023-11-14T22:15:00.000Z"
              "o1" "cs_test_1" (JStr "https://checkout.stripe.com/c/pay/cs_test_1")
              sample_session eq_refl eq_refl eq_refl)
    as (o & Ho & Hp & _).
  - vm_compute. reflexivity.
  - apply sample_request_accepted. vm_compute. split; discriminate.
  - exact sample_request_completed.
  - rewrite Hp. vm_compute in Ho. injection Ho as <-. reflexivity.
Defined.

(** X14. Payment followed by checkout.  Once the webhook has processed the
    checkout-completed event of an order, a new call of [create-checkout]
    for that order by its owner is answered 409 "order already paid": no
    second session is opened and the store stays as the webhook left it. *)
Theorem paid_order_not_payable_again
    `{crt : CreateCheckout.Runtime} `{wrt : StripeWebhook.Runtime}
    (wenv : StripeWebhook.Env) (wreq : StripeWebhook.Request) (now_ms : Z)
    (iso : string) (db : Db) (oid sid uid : string)
    (session : StripeWebhook.Session) (o : Order)
    (cenv : CreateCheckout.Env) (creq : CreateCheckout.Request)
    (t_tag nowIso : string) (fs : CreateCheckout.Faults) :
  accepted_at wenv wreq now_ms →
  completed_event wreq oid sid session →
  orders db !! oid = Some o →
  o_user_id o = Some uid →
  CreateCheckout.method creq = "POST" →
  ready cenv →
  CreateCheckout.order_id creq = Some oid →
  authenticated_as
    (CreateCheckout.getUser (default "" (CreateCheckout.authorization creq))) uid →
  CreateCheckout.f_select fs = None →
  let paid := (StripeWebhook.handler wenv wreq now_ms iso StripeWebhook.no_faults db).2 in
  CreateCheckout.handler cenv creq t_tag nowIso fs paid
  = (json 409 [("error", JStr "order already paid")], paid).
Proof.
  intros Hacc Hev Ho Hown Hm Hready Hoid (Herr & Hid & Huid) Hsel paid.
  assert (Hne : oid ≠ "") by (by destruct Hev as (_ & _ & _ & ? & _)).
  assert (Hpaid : orders paid !! oid = Some (StripeWebhook.paid_order_patch iso o)).
  { subst paid. rewrite handler_accepted by done.
    rewrite (process_event_completed wreq oid sid session) by done.
    by rewrite checkout_completed_order, Ho. }
  rewrite (handler_post cenv creq t_tag nowIso fs paid oid Hm Hready Hoid Hne).
  cbv zeta. rewrite Herr, Hid, (truthy_Some uid Huid), Hsel, Hpaid.
  cbn [Store.is_null andb default id StripeWebhook.paid_order_patch
       o_user_id o_payment_status].
  rewrite Hown. by rewrite !bool_decide_eq_true_2.
Qed.

Lemma paid_order_not_payable_again_witness :
  status
    (@CreateCheckout.handler sample_checkout_runtime sample_checkout_env
       sample_checkout_request "2025-01-01T10:05:00.000Z" "2025-01-01T10:05:01.000Z"
       CreateCheckout.no_faults
       (@StripeWebhook.handler sample_runtime sample_env sample_request
          1700000100000 "2023-11-14T22:15:00.000Z" StripeWebhook.no_faults
          (sample_db Pending (Some Unpaid) None)).2).1
  = 409%Z.
Proof.
  rewrite (@paid_order_not_payable_again sample_checkout_runtime sample_runtime
             sample_env sample_request 1700000100000 "2023-11-14T22:15:00.000Z"
             (sample_db Pending (Some Unpaid) None) "o1" "cs_test_1" "u1"
             sample_session (sample_order Pending (Some Unpaid) None)
             sample_checkout_env sample_checkout_request
             "2025-01-01T10:05:00.000Z" "2025-01-01T10:05:01.000Z"
             CreateCheckout.no_faults).
  - reflexivity.
  - apply sample_request_accepted. vm_compute. split; discriminate.
  - exact sample_request_completed.
  - reflexivity.
  - reflexivity.
  - reflexivity.
  - exact sample_checkout_env_ready.
  - reflexivity.
  - repeat split. discriminate.
  - reflexivity.
Defined.

(** ** The rider screen: frame, lifecycle, lists and switch *)

Lemma update_orders_related_if (R : Order → Order → Prop) patch oid filters db :
  (∀ o, R o o) → (∀ o, filters o = true → R o (patch o)) →
  orders_related R db (Store.update_orders patch oid filters db).1.
Proof.
  intros Hrefl Hpatch k. destruct (decide (k = oid)) as [->|Hk].
  - rewrite guarded_update_lookup. destruct (orders db !! oid) as [o|]; [|done].
    simpl. destruct (filters o) eqn:E; auto.
  - rewrite update_orders_frame by done. destruct (orders db !! k); auto.
Qed.

Lemma acceptOrder_db oid now fa fu fl db s :
  (RiderApp.acceptOrder oid now fa fu fl db s).1 = db
  ∨ ∃ rid, (RiderApp.acceptOrder oid now fa fu fl db s).1
           = (RiderApp.claim_update rid now oid db).1.
Proof.
  unfold RiderApp.acceptOrder.
  destruct (RiderApp.rider_of s) as [rid|]; [|by left].
  destruct (RiderApp.hasActiveOrderForRider fa (Some rid) db); [by left|].
  destruct fu; [by left|]. right. exists rid.
  by destruct (RiderApp.claim_update rid now oid db) as [db' [|r rows]].
Qed.

Lemma run_rider_related (R : Order → Order → Prop) a oid now fa fu fl db s :
  (∀ o, R o o) →
  (∀ o rid, RiderApp.claim_filters o = true → R o (RiderApp.claim_patch rid now o)) →
  (∀ o, o_status o = Assigned → R o (RiderApp.start_patch now o)) →
  (∀ o, o_status o = EnRoute → R o (RiderApp.delivered_patch now o)) →
  (∀ o, RiderApp.in_delivery (o_status o) = true →
        R o (RiderApp.undeliverable_patch now o)) →
  orders_related R db (run_rider a oid now fa fu fl db s).1
  ∧ payments (run_rider a oid now fa fu fl db s).1 = payments db.
Proof.
  intros Hrefl Hc Hs Hd Hu.
  assert (Hid : orders_related R db db ∧ payments db = payments db)
    by (split; [by apply orders_related_refl | done]).
  destruct a as [| | |c]; cbn [run_rider].
  - destruct (acceptOrder_db oid now fa fu fl db s) as [-> | [rid ->]]; [done|].
    split; [|apply update_orders_payments].
    apply update_orders_related_if; [done|]. intros o. apply Hc.
  - unfold RiderApp.startDelivery.
    destruct (RiderApp.rider_of s) as [rid|]; [|done].
    rewrite after_update_db. destruct fu; [done|].
    split; [|apply update_orders_payments].
    apply update_orders_related_if; [done|].
    intros o [_ H]%andb_true_iff. apply Hs. by apply bool_decide_eq_true in H.
  - unfold RiderApp.markDelivered.
    destruct (RiderApp.rider_of s) as [rid|]; [|done].
    rewrite after_update_db. destruct fu; [done|].
    split; [|apply update_orders_payments].
    apply update_orders_related_if; [done|].
    intros o [_ H]%andb_true_iff. apply Hd. by apply bool_decide_eq_true in H.
  - unfold RiderApp.markUndeliverable.
    destruct (RiderApp.rider_of s) as [rid|]; [|done].
    destruct c; cbn [negb]; [|done].
    rewrite after_update_db. destruct fu; [done|].
    split; [|apply update_orders_payments].
    apply update_orders_related_if; [done|].
    intros o [_ H]%andb_true_iff. by apply Hu.
Qed.

(** X17. None of the four rider handlers ([acceptOrder], [startDelivery],
    [markDelivered], [markUndeliverable]), whatever its inputs, adds or
    removes an order, touches the [payments] table, or changes the owner,
    the payment status, the payment method, the amount or the creation
    stamp of any order. *)
Theorem rider_handlers_keep_payment_side
    (a : rider_action) (orderId now : string) (f_active f_update f_load : fault)
    (db : Db) (s : RiderApp.State) :
  let db' := (run_rider a orderId now f_active f_update f_load db s).1 in
  orders_related same_payment db db' ∧ payments db' = payments db.
Proof.
  apply run_rider_related; intros; by repeat split.
Qed.

(** X18. Under the four rider handlers every order either keeps its status
    or moves along one edge of the lifecycle: pending to assigned, assigned
    to en route, en route to delivered, assigned or en route to failed.  An
    order that is delivered, failed or cancelled is left exactly as it is. *)
Theorem rider_handlers_follow_lifecycle
    (a : rider_action) (orderId now : string) (f_active f_update f_load : fault)
    (db : Db) (s : RiderApp.State) :
  let db' := (run_rider a orderId now f_active f_update f_load db s).1 in
  orders_related
    (λ o o', (o' = o ∨ rider_edge (o_status o) (o_status o'))
             ∧ (terminal (o_status o) = true → o' = o))
    db db'.
Proof.
  apply run_rider_related.
  - intros o. split; auto.
  - intros o rid (Hst & _ & _)%claim_filters_true. simpl. rewrite Hst.
    split; [right; constructor | done].
  - intros o Hst. simpl. rewrite Hst. split; [right; constructor | done].
  - intros o Hst. simpl. rewrite Hst. split; [right; constructor | done].
  - intros o Hst. simpl. destruct (o_status o); try done;
      (split; [right; constructor | done]).
Qed.

Lemma insert_by_created_at_perm r l : RiderApp.insert_by_created_at r l ≡ₚ r :: l.
Proof.
  induction l as [|r' l IH]; [done|]. simpl.
  destruct (String.leb _ _); [done|]. rewrite IH. apply Permutation_swap.
Qed.

Lemma order_by_created_at_perm l : RiderApp.order_by_created_at l ≡ₚ l.
Proof.
  induction l as [|r l IH]; [done|]. unfold RiderApp.order_by_created_at in *.
  simpl. rewrite insert_by_created_at_perm. by rewrite IH.
Qed.

(** The rows a load selects: the stored orders in progress that are paid. *)
Lemma elem_of_select_orders db id o :
  (id, o) ∈ RiderApp.select_orders db
  ↔ orders db !! id = Some o
    ∧ RiderApp.in_progress (o_status o) = true
    ∧ o_payment_status o = Some Paid.
Proof.
  unfold RiderApp.select_orders. rewrite order_by_created_at_perm.
  rewrite list_elem_of_filter, elem_of_map_to_list. simpl.
  rewrite andb_true_iff, bool_decide_eq_true. tauto.
Qed.

(** X15. Right after a load that went through, the orders listed as
    available are exactly the stored orders that are pending, paid and
    without rider; and a claim on a listed order whose [rider_id] is null,
    sent before the store changes, wins the row. *)
Theorem available_orders_are_claimable
    (db : Db) (s : RiderApp.State) (id : string) (o : Order) :
  let s' := RiderApp.loadOrders None db s in
  ((id, o) ∈ RiderApp.availableOrders s'
   ↔ orders db !! id = Some o
     ∧ o_status o = Pending
     ∧ o_payment_status o = Some Paid
     ∧ truthy (o_rider_id o) = false)
  ∧ ((id, o) ∈ RiderApp.availableOrders s' → o_rider_id o = None →
     ∀ rid now, (RiderApp.claim_update rid now id db).2 = [id]).
Proof.
  intros s'.
  assert (Hiff : (id, o) ∈ RiderApp.availableOrders s'
                 ↔ orders db !! id = Some o
                   ∧ o_status o = Pending
                   ∧ o_payment_status o = Some Paid
                   ∧ truthy (o_rider_id o) = false).
  { unfold RiderApp.availableOrders. subst s'. rewrite loadOrders_view.
    rewrite list_elem_of_In, filter_In, <- list_elem_of_In, elem_of_select_orders.
    simpl. rewrite !andb_true_iff, !bool_decide_eq_true, negb_true_iff.
    split.
    - intros [(Ho & _ & Hp) [[Hst Hr] _]]. auto.
    - intros (Ho & Hst & Hp & Hr). rewrite Hst. auto. }
  split; [exact Hiff|].
  intros (Ho & Hst & Hp & _)%Hiff Hr rid now.
  rewrite (claim_update_hit rid now id db o Ho); [done|].
  apply claim_filters_true. auto.
Qed.

Lemma available_orders_are_claimable_witness :
  (RiderApp.claim_update "r1" "2025-01-01T10:05:00.000Z" "o1"
     (sample_db Pending (Some Paid) None)).2 = ["o1"].
Proof.
  refine (proj2 (available_orders_are_claimable (sample_db Pending (Some Paid) None)
                   sample_rider "o1" (sample_order Pending (Some Paid) None))
            _ eq_refl "r1" "2025-01-01T10:05:00.000Z").
  vm_compute. apply list_elem_of_here.
Defined.

Lemma hasActiveOrderForRider_true db rid k o :
  rid ≠ "" → orders db !! k = Some o →
  o_rider_id o = Some rid → RiderApp.in_delivery (o_status o) = true →
  RiderApp.hasActiveOrderForRider None (Some rid) db = true.
Proof.
  intros Hne Ho Hr Hs. unfold RiderApp.hasActiveOrderForRider.
  rewrite (truthy_Some rid Hne). apply bool_decide_eq_true.
  apply Exists_exists. exists (k, o). split; [by apply elem_of_map_to_list|].
  simpl. by rewrite Hs, andb_true_r, eq_col_true.
Qed.

(** X16. One delivery at a time, as far as the check goes.  When the store
    holds an assigned or en-route order of the rider and the lookup of
    [hasActiveOrderForRider] goes through, [acceptOrder] changes nothing in
    the store and shows the "already have an active delivery" alert; in
    particular a rider who has just won a claim cannot claim another order.
    When that lookup fails, the check counts as passed and the claim goes
    ahead: the rider gets the second order. *)
Theorem acceptOrder_one_delivery_at_a_time
    (db : Db) (s : RiderApp.State) (rid : string) (k : string) (o : Order) :
  RiderApp.riderId s = Some rid → rid ≠ "" →
  orders db !! k = Some o →
  o_rider_id o = Some rid →
  RiderApp.in_delivery (o_status o) = true →
  (∀ orderId now f_update f_load,
     (RiderApp.acceptOrder orderId now None f_update f_load db s).1 = db
     ∧ RiderApp.alerts (RiderApp.acceptOrder orderId now None f_update f_load db s).2
       = RiderApp.alerts s ++ [RiderApp.msg_already_active])
  ∧ (∀ orderId now message f_load,
       claimable db orderId →
       (RiderApp.acceptOrder orderId now (Some message) None f_load db s).1
       = (RiderApp.claim_update rid now orderId db).1
       ∧ o_rider_id <$>
           orders (RiderApp.acceptOrder orderId now (Some message) None f_load db s).1
             !! orderId
         = Some (Some rid)).
Proof.
  intros Hrid Hne Ho Hr Hs. apply rider_of_Some in Hrid; [|done]. split.
  - intros orderId now f_update f_load. unfold RiderApp.acceptOrder.
    rewrite Hrid, (hasActiveOrderForRider_true db rid k o) by done. done.
  - intros orderId now message f_load (o' & Ho' & Hc).
    unfold RiderApp.acceptOrder. rewrite Hrid.
    unfold RiderApp.hasActiveOrderForRider. rewrite (truthy_Some rid Hne).
    rewrite (claim_update_hit rid now orderId db o' Ho')
      by (by apply claim_filters_true).
    cbn [fst orders]. by rewrite lookup_insert_eq.
Qed.

Lemma acceptOrder_one_delivery_at_a_time_witness :
  let db := mkDb {[ "o1" := sample_order Assigned (Some Paid) (Some "r1");
                    "o2" := sample_order Pending (Some Paid) None ]} [] in
  (RiderApp.acceptOrder "o2" "2025-01-01T10:06:00.000Z" None None None db sample_rider).1
  = db.
Proof.
  intros db.
  apply (proj1 (acceptOrder_one_delivery_at_a_time db sample_rider "r1" "o1"
                  (sample_order Assigned (Some Paid) (Some "r1"))
                  eq_refl ltac:(discriminate) eq_refl eq_refl eq_refl)).
Defined.

Lemma busy_existsb s rid :
  existsb (λ r, bool_decide (o_rider_id r.2 = Some rid)
                && RiderApp.in_delivery (o_status r.2))
          (RiderApp.orders_view s) = true
  ↔ busy s rid.
Proof.
  rewrite existsb_exists. unfold busy. split.
  - intros ([id o] & Hin & H). simpl in H.
    apply andb_true_iff in H as [Hr%bool_decide_eq_true Hs].
    exists id, o. by rewrite list_elem_of_In.
  - intros (id & o & Hin & Hr & Hs). exists (id, o).
    rewrite <- list_elem_of_In. split; [done|]. simpl.
    by rewrite Hs, andb_true_r, bool_decide_eq_true.
Qed.

(** X19. The online switch of a rider [rid].  While the screen shows an
    active delivery of the rider, going offline is refused: the alert is
    shown, the rider stays online and the store is not called.  In every
    other case (going online is never refused) the flag on screen flips; the
    rider's row in the store follows when the call goes through, and when
    the call fails the store keeps its value and the error is shown while
    the screen keeps the flipped flag. *)
Theorem toggleOnline_guarded
    (f : fault) (riders : gmap string bool) (s : RiderApp.State) (rid : string) :
  RiderApp.riderId s = Some rid → rid ≠ "" →
  let out := RiderApp.toggleOnline f riders s in
  (busy s rid → RiderApp.isOnline s = true →
     out = (riders, RiderApp.alert RiderApp.msg_finish_before_offline s)
     ∧ RiderApp.isOnline out.2 = true)
  ∧ (¬ busy s rid ∨ RiderApp.isOnline s = false →
     RiderApp.isOnline out.2 = negb (RiderApp.isOnline s)
     ∧ RiderApp.alerts out.2 = RiderApp.alerts s
     ∧ (f = None →
          out.1 = (if decide (is_Some (riders !! rid))
                   then <[rid := negb (RiderApp.isOnline s)]> riders else riders)
          ∧ RiderApp.error out.2 = RiderApp.error s)
     ∧ (f ≠ None →
          out.1 = riders
          ∧ RiderApp.error out.2 = Some "Unable to change online status.")).
Proof.
  intros Hrid Hne out. apply rider_of_Some in Hrid; [|done].
  subst out. unfold RiderApp.toggleOnline. rewrite Hrid. split.
  - intros Hb%busy_existsb Hon. by rewrite Hb, Hon.
  - intros Hfree.
    assert (Hgo : existsb (λ r, bool_decide (o_rider_id r.2 = Some rid)
                                && RiderApp.in_delivery (o_status r.2))
                          (RiderApp.orders_view s) && RiderApp.isOnline s = false).
    { destruct Hfree as [Hnb | Hoff]; [|by rewrite Hoff, andb_false_r].
      apply andb_false_iff. left. apply not_true_is_false.
      by rewrite busy_existsb. }
    rewrite Hgo. destruct f as [m|]; cbn [fst snd].
    + split; [done|]. split; [done|]. split; [done|]. by intros _.
    + split; [done|]. split; [done|]. split; [|done]. intros _. split; [|done].
      destruct (riders !! rid) eqn:E.
      * by rewrite decide_True by eauto.
      * rewrite decide_False; [done|]. by intros [? ?].
Qed.

Lemma toggleOnline_guarded_witness :
  let s := RiderApp.mkState [("o1", sample_order EnRoute (Some Paid) (Some "r1"))]
             false None None (Some "r1") true [] in
  RiderApp.isOnline (RiderApp.toggleOnline None {[ "r1" := true ]} s).2 = true.
Proof.
  intros s.
  refine (proj2 (proj1 (toggleOnline_guarded None {[ "r1" := true ]} s "r1"
                          eq_refl _) _ eq_refl)).
  - discriminate.
  - exists "o1", (sample_order EnRoute (Some Paid) (Some "r1")).
    split; [apply list_elem_of_here | split; reflexivity].
Defined.

Lemma loadOrders_riderId f db s :
  RiderApp.riderId (RiderApp.loadOrders f db s) = RiderApp.riderId s.
Proof. unfold RiderApp.loadOrders. by destruct f. Qed.

Lemma run_rider_riderId a oid now fa fu fl db s :
  RiderApp.riderId (run_rider a oid now fa fu fl db s).2 = RiderApp.riderId s.
Proof.
  destruct a as [| | |c]; cbn [run_rider];
    unfold RiderApp.acceptOrder, RiderApp.startDelivery, RiderApp.markDelivered,
      RiderApp.markUndeliverable, RiderApp.after_update;
    destruct (RiderApp.rider_of s) as [rid|]; try done.
  - destruct (RiderApp.hasActiveOrderForRider fa (Some rid) db); [done|].
    destruct fu; [done|].
    destruct (RiderApp.claim_update rid now oid db) as [db' [|r rows]];
      cbn [snd]; by rewrite loadOrders_riderId.
  - destruct fu; cbn [snd]; [done | by rewrite loadOrders_riderId].
  - destruct fu; cbn [snd]; [done | by rewrite loadOrders_riderId].
  - destruct c; cbn [negb]; [|done].
    destruct fu; cbn [snd]; [done | by rewrite loadOrders_riderId].
Qed.

(** The handler outcomes when every call goes through. *)
Lemma acceptOrder_won db s rid oid now fa o :
  RiderApp.rider_of s = Some rid →
  RiderApp.hasActiveOrderForRider fa (Some rid) db = false →
  orders db !! oid = Some o → RiderApp.claim_filters o = true →
  let db' := mkDb (<[oid := RiderApp.claim_patch rid now o]> (orders db)) (payments db) in
  RiderApp.acceptOrder oid now fa None None db s
  = (db', RiderApp.loadOrders None db'
            (RiderApp.setUpdatingId None
               (RiderApp.setUpdatingId (Some oid) (RiderApp.setError None s)))).
Proof.
  intros Hrid Hpre Ho Hf db'. unfold RiderApp.acceptOrder.
  rewrite Hrid, Hpre. by rewrite (claim_update_hit rid now oid db o Ho Hf).
Qed.

(** X20. A claim that goes through moves the order on the rider's screen:
    after [acceptOrder] (every call going through, no other delivery in
    hand) on a paid order, pending and without rider, the order is listed
    among "my orders", assigned to the rider, and is no longer listed as
    available. *)
Theorem claimed_order_listed_as_mine
    (db : Db) (s : RiderApp.State) (rid orderId now : string) (o : Order)
    (f_active : fault) :
  RiderApp.riderId s = Some rid → rid ≠ "" →
  RiderApp.hasActiveOrderForRider f_active (Some rid) db = false →
  orders db !! orderId = Some o →
  o_status o = Pending → o_payment_status o = Some Paid → o_rider_id o = None →
  let out := RiderApp.acceptOrder orderId now f_active None None db s in
  (orderId, RiderApp.claim_patch rid now o) ∈ RiderApp.myOrders out.2
  ∧ (∀ o', (orderId, o') ∉ RiderApp.availableOrders out.2)
  ∧ RiderApp.updatingId out.2 = None
  ∧ RiderApp.error out.2 = None.
Proof.
  intros Hrid Hne Hpre Ho Hst Hpay Hr out.
  pose proof (rider_of_Some s rid Hrid Hne) as Hrider.
  assert (Hf : RiderApp.claim_filters o = true) by (by apply claim_filters_true).
  subst out. rewrite (acceptOrder_won db s rid orderId now f_active o) by done.
  cbn [snd].
  set (db' := mkDb (<[orderId := RiderApp.claim_patch rid now o]> (orders db))
                   (payments db)).
  assert (Hlook : orders db' !! orderId = Some (RiderApp.claim_patch rid now o))
    by (subst db'; cbn [orders]; by rewrite lookup_insert_eq).
  split; [|split; [|done]].
  - unfold RiderApp.myOrders. rewrite loadOrders_view, loadOrders_riderId.
    cbn [RiderApp.setUpdatingId RiderApp.setError RiderApp.riderId].
    rewrite list_elem_of_In, filter_In, <- list_elem_of_In, elem_of_select_orders.
    rewrite Hlook. simpl. rewrite Hpay, Hrid.
    by rewrite bool_decide_eq_true_2.
  - intros o'. unfold RiderApp.availableOrders. rewrite loadOrders_view.
    rewrite list_elem_of_In, filter_In, <- list_elem_of_In, elem_of_select_orders.
    rewrite Hlook. intros [(Heq & _) Hav]. injection Heq as <-.
    simpl in Hav. done.
Qed.

Lemma claimed_order_listed_as_mine_witness :
  ("o1", RiderApp.claim_patch "r1" "2025-01-01T10:05:00.000Z"
           (sample_order Pending (Some Paid) None))
  ∈ RiderApp.myOrders
      (RiderApp.acceptOrder "o1" "2025-01-01T10:05:00.000Z" None None None
         (sample_db Pending (Some Paid) None) sample_rider).2.
Proof.
  refine (proj1 (claimed_order_listed_as_mine (sample_db Pending (Some Paid) None)
                   sample_rider "r1" "o1" "2025-01-01T10:05:00.000Z"
                   (sample_order Pending (Some Paid) None) None
                   eq_refl _ _ eq_refl eq_refl eq_refl eq_refl)).
  - discriminate.
  - vm_compute. reflexivity.
Defined.

Lemma hasActiveOrderForRider_false db rid :
  rid ≠ "" →
  RiderApp.hasActiveOrderForRider None (Some rid) db = false
  ↔ ∀ k o, orders db !! k = Some o → o_rider_id o = Some rid →
           RiderApp.in_delivery (o_status o) = false.
Proof.
  intros Hne. split.
  - intros Hno k o Ho Hr. apply not_true_is_false. intros Hs.
    by rewrite (hasActiveOrderForRider_true db rid k o) in Hno.
  - intros Hall. unfold RiderApp.hasActiveOrderForRider.
    rewrite (truthy_Some rid Hne). apply bool_decide_eq_false.
    rewrite Exists_exists. intros ([k o] & Hin%elem_of_map_to_list & H).
    simpl in H. apply andb_true_iff in H as [Hr%eq_col_true Hs].
    by rewrite (Hall k o Hin Hr) in Hs.
Qed.

Lemma guarded_handler_hit patch oid guard db o f_load s :
  orders db !! oid = Some o → guard o = true →
  RiderApp.after_update None f_load
    (Store.update_orders patch oid guard db).1 db s
  = (mkDb (<[oid := patch o]> (orders db)) (payments db),
     RiderApp.loadOrders f_load
       (mkDb (<[oid := patch o]> (orders db)) (payments db))
       (RiderApp.setUpdatingId None s)).
Proof.
  intros Ho Hg. unfold RiderApp.after_update.
  by rewrite (update_orders_hit patch oid guard db o Ho Hg).
Qed.

(** X21. A whole delivery.  A rider without delivery in hand accepts a paid
    order, pending and without rider, starts the delivery and marks it
    delivered, every call going through.  The order ends delivered, assigned
    to the rider, with an ETA of 10 minutes and [delivered_at] and
    [updated_at] stamped by the last step, its payment columns as they
    were; no other order and no payment row has changed; the order has left
    the rider's screen, and the rider again holds no active delivery. *)
Theorem delivery_round
    (db : Db) (s : RiderApp.State) (rid orderId t1 t2 t3 : string) (o : Order) :
  RiderApp.riderId s = Some rid → rid ≠ "" →
  RiderApp.hasActiveOrderForRider None (Some rid) db = false →
  orders db !! orderId = Some o →
  o_status o = Pending → o_payment_status o = Some Paid → o_rider_id o = None →
  let accepted := RiderApp.acceptOrder orderId t1 None None None db s in
  let started := RiderApp.startDelivery orderId t2 None None accepted.1 accepted.2 in
  let done_ := RiderApp.markDelivered orderId t3 None None started.1 started.2 in
  orders done_.1
  = <[orderId := mkOrder (o_user_id o) Delivered (Some Paid) (o_payment_method o)
                   (Some rid) (o_total_cents o) (Some 10%Z) (o_created_at o)
                   (Some t3) (Some t3) (o_cancelled_at o)]> (orders db)
  ∧ payments done_.1 = payments db
  ∧ (∀ o', (orderId, o') ∉ RiderApp.orders_view done_.2)
  ∧ RiderApp.hasActiveOrderForRider None (Some rid) done_.1 = false.
Proof.
  intros Hrid Hne Hfree Ho Hst Hpay Hr accepted started done_.
  pose proof (rider_of_Some s rid Hrid Hne) as Hrider.
  assert (Hf : RiderApp.claim_filters o = true) by (by apply claim_filters_true).
  assert (Ha : accepted
               = (mkDb (<[orderId := RiderApp.claim_patch rid t1 o]> (orders db))
                       (payments db),
                  accepted.2) ∧ RiderApp.riderId accepted.2 = Some rid).
  { subst accepted. rewrite (acceptOrder_won db s rid orderId t1 None o) by done.
    split; [done|]. cbn [snd]. by rewrite loadOrders_riderId. }
  destruct Ha as [Ha Hrid1]. clearbody accepted.
  destruct accepted as [db1 s1]. injection Ha as ->. cbn [fst snd] in *.
  set (o1 := RiderApp.claim_patch rid t1 o) in *.
  assert (Hb : started
               = (mkDb (<[orderId := RiderApp.start_patch t2 o1]> (orders db))
                       (payments db),
                  started.2) ∧ RiderApp.riderId started.2 = Some rid).
  { subst started. unfold RiderApp.startDelivery.
    rewrite (rider_of_Some s1 rid Hrid1 Hne).
    erewrite guarded_handler_hit;
      [ | cbn [orders]; apply lookup_insert_eq
        | subst o1; simpl; by rewrite andb_true_r, eq_col_true ].
    cbn [fst snd orders payments]. rewrite insert_insert_eq.
    split; [done|]. by rewrite loadOrders_riderId. }
  destruct Hb as [Hb Hrid2]. clearbody started.
  destruct started as [db2 s2]. injection Hb as ->. cbn [fst snd] in *.
  set (o2 := RiderApp.start_patch t2 o1) in *.
  assert (Hc : done_
               = (mkDb (<[orderId := RiderApp.delivered_patch t3 o2]> (orders db))
                       (payments db),
                  RiderApp.loadOrders None
                    (mkDb (<[orderId := RiderApp.delivered_patch t3 o2]> (orders db))
                          (payments db))
                    (RiderApp.setUpdatingId None
                       (RiderApp.setUpdatingId (Some orderId)
                          (RiderApp.setError None s2))))).
  { subst done_. unfold RiderApp.markDelivered.
    rewrite (rider_of_Some s2 rid Hrid2 Hne).
    erewrite guarded_handler_hit;
      [ | cbn [orders]; apply lookup_insert_eq
        | subst o2 o1; simpl; by rewrite andb_true_r, eq_col_true ].
    cbn [orders payments]. by rewrite insert_insert_eq. }
  clearbody done_. subst done_. cbn [fst snd orders payments].
  assert (Hfinal : RiderApp.delivered_patch t3 o2
                   = mkOrder (o_user_id o) Delivered (Some Paid) (o_payment_method o)
                       (Some rid) (o_total_cents o) (Some 10%Z) (o_created_at o)
                       (Some t3) (Some t3) (o_cancelled_at o)).
  { subst o2 o1.
    unfold RiderApp.delivered_patch, RiderApp.start_patch, RiderApp.claim_patch.
    simpl. by rewrite Hpay. }
  rewrite Hfinal. clear Hfinal.
  split; [done|]. split; [done|]. split.
  - intros o'. rewrite loadOrders_view, elem_of_select_orders. cbn [orders].
    rewrite lookup_insert_eq. intros (Heq & Hin & _). injection Heq as <-. done.
  - apply hasActiveOrderForRider_false; [done|]. cbn [orders].
    intros k o' Hk Hr'. destruct (decide (k = orderId)) as [->|Hne'].
    + rewrite lookup_insert_eq in Hk. by injection Hk as <-.
    + rewrite lookup_insert_ne in Hk by done.
      by apply (proj1 (hasActiveOrderForRider_false db rid Hne) Hfree k o').
Qed.

Lemma delivery_round_witness :
  let db := sample_db Pending (Some Paid) None in
  let accepted := RiderApp.acceptOrder "o1" "2025-01-01T10:05:00.000Z" None None None
                    db sample_rider in
  let started := RiderApp.startDelivery "o1" "2025-01-01T10:10:00.000Z" None None
                   accepted.1 accepted.2 in
  let done_ := RiderApp.markDelivered "o1" "2025-01-01T10:25:00.000Z" None None
                 started.1 started.2 in
  o_status <$> orders done_.1 !! "o1" = Some Delivered.
Proof.
  intros db accepted started done_.
  pose proof (delivery_round db sample_rider "r1" "o1" "2025-01-01T10:05:00.000Z"
                "2025-01-01T10:10:00.000Z" "2025-01-01T10:25:00.000Z"
                (sample_order Pending (Some Paid) None)
                eq_refl ltac:(discriminate) eq_refl eq_refl eq_refl eq_refl eq_refl)
    as (Ho & _).
  subst done_ started accepted. rewrite Ho, lookup_insert_eq. reflexivity.
Defined.

(** ** The customer screen: cancelling *)

(** X22. A cancellation that goes through (dialog confirmed, update and
    refresh without error) on an order the store holds leaves the store
    order cancelled with [cancelled_at] and [updated_at] stamped and every
    other column as it was (a paid order stays paid; no payment row is
    touched); the screen shows the cancelled order, the "Cancel order"
    button is gone, and a further click changes nothing. *)
Theorem cancel_once
    (db : Db) (s : ClientApp.State) (oid t1 t2 : string) (o : Order) :
  ClientApp.cancel_button_rendered s = true →
  ClientApp.lastOrderId s = Some oid →
  orders db !! oid = Some o →
  let out := ClientApp.clickCancel true t1 t2 None None db s in
  orders out.1
  = <[oid := mkOrder (o_user_id o) Cancelled (o_payment_status o)
               (o_payment_method o) (o_rider_id o) (o_total_cents o)
               (o_eta_minutes o) (o_created_at o) (Some t2) (o_delivered_at o)
               (Some t1)]> (orders db)
  ∧ payments out.1 = payments db
  ∧ (o_status <$> ClientApp.orderStatus out.2) = Some Cancelled
  ∧ ClientApp.cancel_button_rendered out.2 = false
  ∧ (∀ ok t1' t2' f_update f_fetch,
       ClientApp.clickCancel ok t1' t2' f_update f_fetch out.1 out.2 = out).
Proof.
  intros Hbtn Hid Ho out.
  assert (Hout : out
                 = (mkDb (<[oid := ClientApp.cancel_patch t1 t2 o]> (orders db))
                         (payments db),
                    ClientApp.setOrderStatus (Some (ClientApp.cancel_patch t1 t2 o))
                      (ClientApp.setLoadingStatus false
                         (ClientApp.setLoadingStatus true s)))).
  { subst out. unfold ClientApp.clickCancel. rewrite Hbtn.
    unfold ClientApp.cancel_button_rendered in Hbtn. rewrite Hid in Hbtn.
    destruct (ClientApp.orderStatus s) as [v|] eqn:Hv; [|done].
    apply andb_true_iff in Hbtn as [Hne _].
    unfold ClientApp.handleCancelOrder. rewrite Hid, Hv.
    destruct (String.eqb oid ""); [done|]. cbn [negb].
    rewrite (update_orders_hit _ _ _ _ o Ho) by done. cbn [fst].
    unfold ClientApp.fetchOrderStatus. cbn [orders].
    by rewrite lookup_insert_eq. }
  clearbody out. subst out. cbn [fst snd orders payments].
  split; [done|]. split; [done|]. split; [done|].
  assert (Hgone : ClientApp.cancel_button_rendered
                    (ClientApp.setOrderStatus (Some (ClientApp.cancel_patch t1 t2 o))
                       (ClientApp.setLoadingStatus false
                          (ClientApp.setLoadingStatus true s))) = false).
  { unfold ClientApp.cancel_button_rendered. simpl.
    destruct (ClientApp.lastOrderId s); [|done]. by rewrite andb_false_r. }
  split; [exact Hgone|].
  intros ok t1' t2' f_update f_fetch. unfold ClientApp.clickCancel.
  by rewrite Hgone.
Qed.

Lemma cancel_once_witness :
  ClientApp.cancel_button_rendered
    (ClientApp.clickCancel true "2025-01-01T10:03:00.000Z" "2025-01-01T10:03:00.001Z"
       None None (sample_db Assigned (Some Paid) (Some "r1")) (sample_client Assigned)).2
  = false.
Proof.
  refine (proj1 (proj2 (proj2 (proj2
    (cancel_once (sample_db Assigned (Some Paid) (Some "r1")) (sample_client Assigned)
       "o1" "2025-01-01T10:03:00.000Z" "2025-01-01T10:03:00.001Z"
       (sample_order Assigned (Some Paid) (Some "r1")) eq_refl eq_refl eq_refl))))).
Defined.

(** ** The customer screen: starting the payment *)

Lemma handler_success_owner `{rt : CreateCheckout.Runtime} env req t_tag nowIso fs db :
  CreateCheckout.method req = "POST" →
  status (CreateCheckout.handler env req t_tag nowIso fs db).1 = 200%Z →
  ∃ oid o uid,
    CreateCheckout.order_id req = Some oid
    ∧ orders db !! oid = Some o
    ∧ authenticated_as
        (CreateCheckout.getUser (default "" (CreateCheckout.authorization req))) uid
    ∧ o_user_id o = Some uid.
Proof.
  intros Hm. unfold CreateCheckout.handler. rewrite Hm.
  cbn [String.eqb Ascii.eqb Bool.eqb negb].
  repeat (case_match; try (cbn [status fst json]; intros ?; discriminate)).
  intros _. destruct (CreateCheckout.order_id req) as [oid|] eqn:E; [|done].
  cbn [default id] in *.
  match goal with
  | H : Store.is_null _ && truthy _ = true |- _ =>
      apply andb_true_iff in H as [Herr Hid]
  end.
  apply truthy_true in Hid as (uid & Hid & Huid).
  exists oid. eexists. exists uid. split; [done|]. split; [eassumption|]. split.
  - split; [|done].
    by destruct (CreateCheckout.authErr
                   (CreateCheckout.getUser (default "" (CreateCheckout.authorization req)))).
  - match goal with
    | H : negb (bool_decide (o_user_id _ = _)) = false |- _ =>
        apply negb_false_iff, bool_decide_eq_true in H; rewrite H, Hid
    end. done.
Qed.

Lemma handler_2xx `{rt : CreateCheckout.Runtime} env req t_tag nowIso fs db :
  CreateCheckout.method req = "POST" →
  (200 <= status (CreateCheckout.handler env req t_tag nowIso fs db).1 < 300)%Z →
  status (CreateCheckout.handler env req t_tag nowIso fs db).1 = 200%Z.
Proof.
  intros Hm. unfold CreateCheckout.handler. rewrite Hm.
  cbn [String.eqb Ascii.eqb Bool.eqb negb].
  repeat case_match; cbn [status fst json]; try lia.
  unfold CreateCheckout.create_session.
  destruct (CreateCheckout.fetch_stripe _ _); cbn [status fst json]; lia.
Qed.

(** X23. [startStripeCheckout] sends the customer away only to a URL that
    the provider returned: if it hands a URL to [window.location.assign],
    then there was a session token, the token's user owns the order, the
    order is stored, not yet paid, not in a terminal status and worth at
    least 100, the provider created a session for it, and the URL is that
    session's non-empty redirect URL; no error is shown.  In every other
    case nothing is opened and an error message is shown. *)
Theorem startStripeCheckout_redirects_to_provider `{rt : CreateCheckout.Runtime}
    (env : CreateCheckout.Env) (orderId : string)
    (sessionErr accessToken : option string) (f_invoke : fault)
    (t_tag nowIso : string) (fs : CreateCheckout.Faults)
    (db : Db) (s : ClientApp.State) :
  let out := ClientPayment.startStripeCheckout env orderId sessionErr accessToken
               f_invoke t_tag nowIso fs db s in
  (∀ u, out.2 = Some u →
     ∃ token uid o sid,
       sessionErr = None ∧ accessToken = Some token ∧ token ≠ ""
       ∧ authenticated_as (CreateCheckout.getUser ("Bearer " +:+ token)) uid
       ∧ orders db !! orderId = Some o
       ∧ o_user_id o = Some uid
       ∧ o_payment_status o ≠ Some Paid
       ∧ terminal (o_status o) = false
       ∧ (100 <= default 0 (o_total_cents o))%Z
       ∧ provider_reply env orderId o = CreateCheckout.StripeSession sid (Some u)
       ∧ u ≠ ""
       ∧ ClientApp.error out.1.2 = None)
  ∧ (out.2 = None → ∃ message, ClientApp.error out.1.2 = Some message).
Proof.
  intros out. subst out. unfold ClientPayment.startStripeCheckout.
  destruct sessionErr as [e|]; [split; [done | eauto]|].
  destruct (truthy accessToken) eqn:Htok; cbn [negb]; [|split; [done | eauto]].
  apply truthy_true in Htok as (token & -> & Htoken). cbn [default id].
  unfold ClientPayment.invoke_create_checkout.
  destruct f_invoke as [m|]; [split; [done | eauto]|].
  set (req := CreateCheckout.mkRequest "POST" (Some orderId)
                (Some ("Bearer " +:+ token))).
  destruct (CreateCheckout.handler env req t_tag nowIso fs db) as [resp db'] eqn:Hrun.
  destruct ((200 <=? status resp) && (status resp <? 300))%Z eqn:Hok;
    [|split; [done | eauto]].
  apply andb_true_iff in Hok as [Hlo%Z.leb_le Hhi%Z.ltb_lt].
  assert (Hst : status (CreateCheckout.handler env req t_tag nowIso fs db).1 = 200%Z).
  { apply handler_2xx; [done|]. by rewrite Hrun. }
  destruct (handler_success env req t_tag nowIso fs db eq_refl Hst)
    as (oid & o & sid & url & Hoid & Ho & Hamt & Hpaid & Hterm & Hrep & Hcs).
  destruct (handler_success_owner env req t_tag nowIso fs db eq_refl Hst)
    as (oid' & o' & uid & Hoid' & Ho' & Hauth & Hown).
  cbn [req CreateCheckout.order_id] in Hoid, Hoid'.
  injection Hoid as <-. injection Hoid' as <-.
  assert (o' = o) as -> by congruence.
  pose proof (create_session_db
                (default "" (CreateCheckout.STRIPE_SECRET_KEY env))
                (default "" (CreateCheckout.CHECKOUT_SUCCESS_URL env))
                (default "" (CreateCheckout.CHECKOUT_CANCEL_URL env))
                orderId o (default 0%Z (o_total_cents o)) t_tag nowIso fs db) as Hc.
  cbv zeta in Hc. unfold provider_reply in Hrep. rewrite Hrep in Hc.
  destruct Hc as [Hresp _]. rewrite <- Hcs, Hrun in Hresp. cbn [fst] in Hresp.
  subst resp. cbn [body json].
  cbn [option_bind mbind ClientPayment.json_field List.find fst snd String.eqb
       Ascii.eqb Bool.eqb fmap option_fmap option_map].
  destruct url as [u'|]; cbn [CreateCheckout.option_json ClientPayment.truthy_string];
    [|split; [done | eauto]].
  destruct (String.eqb_spec u' "") as [->|Hu]; [split; [done | eauto]|].
  split; [|done]. cbn [snd fst]. intros u [= <-].
  exists token, uid, o, sid.
  split; [done|]. split; [done|]. split; [done|]. split; [exact Hauth|].
  repeat split; done.
Qed.

Lemma startStripeCheckout_redirects_to_provider_witness :
  ClientApp.error
    (@ClientPayment.startStripeCheckout sample_checkout_runtime sample_checkout_env
       "o1" None (Some "expired") None "2025-01-01T10:01:00.000Z"
       "2025-01-01T10:01:01.000Z" CreateCheckout.no_faults
       (sample_db Pending (Some Unpaid) None) (sample_client Pending)).1.2
  = Some "Payment failed, try again.".
Proof.
  destruct (proj2 (@startStripeCheckout_redirects_to_provider sample_checkout_runtime
                     sample_checkout_env "o1" None (Some "expired") None
                     "2025-01-01T10:01:00.000Z" "2025-01-01T10:01:01.000Z"
                     CreateCheckout.no_faults (sample_db Pending (Some Unpaid) None)
                     (sample_client Pending)) eq_refl) as [message H].
  rewrite H. vm_compute in H. symmetry. exact H.
Defined.

(** ** The customer profile *)

(** X24. [ensureUserProfile] is get-or-create.  For a signed-in user with at
    most one row in [users], the calls going through, it returns a profile
    linked to that user: the stored row when there is one (nothing is
    written), otherwise a new row built from the identity (id, email, name
    and phone) and appended.  Afterwards the user has exactly one row, and
    calling again returns the same profile and writes nothing.  Without a
    signed-in user it throws "Not authenticated." and writes nothing. *)
Theorem ensureUserProfile_get_or_create
    (u : ClientPayment.AuthUser) (users : list ClientPayment.UserProfile)
    (new_id new_id' : string) :
  (length (profiles_of (ClientPayment.au_id u) users) ≤ 1)%nat →
  let first := ClientPayment.ensureUserProfile None (Some u) None None new_id users in
  (∃ p, first.1 = inl p
        ∧ ClientPayment.up_auth_user_id p = ClientPayment.au_id u
        ∧ (profiles_of (ClientPayment.au_id u) users = [p] ∧ first.2 = users
           ∨ profiles_of (ClientPayment.au_id u) users = []
             ∧ p = ClientPayment.mkUserProfile new_id (ClientPayment.au_id u)
                     (ClientPayment.au_email u) (ClientPayment.au_full_name u)
                     (ClientPayment.au_phone u)
             ∧ first.2 = users ++ [p])
        ∧ profiles_of (ClientPayment.au_id u) first.2 = [p]
        ∧ ClientPayment.ensureUserProfile None (Some u) None None new_id' first.2
          = (inl p, first.2))
  ∧ (∀ authError user f_select f_insert,
       authError ≠ None ∨ user = None →
       ClientPayment.ensureUserProfile authError user f_select f_insert new_id users
       = (inr "Not authenticated.", users)).
Proof.
  intros Hle first. split.
  - subst first. unfold ClientPayment.ensureUserProfile, ClientPayment.select_profile.
    fold (profiles_of (ClientPayment.au_id u) users).
    destruct (profiles_of (ClientPayment.au_id u) users) as [|r [|r' rows]] eqn:E;
      [| |simpl in Hle; lia]; cbn [fst snd negb].
    + set (p := ClientPayment.mkUserProfile new_id (ClientPayment.au_id u)
                  (ClientPayment.au_email u) (ClientPayment.au_full_name u)
                  (ClientPayment.au_phone u)).
      assert (Hp : profiles_of (ClientPayment.au_id u) (users ++ [p]) = [p]).
      { unfold profiles_of in *. rewrite List.filter_app, E. simpl.
        by rewrite String.eqb_refl. }
      exists p. split; [done|]. split; [done|]. split; [right; done|].
      split; [exact Hp|].
      fold (profiles_of (ClientPayment.au_id u) (users ++ [p])). by rewrite Hp.
    + assert (Hr : ClientPayment.up_auth_user_id r = ClientPayment.au_id u).
      { assert (Hin : In r (profiles_of (ClientPayment.au_id u) users))
          by (rewrite E; by left).
        apply filter_In in Hin as [_ Hin]. by apply String.eqb_eq. }
      exists r. split; [done|]. split; [done|]. split; [left; done|].
      split; [done|]. unfold profiles_of in E. by rewrite E.
  - intros authError user f_select f_insert [Herr | ->].
    + unfold ClientPayment.ensureUserProfile. by destruct authError.
    + unfold ClientPayment.ensureUserProfile. by destruct authError.
Qed.

Lemma ensureUserProfile_get_or_create_witness :
  let first := ClientPayment.ensureUserProfile None (Some sample_auth_user) None None
                 "user-7" [] in
  ClientPayment.ensureUserProfile None (Some sample_auth_user) None None "user-8" first.2
  = (inl (ClientPayment.mkUserProfile "user-7" "auth-1" (Some "thandi@example.com")
            (Some "Thandi M") None),
     first.2).
Proof.
  intros first.
  destruct (proj1 (ensureUserProfile_get_or_create sample_auth_user [] "user-7" "user-8"
                     ltac:(simpl; lia)))
    as (p & Hp & _ & _ & _ & Hagain).
  fold first in Hp, Hagain. rewrite Hagain. vm_compute in Hp. by injection Hp as <-.
Defined.

(** ** The screen shown *)

Lemma resolveRole_admin_iff rpc riders s :
  App.role (App.resolveRole rpc riders s) = Some App.admin
  ↔ App.safeIsAdminRpc App.default_timeoutMs rpc
    = App.Resolved (App.mkRpcReply App.DataTrue None).
Proof.
  unfold App.resolveRole.
  destruct (App.safeIsAdminRpc App.default_timeoutMs rpc) as [[data err]|m]; simpl.
  - destruct err as [e|].
    + destruct (resolve_rider_role riders
                  (App.console_error "is_admin error"
                     (App.setError None (App.setResolvingRole true s)))) as [H|H];
        rewrite H; split; intros; discriminate.
    + destruct data;
        try (destruct (resolve_rider_role riders
                         (App.setError None (App.setResolvingRole true s))) as [H|H];
             rewrite H; split; intros; discriminate).
      done.
  - split; intros; discriminate.
Qed.

Lemma resolveRole_role rpc riders s :
  App.role (App.resolveRole rpc riders s) = Some App.admin
  ∨ App.role (App.resolveRole rpc riders s) = Some App.rider
  ∨ App.role (App.resolveRole rpc riders s) = Some App.client.
Proof.
  unfold App.resolveRole.
  destruct (App.safeIsAdminRpc App.default_timeoutMs rpc) as [[data err]|m]; simpl;
    [|by right; right].
  destruct err as [e|].
  - destruct (resolve_rider_role riders
                (App.console_error "is_admin error"
                   (App.setError None (App.setResolvingRole true s)))) as [H|H];
      rewrite H; auto.
  - destruct data; try (by left);
      destruct (resolve_rider_role riders
                  (App.setError None (App.setResolvingRole true s))) as [H|H];
      rewrite H; auto.
Qed.

(** X25. Once a session is there and its role resolution has finished (on a
    path other than the two payment pages, the session no longer loading),
    [App] shows the dashboard of exactly one role to the signed-in user,
    never a waiting card; it is the admin dashboard exactly when the
    [is_admin] check answered [true], without error, before the timeout.
    After a log-out, or when the session ends, the sign-in screen is
    shown. *)
Theorem signed_in_screen
    (rpc : App.InFlight App.RpcReply) (riders : App.Settled App.RiderReply)
    (sh : AppShell.Shell) (userId : string) :
  AppShell.path sh ≠ "/payment/success" →
  AppShell.path sh ≠ "/payment/cancel" →
  AppShell.loadingSession sh = false →
  let sh' := AppShell.onAuthStateChange (Some userId) rpc riders sh in
  (∃ banner, AppShell.render sh' = AppShell.AdminApp userId banner
             ∨ AppShell.render sh' = AppShell.RiderApp userId banner
             ∨ AppShell.render sh' = AppShell.ClientApp userId banner)
  ∧ ((∃ banner, AppShell.render sh' = AppShell.AdminApp userId banner)
     ↔ App.safeIsAdminRpc App.default_timeoutMs rpc
       = App.Resolved (App.mkRpcReply App.DataTrue None))
  ∧ AppShell.render (AppShell.handleLogout sh') = AppShell.AuthScreen
  ∧ AppShell.render (AppShell.onAuthStateChange None rpc riders sh')
    = AppShell.AuthScreen.
Proof.
  intros Hp1 Hp2 Hload sh'.
  assert (Hrender : ∀ st,
            AppShell.render (AppShell.mkShell (AppShell.path sh) (Some userId)
                               (AppShell.loadingSession sh) st)
            = if App.resolvingRole st then AppShell.RoleLoading
              else match App.role st with
                   | None => AppShell.RoleLoading
                   | Some App.admin => AppShell.AdminApp userId (App.error st)
                   | Some App.rider => AppShell.RiderApp userId (App.error st)
                   | Some App.client => AppShell.ClientApp userId (App.error st)
                   end).
  { intros st. unfold AppShell.render. cbn [AppShell.path AppShell.loadingSession
      AppShell.session AppShell.app].
    destruct (String.eqb_spec (AppShell.path sh) "/payment/success"); [done|].
    destruct (String.eqb_spec (AppShell.path sh) "/payment/cancel"); [done|].
    by rewrite Hload. }
  assert (Hout : ∀ s0, AppShell.render (AppShell.mkShell (AppShell.path sh) None
                                          (AppShell.loadingSession sh) s0)
                       = AppShell.AuthScreen).
  { intros s0. unfold AppShell.render. cbn [AppShell.path AppShell.loadingSession
      AppShell.session].
    destruct (String.eqb_spec (AppShell.path sh) "/payment/success"); [done|].
    destruct (String.eqb_spec (AppShell.path sh) "/payment/cancel"); [done|].
    by rewrite Hload. }
  subst sh'. unfold AppShell.onAuthStateChange, AppShell.handleLogout.
  cbn [AppShell.path AppShell.loadingSession AppShell.session AppShell.app].
  rewrite Hrender, !Hout.
  set (st := App.resolveRole rpc riders (AppShell.app sh)).
  pose proof (resolveRole_role rpc riders (AppShell.app sh)) as Hrole.
  assert (Hres : App.resolvingRole st = false) by done.
  fold st in Hrole. rewrite Hres.
  pose proof (resolveRole_admin_iff rpc riders (AppShell.app sh)) as Hadm.
  fold st in Hadm.
  split; [|split; [|done]].
  - exists (App.error st).
    destruct Hrole as [H | [H | H]]; rewrite H; auto.
  - rewrite <- Hadm. split.
    + intros [banner H]. destruct (App.role st) as [[]|]; done.
    + intros ->. eauto.
Qed.

Lemma signed_in_screen_witness :
  AppShell.render
    (AppShell.handleLogout
       (AppShell.onAuthStateChange (Some "auth-1")
          (App.SettlesAfter 80 (App.Resolved (App.mkRpcReply App.DataTrue None)))
          (App.Resolved (App.mkRiderReply None None)) fresh_shell))
  = AppShell.AuthScreen.
Proof.
  refine (proj1 (proj2 (proj2
    (signed_in_screen
       (App.SettlesAfter 80 (App.Resolved (App.mkRpcReply App.DataTrue None)))
       (App.Resolved (App.mkRiderReply None None)) fresh_shell "auth-1" _ _ eq_refl))));
    discriminate.
Defined.

(** ** The admin dashboard *)

Lemma totalAmountCents_sum s :
  AdminApp.totalAmountCents s = cents_sum (AdminApp.orders_view s).
Proof.
  unfold AdminApp.totalAmountCents, cents_sum.
  assert (H : ∀ (l : list (string * Order)) acc,
            fold_left (λ sum r, (sum + default 0 (o_total_cents r.2))%Z) l acc
            = (acc + foldr (λ r a, (default 0 (o_total_cents r.2) + a)%Z) 0%Z l)%Z).
  { induction l as [|r l IH]; intros acc; simpl; [lia|]. rewrite IH. lia. }
  rewrite H. lia.
Qed.

Lemma cents_sum_perm l1 l2 : l1 ≡ₚ l2 → cents_sum l1 = cents_sum l2.
Proof.
  unfold cents_sum. induction 1; simpl; lia.
Qed.

Lemma insert_by_created_at_desc_perm r l :
  AdminApp.insert_by_created_at_desc r l ≡ₚ r :: l.
Proof.
  induction l as [|r' l IH]; [done|]. simpl.
  destruct (String.leb _ _); [done|]. rewrite IH. apply Permutation_swap.
Qed.

Lemma admin_select_perm f db :
  AdminApp.select_orders f db
  ≡ₚ List.filter (AdminApp.keeps f) (map_to_list (orders db)).
Proof.
  unfold AdminApp.select_orders.
  induction (List.filter (AdminApp.keeps f) (map_to_list (orders db))) as [|r l IH];
    [done|].
  simpl. rewrite insert_by_created_at_desc_perm. by rewrite IH.
Qed.

Lemma cents_sum_by_status (l : list (string * Order)) :
  cents_sum l
  = (cents_sum (List.filter (AdminApp.keeps "pending") l)
     + cents_sum (List.filter (AdminApp.keeps "assigned") l)
     + cents_sum (List.filter (AdminApp.keeps "en_route") l)
     + cents_sum (List.filter (AdminApp.keeps "delivered") l)
     + cents_sum (List.filter (AdminApp.keeps "cancelled") l)
     + cents_sum (List.filter (AdminApp.keeps "failed") l))%Z.
Proof.
  induction l as [|[id o] l IH]; [done|].
  unfold AdminApp.keeps, cents_sum in *. cbn in IH. cbn.
  destruct (o_status o); cbn; lia.
Qed.

Lemma length_by_status (l : list (string * Order)) :
  length l
  = length (List.filter (AdminApp.keeps "pending") l)
    + length (List.filter (AdminApp.keeps "assigned") l)
    + length (List.filter (AdminApp.keeps "en_route") l)
    + length (List.filter (AdminApp.keeps "delivered") l)
    + length (List.filter (AdminApp.keeps "cancelled") l)
    + length (List.filter (AdminApp.keeps "failed") l).
Proof.
  induction l as [|[id o] l IH]; [done|].
  unfold AdminApp.keeps in *. cbn in IH. cbn.
  destruct (o_status o); cbn; lia.
Qed.

Lemma filter_keeps_all (l : list (string * Order)) :
  List.filter (AdminApp.keeps "all") l = l.
Proof. induction l as [|r l IH]; [done|]. cbn. by rewrite IH. Qed.

(** X26. The admin dashboard.  Under the filter "all" every stored order is
    listed; under any other filter the listed orders are exactly the stored
    orders whose status is the filter's value.  The status filters of
    STATUS_OPTIONS other than "all" split the list: the counts and the
    totals shown under them add up to the count and the total shown under
    "all". *)
Theorem admin_totals_by_status (db : Db) (s : AdminApp.State) :
  let view f := admin_view f db s in
  let total f := AdminApp.totalAmountCents (view f) in
  let count f := length (AdminApp.orders_view (view f)) in
  (∀ f id o, (id, o) ∈ AdminApp.orders_view (view f)
             ↔ orders db !! id = Some o
               ∧ (f = "all" ∨ CreateCheckout.status_text (o_status o) = f))
  ∧ count "all" = size (orders db)
  ∧ count "all" = foldr (λ f acc, count f + acc) 0 (tail AdminApp.STATUS_OPTIONS)
  ∧ total "all"
    = foldr (λ f acc, (total f + acc)%Z) 0%Z (tail AdminApp.STATUS_OPTIONS).
Proof.
  intros view total count.
  assert (Hview : ∀ f, AdminApp.orders_view (view f) = AdminApp.select_orders f db)
    by done.
  assert (Hcount : ∀ f, count f
                        = length (List.filter (AdminApp.keeps f) (map_to_list (orders db)))).
  { intros f. subst count. cbv beta. rewrite Hview. by rewrite admin_select_perm. }
  assert (Htotal : ∀ f, total f
                        = cents_sum (List.filter (AdminApp.keeps f)
                                       (map_to_list (orders db)))).
  { intros f. subst total. cbv beta. rewrite totalAmountCents_sum, Hview.
    apply cents_sum_perm, admin_select_perm. }
  split; [|split; [|split]].
  - intros f id o. rewrite Hview, admin_select_perm.
    rewrite list_elem_of_In, filter_In, <- list_elem_of_In, elem_of_map_to_list.
    unfold AdminApp.keeps. cbn [snd].
    rewrite orb_true_iff, !String.eqb_eq. tauto.
  - rewrite Hcount, filter_keeps_all. apply length_map_to_list.
  - cbn [tail AdminApp.STATUS_OPTIONS foldr].
    rewrite !Hcount, filter_keeps_all.
    rewrite (length_by_status (map_to_list (orders db))) at 1. lia.
  - cbn [tail AdminApp.STATUS_OPTIONS foldr].
    rewrite !Htotal, filter_keeps_all.
    rewrite (cents_sum_by_status (map_to_list (orders db))) at 1. lia.
Qed.
